(** * The replicator of pouchdb-server (src/index.js)

    A shallow embedding of the replication controller: the registry
    [dbData], the reconciliation routine [onChanged], the completion and
    error handlers, the write-back routine [putAsReplicatorChange] and
    [startReplicator] / [stopReplicator], followed by the properties its
    specification states about them.

    JavaScript runs every callback to completion, so each callback of the
    source is one function here: it takes the registry it sees and returns
    the registry it leaves, together with the calls it made on its
    collaborators (the storage, the replication engine, the event
    emitters), in program order. *)

From Stdlib Require Import ZArith Ascii String.
From stdpp Require Import gmap strings list fin_maps pretty.

Set Warnings "-register-all".
Open Scope string_scope.
Open Scope Z_scope.
Open Scope list_scope.

(** ** The part of the JavaScript runtime the controller relies on *)

Module JS.

(** A JavaScript value as found in a document.  An object is the finite
    map of its own properties; a string is kept as its UTF-8 encoding.
    Numbers are the integers ([Date.now()] produces those), each standing
    for the double nearest to it. *)
Inductive value :=
| VUndef
| VNull
| VBool (b : bool)
| VNum (z : Z)
| VStr (s : string)
| VArr (l : list value)
| VObj (m : gmap string value).

Fixpoint value_eq_dec (x y : value) {struct x} : Decision (x = y).
Proof.
  refine
    match x, y with
    | VUndef, VUndef => left _
    | VNull, VNull => left _
    | VBool a, VBool b => cast_if (decide (a = b))
    | VNum a, VNum b => cast_if (decide (a = b))
    | VStr a, VStr b => cast_if (decide (a = b))
    | VArr a, VArr b => cast_if (@list_eq_dec _ value_eq_dec a b)
    | VObj a, VObj b => cast_if (@gmap_eq_dec _ _ _ _ value_eq_dec a b)
    | _, _ => right _
    end; clear value_eq_dec; congruence.
Defined.

#[global] Instance value_eqdec : EqDecision value := value_eq_dec.

(** ToBoolean *)
Definition truthy (v : value) : bool :=
  match v with
  | VUndef | VNull => false
  | VBool b => b
  | VNum z => negb (z =? 0)
  | VStr s => negb (String.eqb s "")
  | VArr _ | VObj _ => true
  end.

(** [obj.f]: a missing property reads as [undefined]. *)
Definition get (f : string) (o : gmap string value) : value :=
  default VUndef (o !! f).

(** The names under which every plain object finds a property it
    inherits from [Object.prototype]: eleven functions and the accessor
    [__proto__], all of them truthy. *)
Definition Object_prototype : list string :=
  ["constructor"; "__defineGetter__"; "__defineSetter__"; "hasOwnProperty";
   "__lookupGetter__"; "__lookupSetter__"; "isPrototypeOf";
   "propertyIsEnumerable"; "toString"; "valueOf"; "__proto__";
   "toLocaleString"].

(** *** Numbers

    [binary64 p q] is the double nearest to the rational [p / q], for
    [0 <= p] and [0 < q], ties going to the even significand: [(n, u)]
    stands for [n * 2 ^ u], and [None] for the overflow to [Infinity]. *)
Definition binary64 (p q : Z) : option (Z * Z) :=
  if p =? 0 then Some (0, 0)
  else
    let k0 := Z.log2 p - Z.log2 q in
    (* 2 ^ k <= p / q < 2 ^ (k + 1) *)
    let k :=
      if (if 0 <=? k0 then q * 2 ^ k0 <=? p else q <=? p * 2 ^ (- k0))
      then k0 else k0 - 1 in
    (* the unit in the last place; subnormal below 2 ^ -1022 *)
    let u := Z.max (k - 52) (-1074) in
    let num := if 0 <=? u then p else p * 2 ^ (- u) in
    let den := if 0 <=? u then q * 2 ^ u else q in
    let n := num / den in
    let r := num mod den in
    let n :=
      if 2 * r <? den then n
      else if den <? 2 * r then n + 1
      else if Z.even n then n else n + 1 in
    if (0 <=? u) && (2 ^ 1024 <=? n * 2 ^ u) then None else Some (n, u).

(** The integer part of a double. *)
Definition integer_part (d : Z * Z) : Z :=
  if 0 <=? d.2 then d.1 * 2 ^ d.2 else d.1 / 2 ^ (- d.2).

(** The Number the integer [z] stands for, [0 <= z]. *)
Definition Number_of (z : Z) : option Z := integer_part <$> binary64 z 1.

(** The same for any integer, as an integer: [2 ^ 1024] stands for
    [Infinity]. *)
Definition Number_value (z : Z) : Z :=
  match z with
  | 0 => 0
  | Zpos _ => default (2 ^ 1024) (Number_of z)
  | Zneg p => - default (2 ^ 1024) (Number_of (Zpos p))
  end.

(** *** The deep equality of the [equals] package

    [equals(a, b)] holds of identical values, of arrays of equal length
    with equal elements, and of objects whose enumerable properties,
    the key [constructor] left out, have the same names and equal
    values; values of different types are unequal.  [strip] is what it
    looks at: of a number the double, of an object every property but
    that one. *)
Fixpoint strip (v : value) : value :=
  match v with
  | VNum z => VNum (Number_value z)
  | VArr l => VArr (List.map strip l)
  | VObj m => VObj (delete "constructor" (strip <$> m))
  | _ => v
  end.

Definition equals (a b : value) : bool := bool_decide (strip a = strip b).


(** Number::toString of a positive integral double [x] of [d] decimal
    digits looks for the fewest digits [k] such that some [s] of [k]
    digits has [s * 10 ^ (n - k)] read back as [x], and among those for
    the [s] nearest to [x]; [n] is [d], or [d + 1] when the digits are
    those of a power of ten above [x].  Seventeen digits always do. *)
Fixpoint shortest (fuel : nat) (x d k : Z) : Z * Z * Z :=
  let unit := 10 ^ (d - k) in
  let lo := x / unit in
  let hi := lo + 1 in
  let ok s := bool_decide (Number_of (s * unit) = Some x) in
  let pick s := if s =? 10 ^ k then (10 ^ (k - 1), d + 1, k) else (s, d, k) in
  match fuel with
  | O => (x, d, d)
  | S fuel =>
      if bool_decide (d ≤ k) then (x, d, d)
      else if ok lo && ok hi then
        if x - lo * unit <=? hi * unit - x then pick lo else pick hi
      else if ok lo then pick lo
      else if ok hi then pick hi
      else shortest fuel x d (k + 1)
  end.

(** Up to 21 digits the number prints in full, the digits found
    followed by zeros; from 1e21 on it prints in exponent notation. *)
Definition Number_toString_positive (x : Z) : string :=
  let d := Z.of_nat (String.length (pretty x)) in
  let '(s, n, k) := shortest 17 x d 1 in
  let s := pretty s in
  if n <=? 21 then s +:+ String.concat "" (replicate (Z.to_nat (n - k)) "0")
  else
    match s with
    | String a rest =>
        String a (if bool_decide (rest = "") then "" else "." +:+ rest)
          +:+ "e+" +:+ pretty (n - 1)
    | EmptyString => s
    end.

Definition Number_toString (z : Z) : string :=
  match z with
  | 0 => "0"
  | Zpos _ =>
      match Number_of z with
      | Some x => Number_toString_positive x
      | None => "Infinity"
      end
  | Zneg p =>
      match Number_of (Zpos p) with
      | Some x => "-" +:+ Number_toString_positive x
      | None => "-Infinity"
      end
  end.

(** ToString, as applied to a value used as a property key (see
    [printable] below for the values that have none). *)
Fixpoint ToString (v : value) : string :=
  match v with
  | VUndef => "undefined"
  | VNull => "null"
  | VBool true => "true"
  | VBool false => "false"
  | VNum z => Number_toString z
  | VStr s => s
  | VArr l =>
      String.concat ","
        (List.map (λ x, match x with VUndef | VNull => "" | _ => ToString x end) l)
  | VObj _ => "[object Object]"
  end.

(** The conversion of a value to a property key throws a TypeError when
    no string is to be had from it: for an object that has a property of
    its own named [toString] (in a document that is no function, and
    what [valueOf] returns is the object), and for an array that holds
    such an object.  Every other value has its string. *)
Fixpoint printable (v : value) : bool :=
  match v with
  | VArr l => forallb printable l
  | VObj m => bool_decide (m !! "toString" = None)
  | _ => true
  end.

(** *** Numbers read from strings

    [Array.prototype.splice] applies ToIntegerOrInfinity to its first
    argument, and [onChanged] hands it a document id, a string.  The
    functions below follow StringToNumber: white space and line
    terminators are trimmed, the empty string is 0, [Infinity] and
    decimal literals with a fraction and an exponent are read, as are the
    [0x], [0o] and [0b] literals; anything else is NaN.  The literal is
    rounded to a double, of which the integer part is kept. *)

Inductive integer_or_infinity :=
| NegInfinity
| Finite (z : Z)
| PosInfinity.

(** StrWhiteSpaceChar: TAB, LF, VT, FF, CR and the space in one byte;
    U+00A0 in two; U+1680, U+2000 to U+200A, U+2028, U+2029, U+202F,
    U+205F, U+3000 and U+FEFF in three. *)
Definition is_white_space (a : ascii) : bool :=
  let n := N_of_ascii a in
  ((9 <=? n) && (n <=? 13) || (n =? 32))%N.

Definition is_white_space2 (a b : ascii) : bool :=
  ((N_of_ascii a =? 194) && (N_of_ascii b =? 160))%N.

Definition is_white_space3 (a b c : ascii) : bool :=
  let '(l, m, n) := (N_of_ascii a, N_of_ascii b, N_of_ascii c) in
  ((l =? 225) && (m =? 154) && (n =? 128)
   || (l =? 226) && (m =? 128)
      && ((128 <=? n) && (n <=? 138) || (n =? 168) || (n =? 169) || (n =? 175))
   || (l =? 226) && (m =? 129) && (n =? 159)
   || (l =? 227) && (m =? 128) && (n =? 128)
   || (l =? 239) && (m =? 187) && (n =? 191))%N.

Fixpoint trim_start (s : list ascii) : list ascii :=
  match s with
  | a :: s1 =>
      if is_white_space a then trim_start s1
      else
        match s1 with
        | b :: s2 =>
            if is_white_space2 a b then trim_start s2
            else
              match s2 with
              | c :: s3 => if is_white_space3 a b c then trim_start s3 else s
              | [] => s
              end
        | [] => s
        end
  | [] => []
  end.

Fixpoint trim_end (s : list ascii) : list ascii :=
  match s with
  | a :: s' =>
      if bool_decide (trim_start s = []) then [] else a :: trim_end s'
  | [] => []
  end.

Definition trim (s : list ascii) : list ascii := trim_end (trim_start s).

Definition digit_of (radix : N) (a : ascii) : option N :=
  let n := N_of_ascii a in
  let d :=
    if ((48 <=? n) && (n <=? 57))%N then Some (n - 48)%N
    else if ((97 <=? n) && (n <=? 102))%N then Some (n - 87)%N
    else if ((65 <=? n) && (n <=? 70))%N then Some (n - 55)%N
    else None in
  match d with
  | Some d => if (d <? radix)%N then Some d else None
  | None => None
  end.

(** The longest run of digits at the head of [s]: its value, its length
    and what follows it. *)
Fixpoint digits (radix : N) (acc : N) (len : nat) (s : list ascii)
  : N * nat * list ascii :=
  match s with
  | a :: s' =>
      match digit_of radix a with
      | Some d => digits radix (acc * radix + d)%N (S len) s'
      | None => (acc, len, s)
      end
  | [] => (acc, len, s)
  end.

(** ExponentPart, when present: [e] or [E], a sign, digits. *)
Definition exponent (s : list ascii) : option Z :=
  match s with
  | [] => Some 0
  | a :: s' =>
      if bool_decide (a = "e"%char ∨ a = "E"%char) then
        let '(neg, s'') :=
          match s' with
          | "-"%char :: t => (true, t)
          | "+"%char :: t => (false, t)
          | _ => (false, s')
          end in
        match digits 10 0 0 s'' with
        | (_, O, _) => None
        | (e, _, []) => Some (if neg : bool then - Z.of_N e else Z.of_N e)
        | _ => None
        end
      else None
  end.

(** The integer part of the Number nearest to [p / q]. *)
Definition rounded (p q : Z) : integer_or_infinity :=
  match binary64 p q with
  | Some d => Finite (integer_part d)
  | None => PosInfinity
  end.

(** StrUnsignedDecimalLiteral; [None] is NaN. *)
Definition unsigned_decimal (s : list ascii) : option integer_or_infinity :=
  if bool_decide (s = list_ascii_of_string "Infinity") then Some PosInfinity
  else
    let '(int, ilen, rest) := digits 10 0 0 s in
    let '(mant, flen, rest) :=
      match rest with
      | "."%char :: t => digits 10 int 0 t
      | _ => (int, O, rest)
      end in
    if bool_decide (ilen = O ∧ flen = O) then None
    else
      match exponent rest with
      | Some e =>
          let scale := e - Z.of_nat flen in
          Some (if 0 <=? scale then rounded (Z.of_N mant * 10 ^ scale) 1
                else rounded (Z.of_N mant) (10 ^ (- scale)))
      | None => None
      end.

Definition radix_literal (s : list ascii) : option integer_or_infinity :=
  match s with
  | "0"%char :: p :: t =>
      let radix :=
        if bool_decide (p = "x"%char ∨ p = "X"%char) then Some 16%N
        else if bool_decide (p = "o"%char ∨ p = "O"%char) then Some 8%N
        else if bool_decide (p = "b"%char ∨ p = "B"%char) then Some 2%N
        else None in
      match radix with
      | Some r =>
          match digits r 0 0 t with
          | (_, O, _) => None
          | (n, _, []) => Some (rounded (Z.of_N n) 1)
          | _ => None
          end
      | None => None
      end
  | _ => None
  end.

Definition negate (n : integer_or_infinity) : integer_or_infinity :=
  match n with
  | NegInfinity => PosInfinity
  | Finite z => Finite (- z)
  | PosInfinity => NegInfinity
  end.

(** ToIntegerOrInfinity(ToNumber(s)); NaN becomes 0. *)
Definition ToIntegerOrInfinity (s : string) : integer_or_infinity :=
  let t := trim (list_ascii_of_string s) in
  let n :=
    match t with
    | [] => Some (Finite 0)
    | "-"%char :: u => negate <$> unsigned_decimal u
    | "+"%char :: u => unsigned_decimal u
    | _ =>
        match radix_literal t with
        | Some n => Some n
        | None => unsigned_decimal t
        end
    end in
  default (Finite 0) n.

(** *** Arrays *)

(** [l.indexOf(x)]: the first index holding [x], or -1. *)
Fixpoint indexOf `{EqDecision A} (x : A) (l : list A) : Z :=
  match l with
  | [] => -1
  | y :: l' =>
      if decide (x = y) then 0
      else let i := indexOf x l' in if i <? 0 then -1 else i + 1
  end.

(** [l.splice(start, deleteCount)], the array it leaves behind. *)
Definition splice {A} (start : integer_or_infinity) (deleteCount : Z)
    (l : list A) : list A :=
  let len := Z.of_nat (length l) in
  let actualStart :=
    match start with
    | NegInfinity => 0
    | Finite z => if z <? 0 then Z.max (len + z) 0 else Z.min z len
    | PosInfinity => len
    end in
  let actualDeleteCount := Z.min (Z.max deleteCount 0) (len - actualStart) in
  take (Z.to_nat actualStart) l
    ++ drop (Z.to_nat (actualStart + actualDeleteCount)) l.

(** [l[i] = x] on an array: indices past the end are filled with holes. *)
Definition array_set {A} (i : nat) (x : A) (l : list (option A))
  : list (option A) :=
  if decide (i < length l)%nat then <[i := Some x]> l
  else l ++ replicate (i - length l) None ++ [Some x].

End JS.

Import JS.

(** ** Documents, handles and the calls made on the collaborators *)

(** A database object and an event emitter (the change feed of a database,
    or the replication [PouchDB.replicate] returns) are known by their
    identity. *)
Definition Db := nat.
Definition Handle := nat.

(** A document of the replicator database.  The storage hands out
    documents whose [_id] is a string; [fields] holds every other own
    property ([_rev], [_deleted], [source], [replication_id], ...). *)
Record Doc := mkDoc {
  _id : string;
  fields : gmap string value;
}.

#[global] Instance Doc_eqdec : EqDecision Doc.
Proof. solve_decision. Defined.

(** [doc.f] and [doc.f = v] *)
Definition field (f : string) (doc : Doc) : value := get f (fields doc).

Definition set_field (f : string) (v : value) (doc : Doc) : Doc :=
  mkDoc (_id doc) (<[f := v]> (fields doc)).

(** The error objects that reach the controller carry a [status]. *)
Record Err := mkErr {
  status : Z;
  name : string;
  message : string;
}.

#[global] Instance Err_eqdec : EqDecision Err.
Proof. solve_decision. Defined.

(** How a callback ends: it returns, or it throws (which rejects the
    promise the callback belongs to). *)
Inductive Outcome :=
| Returned
| Thrown (err : Err).

Inductive EventName := change | complete | error.

#[global] Instance EventName_eqdec : EqDecision EventName.
Proof. solve_decision. Defined.

(** The function [updateExistingDoc] applies to the document it fetched:
    the closure of [onReplicationComplete] or of [onReplicationError],
    together with the [info] it captured. *)
Inductive Func :=
| SetCompleted (info : gmap string value)
| SetError (info : gmap string value).

#[global] Instance Func_eqdec : EqDecision Func.
Proof. solve_decision. Defined.

(** The listeners the controller registers on event emitters. *)
Inductive Listener :=
| OnChange (db : Db)
    (* function (change) { onChanged(db, change.doc); } *)
| OnReplicationComplete (db : Db) (docId : string)
    (* onReplicationComplete.bind(null, db, docId) *)
| OnReplicationError (db : Db) (docId : string)
    (* onReplicationError.bind(null, db, docId) *)
| DoneCancelling (stop : nat) (eventEmitter : Handle).
    (* doneCancelling.bind(null, cancelable), of one call of stopReplicator *)

#[global] Instance Listener_eqdec : EqDecision Listener.
Proof. solve_decision. Defined.

(** The calls a callback makes, in program order. *)
Inductive Cmd :=
| Cancel (h : Handle)
    (* h.cancel() *)
| Replicate (h : Handle) (source target : value) (options : Doc)
    (* h = PouchDB.replicate(source, target, options) *)
| On (h : Handle) (ev : EventName) (l : Listener)
    (* h.on(ev, l) *)
| Get (docId : string) (func : Func)
    (* db.get(docId).then(...), of updateExistingDoc *)
| Put (doc : Doc) (roles : list string)
    (* db.put(doc, {userCtx: {roles: roles}}).catch(...), of
       putAsReplicatorChange *)
| CatchConflict (docId : string) (func : Func).
    (* .catch(function (err) {...}) that updateExistingDoc chains to the
       promise of putAsReplicatorChange *)

#[global] Instance Cmd_eqdec : EqDecision Cmd.
Proof. solve_decision. Defined.

(** ** The registry of one database *)

(** What [dataFor(db)] returns.  [changes] is the subscription to the
    change feed, undefined until [startReplicator] has subscribed.  An
    entry of [activeReplicationSignaturesByRepId] holds a signature (a
    document without [_id] and [_rev]) or, for a tombstone that restarts,
    what was read under its replication id when that was no signature:
    [undefined], or a function inherited from [Object.prototype].
    Neither equals a signature, and [None] stands for both.  Objects are
    modelled by their own properties. *)
Record Data := mkData {
  changes : option Handle;
  activeReplicationsById : gmap string Handle;
  activeReplicationSignaturesByRepId : gmap string (option (gmap string value));
  changedByReplicator : list string;
}.

#[global] Instance Data_eqdec : EqDecision Data.
Proof. solve_decision. Defined.

Definition set_activeReplicationsById
    (f : gmap string Handle → gmap string Handle) (data : Data) : Data :=
  mkData (changes data) (f (activeReplicationsById data))
    (activeReplicationSignaturesByRepId data) (changedByReplicator data).

Definition set_activeReplicationSignaturesByRepId
    (f : gmap string (option (gmap string value))
         → gmap string (option (gmap string value)))
    (data : Data) : Data :=
  mkData (changes data) (activeReplicationsById data)
    (f (activeReplicationSignaturesByRepId data)) (changedByReplicator data).

Definition set_changedByReplicator
    (f : list string → list string) (data : Data) : Data :=
  mkData (changes data) (activeReplicationsById data)
    (activeReplicationSignaturesByRepId data) (f (changedByReplicator data)).

(** What the environment hands to one run of [onChanged]: the result of
    [uuid()] (a version 4 UUID), the result of [Date.now()] and the
    object [PouchDB.replicate] returns, each used only if the run makes
    the call. *)
Record Env := mkEnv {
  uuid : string;
  now : Z;
  replication : Handle;
}.

(** ** The controller *)

Definition cleanupReplicationData (doc : Doc) (data : Data) : Data :=
  set_activeReplicationSignaturesByRepId
    (delete (ToString (field "replication_id" doc)))
    (set_activeReplicationsById (delete (_id doc)) data).

(** [equals(signature, searchedSignature)], for what an entry holds. *)
Definition matches (searchedSignature : gmap string value)
    (signature : option (gmap string value)) : bool :=
  match signature with
  | Some signature => equals (VObj signature) (VObj searchedSignature)
  | None => false
  end.

(** The [for (repId in ...)] loop: the first entry, in the enumeration
    order of the object, whose signature equals the searched one.  The
    order in which JavaScript enumerates the keys is not the order of
    [map_to_list]; the statements below hold for whichever entry comes
    first. *)
Definition getMatchingSignatureId (searchedSignature : gmap string value)
    (data : Data) : option string :=
  fst <$> List.find (λ entry, matches searchedSignature entry.2)
    (map_to_list (activeReplicationSignaturesByRepId data)).

Definition replicator_roles : list string := ["_replicator"; "_admin"].

Definition putAsReplicatorChange (now : Z) (doc : Doc) (data : Data)
    : Doc * Data * Cmd :=
  let doc :=
    if truthy (field "replication_state" doc)
    then set_field "replication_state_time" (VNum now) doc
    else doc in
  let data := set_changedByReplicator (λ l, l ++ [_id doc]) data in
  (doc, data, Put doc replicator_roles).

(** The [catch] callback of [putAsReplicatorChange], run when [db.put]
    fails: on the array captured when the put was issued. *)
Definition putAsReplicatorChange_catch (doc : Doc) (err : Err)
    (changedByReplicator : list string) : list string * Outcome :=
  let idx := indexOf (_id doc) changedByReplicator in
  (splice (Finite idx) 1 changedByReplicator, Thrown err).

(** [onChanged] from the snapshot copy on, block by block. *)

(** [if (oldReplication) { oldReplication.cancel(); }], where
    [oldReplication] is [data.activeReplicationsById[doc._id]], read from
    a plain object: the calls made, or [None] for the TypeError thrown
    when the id names no replication of the registry but a property
    inherited from [Object.prototype], which has no [cancel]. *)
Definition cancel_oldReplication (doc : Doc) (data : Data)
    : option (list Cmd) :=
  match activeReplicationsById data !! _id doc with
  | Some h => Some [Cancel h]
  | None =>
      if bool_decide (_id doc ∈ Object_prototype) then None else Some []
  end.

(** [if (!doc._deleted) {...}]: the document and [currentSignature]
    after the block. *)
Definition assign_replication_id (env : Env) (doc : Doc) (data : Data)
    (currentSignature : option (gmap string value))
    : Doc * option (gmap string value) :=
  if negb (truthy (field "_deleted" doc)) then
    (* update doc so it's ready to be replicated (if necessary) *)
    let currentSignature := delete "_rev" (fields doc) in
    let triggered :=
      set_field "replication_state" (VStr "triggered")
        (set_field "replication_id" (VStr (uuid env)) doc) in
    match getMatchingSignatureId currentSignature data with
    | Some repId =>
        if truthy (VStr repId)
        then (set_field "replication_id" (VStr repId) doc,
              Some currentSignature)
        else (triggered, Some currentSignature)
    | None => (triggered, Some currentSignature)
    end
  else (doc, currentSignature).

(** [data.activeReplicationSignaturesByRepId[repId] = currentSignature].
    The key [__proto__] names the prototype of the object, not a property
    of its own: assigning to it what was read from it, or [undefined],
    leaves the object as it is.  (A signature is assigned under the id of
    an entry or under a UUID.) *)
Definition file_signature (repId : string)
    (currentSignature : option (gmap string value))
    (signatures : gmap string (option (gmap string value)))
    : gmap string (option (gmap string value)) :=
  match currentSignature with
  | None =>
      if bool_decide (repId = "__proto__") then signatures
      else <[repId := None]> signatures
  | Some _ => <[repId := currentSignature]> signatures
  end.

(** [if (doc.replication_state === "triggered") {...}] *)
Definition start_if_triggered (env : Env) (db : Db) (doc : Doc)
    (currentSignature : option (gmap string value)) (data : Data)
    : Data * list Cmd :=
  if bool_decide (field "replication_state" doc = VStr "triggered") then
    (* (re)start actual replication *)
    let h := replication env in
    (set_activeReplicationSignaturesByRepId
       (file_signature (ToString (field "replication_id" doc))
          currentSignature)
       (set_activeReplicationsById (<[_id doc := h]>) data),
     [Replicate h (field "source" doc) (field "target" doc) doc;
      On h complete (OnReplicationComplete db (_id doc));
      On h error (OnReplicationError db (_id doc))])
  else (data, []).

(** [equals(doc, docCopy)]: the id and the other properties. *)
Definition equals_Doc (doc docCopy : Doc) : bool :=
  bool_decide (_id doc = _id docCopy)
  && equals (VObj (fields doc)) (VObj (fields docCopy)).

(** [if (!equals(doc, docCopy)) {...}] *)
Definition put_if_changed (env : Env) (docCopy doc : Doc) (data : Data)
    : Doc * Data * list Cmd :=
  if negb (equals_Doc doc docCopy) then
    let '(doc, data, put) := putAsReplicatorChange (now env) doc data in
    (doc, data, [put])
  else (doc, data, []).

(** [if (doc.replication_id) { currentSignature = ...[doc.replication_id]; }]
    throws when the replication id is set to a value that makes no
    property key. *)
Definition currentSignature_throws (doc : Doc) : bool :=
  truthy (field "replication_id" doc)
  && negb (printable (field "replication_id" doc)).

(** When [oldReplication.cancel()] throws, nothing has been changed or
    called yet; when the look-up of [currentSignature] throws, the old
    replication has been cancelled. *)
Definition reconcile (env : Env) (db : Db) (doc : Doc) (data : Data)
    : Doc * Data * list Cmd :=
  let docCopy := doc in
  (* stop an ongoing replication (if one) *)
  match cancel_oldReplication doc data with
  | None => (doc, data, [])
  | Some cancelled =>
      if currentSignature_throws doc then (doc, data, cancelled)
      else
        let currentSignature :=
          if truthy (field "replication_id" doc)
          then mjoin (activeReplicationSignaturesByRepId data
                        !! ToString (field "replication_id" doc))
          else None in
        let data := cleanupReplicationData doc data in
        let '(doc, currentSignature) :=
          assign_replication_id env doc data currentSignature in
        let '(data, started) :=
          start_if_triggered env db doc currentSignature data in
        let '(doc, data, written) := put_if_changed env docCopy doc data in
        (doc, data, cancelled ++ started ++ written)
  end.

(** The document, the registry and the calls made when the run ends, by
    returning or by throwing ([onChanged_throws] tells which).  The
    document [PouchDB.replicate] gets as its options is the object
    [putAsReplicatorChange] stamps afterwards; [Replicate] records it as it
    is at the call. *)
Definition onChanged (env : Env) (db : Db) (doc : Doc) (data : Data)
    : Doc * Data * list Cmd :=
  let isReplicatorChange :=
    bool_decide (indexOf (_id doc) (changedByReplicator data) ≠ -1) in
  let data :=
    if isReplicatorChange
    then set_changedByReplicator
           (splice (ToIntegerOrInfinity (_id doc)) 1) data
    else data in
  if isReplicatorChange || String.prefix "_design" (_id doc)
  then
    (* prevent recursion & design docs respectively *)
    (doc, data, [])
  else reconcile env db doc data.

(** Whether the run ends by throwing: once [dataFor] has returned it
    can at the call of [oldReplication.cancel] and at the look-up of
    [currentSignature]. *)
Definition onChanged_throws (doc : Doc) (data : Data) : bool :=
  let isReplicatorChange :=
    bool_decide (indexOf (_id doc) (changedByReplicator data) ≠ -1) in
  negb (isReplicatorChange || String.prefix "_design" (_id doc))
  && (bool_decide (cancel_oldReplication doc data = None)
      || currentSignature_throws doc).

Definition updateExistingDoc (docId : string) (func : Func) : list Cmd :=
  [Get docId func].

Definition onReplicationComplete (docId : string)
    (info : gmap string value) : list Cmd :=
  let info := delete "ok" (delete "status" info) in
  updateExistingDoc docId (SetCompleted info).

Definition onReplicationError (docId : string)
    (info : gmap string value) : list Cmd :=
  updateExistingDoc docId (SetError info).

(** [func(doc)] *)
Definition apply_func (func : Func) (doc : Doc) : Doc :=
  match func with
  | SetCompleted info =>
      set_field "replication_stats" (VObj info)
        (set_field "replication_state" (VStr "completed") doc)
  | SetError info =>
      set_field "replication_state_reason" (get "message" info)
        (set_field "replication_state" (VStr "error") doc)
  end.

(** The [then] callback of [updateExistingDoc], run with the document
    [db.get] fetched: the document of a replication, which carries the
    replication id [onChanged] gave it, a string. *)
Definition updateExistingDoc_then (now : Z) (docId : string) (func : Func)
    (doc : Doc) (data : Data) : Doc * Data * list Cmd :=
  let data := cleanupReplicationData doc data in
  let doc := apply_func func doc in
  let '(doc, data, put) := putAsReplicatorChange now doc data in
  (doc, data, [put; CatchConflict docId func]).

(** The [catch] callback of [updateExistingDoc], run with the error
    [putAsReplicatorChange] rethrew. *)
Definition updateExistingDoc_catch (docId : string) (func : Func)
    (err : Err) : list Cmd * Outcome :=
  if status err =? 409 then (updateExistingDoc docId func, Returned)
  else ([], Thrown err).

(** ** The module-level registry and the event loop *)

(** [dbData]: five arrays indexed alike.  The array of one database's
    pending self-writes is captured by the [catch] callback of
    [putAsReplicatorChange], which may run after the registry has moved
    on; it is kept with its identity. *)
Record DbData := mkDbData {
  dbs : list Db;
  changesByDbIdx : list (option Handle);
  activeReplicationsByDbIdxAndId : list (option (gmap string Handle));
  activeReplicationSignaturesByDbIdxAndRepId :
    list (option (gmap string (option (gmap string value))));
  changedByReplicatorByDbIdx : list (option (nat * list string));
}.

(** Calls made outside [onChanged] and the handlers. *)
Inductive Call :=
| Did (db : Db) (c : Cmd)
| InstallValidationMethods (db : Db)
| UninstallValidationMethods (db : Db)
| PutDesignDoc (db : Db)
| AllDocs (db : Db)
| Changes (db : Db) (h : Handle)
    (* h = db.changes({since: "now", live: true, ...}) *)
| NextTickCancel (h : Handle)
    (* process.nextTick(h.cancel.bind(h)) *)
| RemoveAllListeners (h : Handle) (ev : option EventName).

(** The promise [stopReplicator] returns, with the counter its executor
    closes over. *)
Inductive StopPromise :=
| Cancelling     (* the executor has run, [resolve] has not been called *)
| Cancelled      (* [resolve] was called, the [then] callback is due *)
| Stopped        (* the [then] callback has run: fulfilled *)
| Failed.        (* rejected *)

#[global] Instance StopPromise_eqdec : EqDecision StopPromise.
Proof. solve_decision. Defined.

Record Stop := mkStop {
  stop_db : Db;
  stillCancellingCount : Z;
  promise : StopPromise;
}.

(** The state the event loop runs on: the registry, the databases on
    which the validation plug-in has its methods installed, the listeners
    registered on every emitter (in registration order), the number of
    objects created so far (the identity of the next one), the calls of
    [stopReplicator] and the calls made so far. *)
Record World := mkWorld {
  dbData : DbData;
  validating : gset Db;
  listeners : list (Handle * EventName * Listener);
  objects : nat;
  stops : list Stop;
  calls : list Call;
}.

Definition set_dbData (f : DbData → DbData) (w : World) : World :=
  mkWorld (f (dbData w)) (validating w) (listeners w) (objects w)
    (stops w) (calls w).

Definition set_validating (f : gset Db → gset Db) (w : World) : World :=
  mkWorld (dbData w) (f (validating w)) (listeners w) (objects w)
    (stops w) (calls w).

Definition set_listeners
    (f : list (Handle * EventName * Listener)
         → list (Handle * EventName * Listener)) (w : World) : World :=
  mkWorld (dbData w) (validating w) (f (listeners w)) (objects w)
    (stops w) (calls w).

Definition set_objects (f : nat → nat) (w : World) : World :=
  mkWorld (dbData w) (validating w) (listeners w) (f (objects w))
    (stops w) (calls w).

Definition set_stops (f : list Stop → list Stop) (w : World) : World :=
  mkWorld (dbData w) (validating w) (listeners w) (objects w)
    (f (stops w)) (calls w).

Definition log (c : Call) (w : World) : World :=
  mkWorld (dbData w) (validating w) (listeners w) (objects w)
    (stops w) (calls w ++ [c]).

Definition initial : World :=
  mkWorld (mkDbData [] [] [] [] []) ∅ [] 0 [] [].

(** [dataFor(db)], with the index it found.  [None] stands for the
    exception [Error("db doesn't exist")]; it also covers a registry whose
    arrays have no object at the index of [db], which [startReplicator]
    and [stopReplicator], filling and splicing the arrays together, do
    not produce. *)
Definition dataFor (db : Db) (D : DbData) : option (nat * Data) :=
  let dbIdx := indexOf db (dbs D) in
  if dbIdx =? -1 then None
  else
    let i := Z.to_nat dbIdx in
    match mjoin (activeReplicationsByDbIdxAndId D !! i),
          mjoin (activeReplicationSignaturesByDbIdxAndRepId D !! i),
          mjoin (changedByReplicatorByDbIdx D !! i) with
    | Some reps, Some sigs, Some (_, marks) =>
        Some (i, mkData (mjoin (changesByDbIdx D !! i)) reps sigs marks)
    | _, _, _ => None
    end.

(** The objects [dataFor] handed out are those of the registry: what a
    callback did to them shows at their index. *)
Definition store (i : nat) (data : Data) (D : DbData) : DbData :=
  mkDbData (dbs D) (changesByDbIdx D)
    (<[i := Some (activeReplicationsById data)]>
       (activeReplicationsByDbIdxAndId D))
    (<[i := Some (activeReplicationSignaturesByRepId data)]>
       (activeReplicationSignaturesByDbIdxAndRepId D))
    (alter (fmap (λ a, (a.1, changedByReplicator data))) i
       (changedByReplicatorByDbIdx D)).

(** Carrying out the calls of a callback that ran for [db]. *)
Definition exec1 (db : Db) (c : Cmd) (w : World) : World :=
  log (Did db c)
    match c with
    | Replicate h _ _ _ => set_objects S w
    | On h ev l => set_listeners (λ ls, ls ++ [(h, ev, l)]) w
    | _ => w
    end.

Definition exec (db : Db) (cmds : list Cmd) (w : World) : World :=
  foldl (λ w c, exec1 db c w) w cmds.

(** The listeners a list of calls registers. *)
Definition registrations (cmds : list Cmd)
    : list (Handle * EventName * Listener) :=
  omap (λ c, match c with On h ev l => Some (h, ev, l) | _ => None end) cmds.

(** [onChanged(db, doc)] on the world; [None] when it throws. *)
Definition run_onChanged (db : Db) (doc : Doc) (uuid : string) (now : Z)
    (w : World) : option World :=
  match dataFor db (dbData w) with
  | Some (i, data) =>
      if onChanged_throws doc data then None
      else
        let '(_, data, cmds) :=
          onChanged (mkEnv uuid now (objects w)) db doc data in
        Some (exec db cmds (set_dbData (store i data) w))
  | None => None
  end.

(** The world a run of [onChanged] that throws leaves behind: the
    registry is as it was, and the calls made before it threw have been
    made. *)
Definition thrown_onChanged (db : Db) (doc : Doc) (uuid : string) (now : Z)
    (w : World) : World :=
  match dataFor db (dbData w) with
  | Some (_, data) =>
      exec db (onChanged (mkEnv uuid now (objects w)) db doc data).2 w
  | None => w
  end.

(** [doneCancelling(eventEmitter)] inside the call [stop] of
    [stopReplicator]. *)
Definition doneCancelling (stop : nat) (eventEmitter : Handle) (w : World)
    : World :=
  let w := log (RemoveAllListeners eventEmitter None)
             (set_listeners (filter (λ r, r.1.1 ≠ eventEmitter)) w) in
  set_stops
    (alter (λ s,
       let count := stillCancellingCount s - 1 in
       mkStop (stop_db s) count
         (if (count =? 0) && bool_decide (promise s = Cancelling)
          then Cancelled else promise s)) stop) w.

(** What an emitter hands to its listeners. *)
Inductive Payload :=
| Change (doc : Doc) (uuid : string) (now : Z)
    (* a change with its document; and what uuid() and Date.now() return
       while the listeners run *)
| Info (info : gmap string value).

Definition event_of (failed : bool) : EventName :=
  if failed then error else complete.

(** Running one listener; [None] when it throws.  The controller
    registers [OnChange] for [change] events and the others for
    [complete] and [error] events. *)
Definition run_listener (l : Listener) (p : Payload) (w : World)
    : option World :=
  match l, p with
  | OnChange db, Change doc uuid now => run_onChanged db doc uuid now w
  | OnReplicationComplete db docId, Info info =>
      Some (exec db (onReplicationComplete docId info) w)
  | OnReplicationError db docId, Info info =>
      Some (exec db (onReplicationError docId info) w)
  | DoneCancelling stop h, _ => Some (doneCancelling stop h w)
  | _, _ => None
  end.

(** The world a listener that throws leaves behind. *)
Definition thrown (l : Listener) (p : Payload) (w : World) : World :=
  match l, p with
  | OnChange db, Change doc uuid now => thrown_onChanged db doc uuid now w
  | _, _ => w
  end.

(** [h.emit(ev, payload)]: the listeners registered for [ev] when the
    event is emitted run in turn; one that throws ends the emission. *)
Fixpoint run_listeners (ls : list Listener) (p : Payload) (w : World)
    : World :=
  match ls with
  | [] => w
  | l :: ls' =>
      match run_listener l p w with
      | Some w' => run_listeners ls' p w'
      | None => thrown l p w
      end
  end.

Definition listeners_of (h : Handle) (ev : EventName) (w : World)
    : list Listener :=
  snd <$> filter (λ r, r.1 = (h, ev)) (listeners w).

Definition emit (h : Handle) (ev : EventName) (p : Payload) (w : World)
    : World :=
  run_listeners (listeners_of h ev w) p w.

Definition already_active : Err :=
  mkErr 500 "already_active" "Replicator already active on this database.".

Definition already_inactive : Err :=
  mkErr 500 "already_inactive"
    "Replicator already inactive on this database.".

(** The synchronous part of [startReplicator]: the world it leaves and,
    when the promise it returns is rejected at once, the error.
    [Validation.installValidationMethods] throws when the methods are
    installed already. *)
Definition startReplicator (db : Db) (w : World) : World * option Err :=
  if bool_decide (db ∈ validating w) then (w, Some already_active)
  else
    let w := log (InstallValidationMethods db)
               (set_validating (λ v, {[db]} ∪ v) w) in
    let i := length (dbs (dbData w)) in
    let w :=
      set_dbData (λ D,
        mkDbData (dbs D ++ [db]) (changesByDbIdx D)
          (array_set i ∅ (activeReplicationsByDbIdxAndId D))
          (array_set i ∅ (activeReplicationSignaturesByDbIdxAndRepId D))
          (array_set i (objects w, []) (changedByReplicatorByDbIdx D)))
        w in
    (log (PutDesignDoc db) (set_objects S w), None).

(** [rows.forEach(function (row) { onChanged(db, row.doc); })]: the world
    it leaves, and whether it ran to its end. *)
Fixpoint forEach_onChanged (db : Db) (rows : list (Doc * string * Z))
    (w : World) : World * bool :=
  match rows with
  | [] => (w, true)
  | (doc, uuid, now) :: rows' =>
      match run_onChanged db doc uuid now w with
      | Some w' => forEach_onChanged db rows' w'
      | None => (thrown_onChanged db doc uuid now w, false)
      end
  end.

(** The last [then] callback of [startReplicator]: subscribe to the
    change feed.  [i] is the index [startReplicator] computed. *)
Definition startReplicator_subscribe (db : Db) (i : nat) (w : World)
    : World :=
  let h := objects w in
  let w := log (Changes db h) (set_objects S w) in
  let w := exec1 db (On h change (OnChange db)) w in
  set_dbData (λ D,
    mkDbData (dbs D) (array_set i h (changesByDbIdx D))
      (activeReplicationsByDbIdxAndId D)
      (activeReplicationSignaturesByDbIdxAndRepId D)
      (changedByReplicatorByDbIdx D)) w.

(** [cancel(cancelable)] inside the call [stop] of [stopReplicator] *)
Definition cancel (stop : nat) (cancelable : Handle) (w : World) : World :=
  let w := set_listeners
    (λ ls, ls ++ [(cancelable, complete, DoneCancelling stop cancelable);
                  (cancelable, error, DoneCancelling stop cancelable)]) w in
  let w := log (NextTickCancel cancelable) w in
  set_stops
    (alter (λ s, mkStop (stop_db s) (stillCancellingCount s + 1) (promise s))
       stop) w.

(** [stopReplicator]: the world it leaves and, when the promise it
    returns is rejected at once, the error.  Otherwise the promise is
    the last of [stops]. *)
Definition stopReplicator (db : Db) (w : World) : World * option Err :=
  match dataFor db (dbData w) with
  | None => (w, Some already_inactive)
  | Some (_, data) =>
      let index := Finite (indexOf db (dbs (dbData w))) in
      (* clean up *)
      let w :=
        set_dbData (λ D,
          mkDbData (splice index 1 (dbs D))
            (splice index 1 (changesByDbIdx D))
            (splice index 1 (activeReplicationsByDbIdxAndId D))
            (splice index 1 (activeReplicationSignaturesByDbIdxAndRepId D))
            (splice index 1 (changedByReplicatorByDbIdx D))) w in
      let stop := length (stops w) in
      match changes data with
      | None =>
          (* cancel(undefined) throws inside the executor *)
          (set_stops (λ ss, ss ++ [mkStop db 0 Failed]) w, None)
      | Some feed =>
          let w := set_stops (λ ss, ss ++ [mkStop db 0 Cancelling]) w in
          (* cancel changes/replications *)
          let w := cancel stop feed w in
          let w :=
            log (RemoveAllListeners feed (Some change))
              (set_listeners (filter (λ r, r.1 ≠ (feed, change))) w) in
          (foldl (λ w entry, cancel stop entry.2 w) w
             (map_to_list (activeReplicationsById data)), None)
      end
  end.

(** The [then] callback of [stopReplicator]: relax the validation.
    [Validation.uninstallValidationMethods] throws when the methods are
    not installed. *)
Definition stopReplicator_then (stop : nat) (w : World) : World :=
  match stops w !! stop with
  | Some s =>
      if bool_decide (promise s = Cancelled) then
        if bool_decide (stop_db s ∈ validating w) then
          set_stops
            (<[stop := mkStop (stop_db s) (stillCancellingCount s) Stopped]>)
            (log (UninstallValidationMethods (stop_db s))
               (set_validating (λ v, v ∖ {[stop_db s]}) w))
        else
          set_stops
            (<[stop := mkStop (stop_db s) (stillCancellingCount s) Failed]>) w
      else w
  | None => w
  end.

(** What happens to the controller, one callback at a time. *)
Inductive Event :=
| Start (db : Db)
    (* db.startReplicator() *)
| DesignDocSettled (db : Db)
    (* db.put(DESIGN_DOC) succeeded or failed *)
| AllDocsFetched (db : Db) (i : nat) (rows : list (Doc * string * Z))
    (* db.allDocs resolved; then the subscription *)
| StopCalled (db : Db)
    (* db.stopReplicator() *)
| StopThen (stop : nat)
| Emit (h : Handle) (ev : EventName) (p : Payload)
| Fetched (db : Db) (docId : string) (func : Func) (doc : Doc) (now : Z)
    (* db.get(docId), of updateExistingDoc, resolved *)
| PutFailed (db : Db) (array : nat) (doc : Doc) (err : Err)
      (retry : option (string * Func)).
    (* db.put(doc), issued while the array [array] held the pending
       self-writes, failed; [retry] when updateExistingDoc issued it *)

(** The [then] callback of [updateExistingDoc] on the world.  When
    [dataFor] throws, the promise is rejected and nothing else happens. *)
Definition run_updateExistingDoc_then (db : Db) (docId : string)
    (func : Func) (doc : Doc) (now : Z) (w : World) : World :=
  match dataFor db (dbData w) with
  | Some (i, data) =>
      let '(_, data, cmds) := updateExistingDoc_then now docId func doc data in
      exec db cmds (set_dbData (store i data) w)
  | None => w
  end.

(** The two [catch] callbacks of a failed put: the one of
    [putAsReplicatorChange] works on the array it captured (which shows
    in the registry if it still is there), then the one of
    [updateExistingDoc], if chained, gets the error. *)
Definition run_put_failed (db : Db) (array : nat) (doc : Doc) (err : Err)
    (retry : option (string * Func)) (w : World) : World :=
  let w :=
    set_dbData (λ D,
      mkDbData (dbs D) (changesByDbIdx D)
        (activeReplicationsByDbIdxAndId D)
        (activeReplicationSignaturesByDbIdxAndRepId D)
        ((λ a : option (nat * list string),
            match a with
            | Some (r, marks) =>
                if decide (r = array)
                then Some (r, (putAsReplicatorChange_catch doc err marks).1)
                else a
            | None => None
            end) <$> changedByReplicatorByDbIdx D)) w in
  match retry with
  | Some (docId, func) => exec db (updateExistingDoc_catch docId func err).1 w
  | None => w
  end.

Definition step (e : Event) (w : World) : World :=
  match e with
  | Start db => (startReplicator db w).1
  | DesignDocSettled db => log (AllDocs db) w
  | AllDocsFetched db i rows =>
      let '(w, done) := forEach_onChanged db rows w in
      if done : bool then startReplicator_subscribe db i w else w
  | StopCalled db => (stopReplicator db w).1
  | StopThen stop => stopReplicator_then stop w
  | Emit h ev p => emit h ev p w
  | Fetched db docId func doc now =>
      run_updateExistingDoc_then db docId func doc now w
  | PutFailed db array doc err retry =>
      run_put_failed db array doc err retry w
  end.

Definition run (es : list Event) (w : World) : World :=
  foldl (λ w e, step e w) w es.

(** ** Invariants and runs used in the statements *)

(** No signature stands under the empty replication id.  (The ids under
    which [reconcile] files a signature are non-empty: see
    [onChanged_signatures_keyed].) *)
Definition signatures_keyed (data : Data) : Prop :=
  ∀ signature,
    activeReplicationSignaturesByRepId data !! "" ≠ Some (Some signature).

(** A call of [stopReplicator] whose promise is still pending. *)
Definition in_flight (s : Stop) : Prop :=
  promise s = Cancelling ∨ promise s = Cancelled.

(** How often a registration occurs among the listeners. *)
Definition occurrences (r : Handle * EventName * Listener)
    (l : list (Handle * EventName * Listener)) : nat :=
  length (filter (λ x, x = r) l).

Definition is_doneCancelling (stop : nat) (ev : EventName)
    (r : Handle * EventName * Listener) : bool :=
  match r with
  | (_, ev', DoneCancelling k _) => bool_decide (ev' = ev ∧ k = stop)
  | _ => false
  end.

(** The number of [doneCancelling] listeners of the call [stop] that are
    still registered for a [complete] event. *)
Definition still_listening (stop : nat) (w : World) : nat :=
  length (filter (λ r, is_doneCancelling stop complete r = true)
            (listeners w)).

(** A registration of one of the controller's own handlers. *)
Definition plain (r : Handle * EventName * Listener) : Prop :=
  match r.2 with
  | DoneCancelling _ _ => False
  | _ => True
  end.

(** What holds of every world the event loop reaches: a database is
    registered once, and only while its validation is installed; a
    pending stop keeps the validation of its database installed and the
    database out of the registry, and no two pending stops are for the
    same database; a [doneCancelling] listener is bound to the emitter it
    is registered on, for a terminal event, by a call of [stopReplicator]
    that was made, once for [complete] and once for [error]. *)
Record consistent (w : World) : Prop := {
  dbs_once : NoDup (dbs (dbData w));
  dbs_validating : ∀ db, db ∈ dbs (dbData w) → db ∈ validating w;
  stops_apart :
    ∀ k s, stops w !! k = Some s → in_flight s →
      (stop_db s ∉ dbs (dbData w)) ∧ stop_db s ∈ validating w;
  stops_distinct :
    ∀ k k' s s', stops w !! k = Some s → stops w !! k' = Some s' →
      in_flight s → in_flight s' → stop_db s = stop_db s' → k = k';
  listeners_own :
    ∀ h ev k hb, (h, ev, DoneCancelling k hb) ∈ listeners w →
      hb = h ∧ ev ≠ change ∧ (k < length (stops w))%nat;
  listeners_paired :
    ∀ k h,
      occurrences (h, complete, DoneCancelling k h) (listeners w)
      = occurrences (h, error, DoneCancelling k h) (listeners w);
}.

(** The emitter [h] has emitted a terminal notification in the course of
    the events [es]. *)
Definition terminated (h : Handle) (es : list Event) : Prop :=
  ∃ ev p, ev ≠ change ∧ Emit h ev p ∈ es.

(** What [stopReplicator] has to wait for, for the call [stop] made on
    [db] to cancel the emitters [hs], after the events [es]: as long as
    [resolve] has not been called the counter is at least the number of
    [doneCancelling] listeners still registered for a completion, and once
    it has been called none is left; and an emitter that has not emitted a
    terminal notification still carries its listener. *)
Definition stop_pending (stop : nat) (db : Db) (hs : list Handle)
    (es : list Event) (w : World) : Prop :=
  (∃ s,
      stops w !! stop = Some s
    ∧ stop_db s = db
    ∧ (promise s = Cancelling →
       Z.of_nat (still_listening stop w) ≤ stillCancellingCount s)
    ∧ (promise s ≠ Cancelling → still_listening stop w = 0%nat))
  ∧ ∀ h, h ∈ hs →
      terminated h es ∨ (h, complete, DoneCancelling stop h) ∈ listeners w.

(** The calls [onChanged] makes for a document: it cancels only the
    replication registered under the id of the document, the replication
    it starts, its listeners and the put are for that id. *)
Definition concerns (env : Env) (db : Db) (doc : Doc) (data : Data)
    (c : Cmd) : Prop :=
  match c with
  | Cancel h => activeReplicationsById data !! _id doc = Some h
  | Replicate h source target options =>
      h = replication env ∧ _id options = _id doc
      ∧ source = field "source" doc ∧ target = field "target" doc
  | On h ev l =>
      h = replication env
      ∧ (ev = complete ∧ l = OnReplicationComplete db (_id doc)
         ∨ ev = error ∧ l = OnReplicationError db (_id doc))
  | Put written roles =>
      _id written = _id doc ∧ roles = ["_replicator"; "_admin"]
  | Get _ _ | CatchConflict _ _ => False
  end.

(** A database that can be neither started nor stopped: its validation
    is installed, it has no registry entry, and no call of
    [stopReplicator] for it is pending. *)
Definition wedged (db : Db) (w : World) : Prop :=
    db ∈ validating w
  ∧ (db ∉ dbs (dbData w))
  ∧ ∀ k s, stops w !! k = Some s → stop_db s = db → ¬ in_flight s.

(** A step that leaves the registered databases and the validation as
    they are, and creates or revives no call of [stopReplicator]. *)
Definition calm (w w' : World) : Prop :=
    dbs (dbData w') = dbs (dbData w)
  ∧ validating w' = validating w
  ∧ ∀ k s', stops w' !! k = Some s' →
      ∃ s, stops w !! k = Some s ∧ stop_db s' = stop_db s
           ∧ (in_flight s' → in_flight s).

(** The listener of changes is registered for change events only. *)
Definition typed (l : list (Handle * EventName * Listener)) : Prop :=
  ∀ h ev db, (h, ev, OnChange db) ∈ l → ev = change.

(** The emitter [h] has reported the end of its work in the course of
    the events [es]: a complete or error notification with its info. *)
Definition reported (h : Handle) (es : list Event) : Prop :=
  ∃ ev info, ev ≠ change ∧ Emit h ev (Info info) ∈ es.

(** Notifications as the emitters send them: only a change carries a
    document. *)
Definition well_formed (e : Event) : Prop :=
  match e with
  | Emit _ ev (Change _ _ _) => ev = change
  | _ => True
  end.

(** The account of the call [stop] of [stopReplicator], which cancelled
    the emitters [hs], after the events [es]: the promise has not been
    rejected; as long as [resolve] has not been called the counter is the
    number of [doneCancelling] listeners still registered for a
    completion, and it is not zero; and such a listener sits on one of
    the emitters [hs], one that has not reported yet. *)
Definition stop_counting (stop : nat) (hs : list Handle) (es : list Event)
    (w : World) : Prop :=
  (∃ s,
      stops w !! stop = Some s
    ∧ promise s ≠ Failed
    ∧ (promise s = Cancelling →
         stillCancellingCount s = Z.of_nat (still_listening stop w)
       ∧ 1 ≤ stillCancellingCount s))
  ∧ ∀ h ev hb, (h, ev, DoneCancelling stop hb) ∈ listeners w →
      h ∈ hs ∧ ¬ reported h es.

(** A document on which [onChanged] does not throw, whatever the
    registry of the database: its id is not the name of a property plain
    objects inherit, and its replication id, if it carries one, makes a
    property key. *)
Definition reconcilable (doc : Doc) : Prop :=
    (_id doc ∉ Object_prototype)
  ∧ printable (field "replication_id" doc) = true.

(** The arrays of the registry hold their objects for every registered
    database: its replications, its signatures and its pending
    self-writes. *)
Definition aligned (D : DbData) : Prop :=
  ∀ i, (i < length (dbs D))%nat →
      is_Some (mjoin (activeReplicationsByDbIdxAndId D !! i))
    ∧ is_Some (mjoin (activeReplicationSignaturesByDbIdxAndRepId D !! i))
    ∧ is_Some (mjoin (changedByReplicatorByDbIdx D !! i)).

Module Scenario.

Definition db : Db := 0%nat.

Definition doc (id rev : string) (props : list (string * value)) : Doc :=
  mkDoc id (list_to_map (("_rev", VStr rev) :: props)).

Definition empty : Data := mkData None ∅ ∅ [].

Definition registry (r : Doc * Data * list Cmd) : Data := r.1.2.
Definition document (r : Doc * Data * list Cmd) : Doc := r.1.1.
Definition commands (r : Doc * Data * list Cmd) : list Cmd := r.2.

(** A replication document as a user writes it, reconciled in an empty
    registry (replication 7 starts under the id "u1"), the echo of its
    write-back, and then its deletion: the plain tombstone [db.remove]
    writes, or the stored document with the deleted flag added. *)
Definition rep1 : Doc :=
  doc "rep1" "1-a" [("source", VStr "x"); ("target", VStr "y")].

Definition rep1_run := onChanged (mkEnv "u1" 10 7%nat) db rep1 empty.

Definition rep1_echo :=
  onChanged (mkEnv "u2" 11 8%nat) db
    (set_field "_rev" (VStr "2-a") (document rep1_run))
    (registry rep1_run).

Definition rep1_tombstone : Doc :=
  doc "rep1" "3-a" [("_deleted", VBool true)].

Definition rep1_deleted_body : Doc :=
  set_field "_deleted" (VBool true)
    (set_field "_rev" (VStr "3-a") (document rep1_run)).

(** A second document with the fields of [rep1]. *)
Definition rep2 : Doc :=
  doc "rep2" "1-b" [("source", VStr "x"); ("target", VStr "y")].

(** Two documents with the same fields whose state a former run of the
    replicator left behind. *)
Definition old1 (state : string) : Doc :=
  doc "old1" "5-a" [("source", VStr "x"); ("target", VStr "y");
                    ("replication_state", VStr state)].

Definition old2 (state : string) : Doc :=
  doc "old2" "5-b" [("source", VStr "x"); ("target", VStr "y");
                    ("replication_state", VStr state)].

Definition rep1_removed :=
  onChanged (mkEnv "u3" 12 9%nat) db rep1_tombstone (registry rep1_echo).

(** the tombstone overtakes the echo *)
Definition rep1_removed_early :=
  onChanged (mkEnv "u3" 12 9%nat) db rep1_tombstone (registry rep1_run).

Definition rep1_removed_body :=
  onChanged (mkEnv "u3" 12 9%nat) db rep1_deleted_body
    (registry rep1_echo).

(** A document of another signature, reconciled after [rep1]; then the
    echo of its write-back arrives before that of [rep1]. *)
Definition rep3 : Doc :=
  doc "rep3" "1-c" [("source", VStr "x"); ("target", VStr "z")].

Definition rep3_run :=
  onChanged (mkEnv "u3" 12 9%nat) db rep3 (registry rep1_run).

Definition rep3_echo :=
  onChanged (mkEnv "u4" 13 10%nat) db
    (set_field "_rev" (VStr "2-c") (document rep3_run))
    (registry rep3_run).

Definition rep1_late_echo :=
  onChanged (mkEnv "u5" 14 11%nat) db
    (set_field "_rev" (VStr "2-a") (document rep1_run))
    (registry rep3_echo).

(** A document whose id reads as a number. *)
Definition numbered : Doc :=
  doc "1" "1-d" [("source", VStr "x"); ("target", VStr "y")].

Definition numbered_run :=
  onChanged (mkEnv "u1" 10 7%nat) db numbered empty.

Definition numbered_echo :=
  onChanged (mkEnv "u2" 11 8%nat) db
    (set_field "_rev" (VStr "2-d") (document numbered_run))
    (registry numbered_run).

Definition old1_run (state : string) :=
  onChanged (mkEnv "u1" 10 7%nat) db (old1 state) empty.

Definition old2_run (state : string) :=
  onChanged (mkEnv "u2" 20 8%nat) db (old2 state)
    (registry (old1_run state)).

(** The replicator started on a database that holds [rep1]: object 0 is
    the array of the pending self-writes, object 1 the replication of
    "rep1" and object 2 the change feed.  Then the echo of the write-back
    of "rep1" arrives on the feed. *)
Definition started : World :=
  run [Start db; DesignDocSettled db; AllDocsFetched db 0 [(rep1, "u1", 10)]]
    initial.

Definition rep1_stored : Doc :=
  set_field "_rev" (VStr "2-a") (document rep1_run).

Definition echoed : World :=
  step (Emit 2%nat change (Change rep1_stored "u2" 11)) started.

Definition registry_of (w : World) : Data :=
  default empty (snd <$> dataFor db (dbData w)).


Definition finished : gmap string value :=
  list_to_map [("ok", VBool true); ("status", VStr "complete");
               ("docs_written", VNum 3)].

(** The errors a put may fail with. *)
Definition conflict : Err :=
  mkErr 409 "conflict" "Document update conflict.".


(** A later revision of "rep1", stored by a user while the write-back of
    the error was under way. *)
Definition rep1_latest : Doc :=
  set_field "note" (VStr "retry") (set_field "_rev" (VStr "3-a") rep1_stored).

(** The user points "rep1" at another target; the document the
    controller stores for it then. *)
Definition rep1_retargeted : Doc :=
  set_field "target" (VStr "z") (set_field "_rev" (VStr "3-a") rep1_stored).

Definition rep1_restarted : Doc :=
  set_field "_rev" (VStr "4-a")
    (document (onChanged (mkEnv "u3" 12 3%nat) db rep1_retargeted
                 (registry_of echoed))).

(** [stopReplicator] on the started database, then the feed and the
    replication of "rep1" report, then the [then] callback runs. *)
Definition reports : list Event :=
  [Emit 2%nat complete (Info ∅); Emit 1%nat complete (Info finished);
   StopThen 0].

Definition stopped : World := run reports (stopReplicator db echoed).1.

(** The design document of the replicator database. *)
Definition design : Doc :=
  doc "_design/_replicator" "1-x" [("language", VStr "javascript")].

Definition rep3_stored : Doc :=
  set_field "_rev" (VStr "2-c") (document rep3_run).

(** Two databases started one after the other, neither subscribed yet. *)
Definition two : World := run [Start 0%nat; Start 1%nat] initial.

(** The events up to the last notification a call of [stopReplicator]
    waits for. *)
Definition cancelled : list Event :=
  [Start db; DesignDocSettled db; AllDocsFetched db 0 [(rep1, "u1", 10)];
   Emit 2%nat change (Change rep1_stored "u2" 11); StopCalled db;
   Emit 2%nat complete (Info ∅); Emit 1%nat complete (Info finished)].

(** The events up to the subscription and the echo of the first
    write-back, and what the feed and the replication of "rep1" report
    once cancelled. *)
Definition subscribed : list Event :=
  [Start db; DesignDocSettled db; AllDocsFetched db 0 [(rep1, "u1", 10)];
   Emit 2%nat change (Change rep1_stored "u2" 11)].

Definition replies : list Event :=
  [Emit 2%nat complete (Info ∅); Emit 1%nat complete (Info finished)].

(** A document with the fields of [rep1] and a property named
    constructor, reconciled while "rep1" is replicated. *)
Definition rep4 : Doc :=
  doc "rep4" "1-e" [("source", VStr "x"); ("target", VStr "y");
                    ("constructor", VStr "Object")].

Definition rep4_run :=
  onChanged (mkEnv "u4" 13 10%nat) db rep4 (registry rep1_echo).

(** A document whose id every plain object has a property for. *)
Definition inherited : Doc :=
  doc "constructor" "1-f" [("source", VStr "x"); ("target", VStr "w")].

Definition inherited_run :=
  onChanged (mkEnv "u5" 14 11%nat) db inherited (registry rep1_echo).

(** A document that comes with a replication id that makes no property
    key. *)
Definition rep5 : Doc :=
  doc "rep5" "1-g" [("source", VStr "x"); ("target", VStr "w");
                    ("replication_id", VObj {[ "toString" := VNum 1 ]})].

Definition rep5_run :=
  onChanged (mkEnv "u5" 14 11%nat) db rep5 (registry rep1_echo).

(** The user stores "rep1" with a replication id that makes no
    property key. *)
Definition rep1_unprintable : Doc :=
  set_field "replication_id" (VObj {[ "toString" := VNum 1 ]})
    (set_field "_rev" (VStr "3-a") rep1_stored).

(** The document [rep2], stored once "rep1" has been removed. *)
Definition rep2_late :=
  onChanged (mkEnv "u4" 13 10%nat) db rep2 (registry rep1_removed).


End Scenario.

(** * Properties *)
(** ** The signature matcher *)

Lemma equals_refl v : equals v v = true.
Proof. by apply bool_decide_eq_true_2. Qed.

Lemma equals_sym a b : equals a b = equals b a.
Proof. unfold equals. apply bool_decide_ext. naive_solver. Qed.

(** Equal objects agree, up to what [equals] looks at, on every key but
    [constructor]. *)
Lemma equals_VObj_lookup a b key :
  equals (VObj a) (VObj b) = true →
  key ≠ "constructor" →
  strip <$> a !! key = strip <$> b !! key.
Proof.
  intros [= H]%bool_decide_eq_true Hkey.
  apply (f_equal (lookup key)) in H.
  by rewrite !lookup_delete_ne, !lookup_fmap in H by done.
Qed.

(** Strings, numbers, booleans, [null] and [undefined] are equal to
    themselves only. *)
Lemma strip_VStr v s : strip v = VStr s → v = VStr s.
Proof. by destruct v. Qed.

Lemma equals_VObj_lookup_VStr a b key s :
  equals (VObj a) (VObj b) = true →
  key ≠ "constructor" →
  a !! key = Some (VStr s) ↔ b !! key = Some (VStr s).
Proof.
  intros Heq Hkey. pose proof (equals_VObj_lookup a b key Heq Hkey) as H.
  split; intros E; rewrite E in H; simpl in H.
  - destruct (b !! key) as [v|]; [|done]. injection H as H.
    symmetry in H. by apply strip_VStr in H as ->.
  - destruct (a !! key) as [v|]; [|done]. injection H as H.
    by apply strip_VStr in H as ->.
Qed.

Section Matcher.
Variable searched : gmap string value.
Variable data : Data.

Lemma matches_Some signature :
  matches searched signature = true ↔
  ∃ sig, signature = Some sig ∧ equals (VObj sig) (VObj searched) = true.
Proof.
  destruct signature as [sig|]; simpl.
  - split; [by exists sig|]. by intros (? & [= <-] & ?).
  - split; [done|]. by intros (? & ? & ?).
Qed.

Lemma matches_refl : matches searched (Some searched) = true.
Proof. apply equals_refl. Qed.

Lemma getMatchingSignatureId_Some repId :
  getMatchingSignatureId searched data = Some repId →
  ∃ signature,
      activeReplicationSignaturesByRepId data !! repId = Some (Some signature)
    ∧ equals (VObj signature) (VObj searched) = true.
Proof.
  unfold getMatchingSignatureId.
  destruct (List.find _ _) as [[k v]|] eqn:Hfind; [|discriminate].
  intros [= <-]. apply find_some in Hfind as [Hin Hm].
  apply matches_Some in Hm as (sig & Hv & Heq). simpl in *. subst v.
  exists sig. split; [|done].
  by apply elem_of_map_to_list, list_elem_of_In.
Qed.

Lemma getMatchingSignatureId_None :
  getMatchingSignatureId searched data = None →
  ∀ repId signature,
    activeReplicationSignaturesByRepId data !! repId = Some signature →
    matches searched signature = false.
Proof.
  unfold getMatchingSignatureId.
  destruct (List.find _ _) as [[k v]|] eqn:Hfind; [discriminate|].
  intros _ repId signature Hl.
  apply elem_of_map_to_list, list_elem_of_In in Hl.
  apply (find_none _ _ Hfind _ Hl).
Qed.

Lemma getMatchingSignatureId_is_Some repId signature :
  activeReplicationSignaturesByRepId data !! repId = Some signature →
  matches searched signature = true →
  is_Some (getMatchingSignatureId searched data).
Proof.
  intros Hl Hm.
  destruct (getMatchingSignatureId searched data) eqn:E; [eauto|].
  by rewrite (getMatchingSignatureId_None E repId signature Hl) in Hm.
Qed.
End Matcher.

Arguments getMatchingSignatureId_Some {_ _ _} _.
Arguments getMatchingSignatureId_None {_ _} _ _ _ _.

(** ** Arrays and documents *)

Lemma indexOf_lower `{EqDecision A} (x : A) l : -1 ≤ indexOf x l.
Proof.
  induction l as [|y l IH]; simpl; [lia|].
  destruct (decide (x = y)); [lia|]. destruct (indexOf x l <? 0) eqn:E; lia.
Qed.

Lemma indexOf_elem `{EqDecision A} (x : A) l : indexOf x l ≠ -1 ↔ x ∈ l.
Proof.
  induction l as [|y l IH]; simpl.
  - split; [done|]. by intros ?%elem_of_nil.
  - destruct (decide (x = y)) as [->|Hne].
    + split; [intros _; apply list_elem_of_here | lia].
    + pose proof (indexOf_lower x l) as Hlow.
      rewrite elem_of_cons, <- IH.
      destruct (indexOf x l <? 0) eqn:E;
        [apply Z.ltb_lt in E | apply Z.ltb_ge in E].
      * split; [done|]. intros [?|?]; [done | lia].
      * split; [intros _; right; lia | lia].
Qed.

Lemma indexOf_not_elem `{EqDecision A} (x : A) l : indexOf x l = -1 ↔ x ∉ l.
Proof.
  rewrite <- indexOf_elem. destruct (decide (indexOf x l = -1)); naive_solver.
Qed.

Lemma field_set_field f v doc : field f (set_field f v doc) = v.
Proof. unfold field, set_field, get. simpl. by rewrite lookup_insert_eq. Qed.

Lemma field_set_field_ne f g v doc :
  f ≠ g → field g (set_field f v doc) = field g doc.
Proof.
  intros. unfold field, set_field, get. simpl. by rewrite lookup_insert_ne.
Qed.

(** ** The write-back routine *)

(** A change of a document whose id is marked is dismissed: nothing is
    cancelled, started or written, and the registry of replications and
    signatures stays as it is. *)
Lemma onChanged_marked env db doc data :
  _id doc ∈ changedByReplicator data →
  onChanged env db doc data =
    (doc,
     set_changedByReplicator (splice (ToIntegerOrInfinity (_id doc)) 1) data,
     []).
Proof.
  intros Hin%indexOf_elem. unfold onChanged.
  by rewrite (bool_decide_eq_true_2 _ Hin).
Qed.

Lemma onChanged_unmarked env db doc data :
  _id doc ∉ changedByReplicator data →
  String.prefix "_design" (_id doc) = false →
  onChanged env db doc data = reconcile env db doc data.
Proof.
  intros Hin%indexOf_not_elem Hd. unfold onChanged.
  rewrite bool_decide_eq_false_2 by (rewrite Hin; by intros []).
  by rewrite Hd.
Qed.

Lemma onChanged_throws_marked doc data :
  _id doc ∈ changedByReplicator data → onChanged_throws doc data = false.
Proof.
  intros Hin%indexOf_elem. unfold onChanged_throws.
  by rewrite (bool_decide_eq_true_2 _ Hin).
Qed.

Lemma cancel_oldReplication_own doc data h :
  activeReplicationsById data !! _id doc = Some h →
  cancel_oldReplication doc data = Some [Cancel h].
Proof. intros H. unfold cancel_oldReplication. by rewrite H. Qed.

Lemma cancel_oldReplication_plain doc data :
  _id doc ∉ Object_prototype →
  cancel_oldReplication doc data
  = Some match activeReplicationsById data !! _id doc with
         | Some h => [Cancel h]
         | None => []
         end.
Proof.
  intros H. unfold cancel_oldReplication.
  destruct (_ !! _); [done|]. by rewrite bool_decide_eq_false_2.
Qed.

Lemma currentSignature_throws_printable doc :
  printable (field "replication_id" doc) = true →
  currentSignature_throws doc = false.
Proof. intros H. unfold currentSignature_throws. rewrite H. apply andb_false_r. Qed.

(** What makes no property key is an object or an array, and truthy. *)
Lemma currentSignature_throws_unprintable doc :
  printable (field "replication_id" doc) = false →
  currentSignature_throws doc = true.
Proof.
  intros H. unfold currentSignature_throws. rewrite H.
  by destruct (field "replication_id" doc).
Qed.

Lemma onChanged_throws_plain doc data :
  _id doc ∉ Object_prototype →
  printable (field "replication_id" doc) = true →
  onChanged_throws doc data = false.
Proof.
  intros H Hp. unfold onChanged_throws.
  rewrite cancel_oldReplication_plain by done.
  rewrite currentSignature_throws_printable by done. apply andb_false_r.
Qed.

Lemma onChanged_throws_own doc data h :
  activeReplicationsById data !! _id doc = Some h →
  printable (field "replication_id" doc) = true →
  onChanged_throws doc data = false.
Proof.
  intros H Hp. unfold onChanged_throws.
  rewrite (cancel_oldReplication_own _ _ _ H).
  rewrite currentSignature_throws_printable by done. apply andb_false_r.
Qed.

(** C9: the write-back routine stamps replication_state_time with the
    current time exactly when replication_state is set: the field then
    reads the current time and every other field, like the id, reads as
    before, and a document without a state is left alone.  The registry
    in which the put is issued already holds the mark of the document id,
    nothing else in it having changed, and the put of the stamped
    document goes out under the roles _replicator and _admin.  The mark
    being there when the put is issued, a change notification for the
    document is dismissed however early it arrives. *)
Theorem putAsReplicatorChange_marks_then_puts now doc data :
  let '(doc', data', put) := putAsReplicatorChange now doc data in
    _id doc' = _id doc
  ∧ (if truthy (field "replication_state" doc)
     then field "replication_state_time" doc' = VNum now
          ∧ ∀ f, f ≠ "replication_state_time" →
                 fields doc' !! f = fields doc !! f
     else doc' = doc)
  ∧ changedByReplicator data' = changedByReplicator data ++ [_id doc]
  ∧ changes data' = changes data
  ∧ activeReplicationsById data' = activeReplicationsById data
  ∧ activeReplicationSignaturesByRepId data'
    = activeReplicationSignaturesByRepId data
  ∧ put = Put doc' ["_replicator"; "_admin"]
  ∧ ∀ env db,
      onChanged_throws doc' data' = false
      ∧ (onChanged env db doc' data').1.1 = doc'
      ∧ (onChanged env db doc' data').2 = [].
Proof.
  unfold putAsReplicatorChange.
  assert (_id (if truthy (field "replication_state" doc)
               then set_field "replication_state_time" (VNum now) doc
               else doc) = _id doc) as Hid by (by destruct (truthy _)).
  split; [done|]. split; [|split; [|repeat split; try done]].
  - destruct (truthy _); [|done]. split; [apply field_set_field|].
    intros f Hf. simpl. by rewrite lookup_insert_ne.
  - simpl. by rewrite Hid.
  - apply onChanged_throws_marked. simpl.
    apply elem_of_app. right. apply list_elem_of_here.
  - rewrite onChanged_marked; [done|]. simpl.
    apply elem_of_app. right. apply list_elem_of_here.
  - rewrite onChanged_marked; [done|]. simpl.
    apply elem_of_app. right. apply list_elem_of_here.
Qed.

(** ** Reconciliation, block by block *)

Lemma cleanupReplicationData_signatures doc data :
  activeReplicationSignaturesByRepId (cleanupReplicationData doc data)
  = delete (ToString (field "replication_id" doc))
      (activeReplicationSignaturesByRepId data).
Proof. done. Qed.

Lemma cleanupReplicationData_replications doc data :
  activeReplicationsById (cleanupReplicationData doc data)
  = delete (_id doc) (activeReplicationsById data).
Proof. done. Qed.

Lemma truthy_VStr s : truthy (VStr s) = true ↔ s ≠ "".
Proof.
  simpl. rewrite negb_true_iff. destruct (String.eqb_spec s ""); naive_solver.
Qed.

Lemma assign_replication_id_tombstone env doc data currentSignature :
  truthy (field "_deleted" doc) = true →
  assign_replication_id env doc data currentSignature
  = (doc, currentSignature).
Proof. intros Hdel. unfold assign_replication_id. by rewrite Hdel. Qed.

(** A live document either joins an entry of equal signature filed under
    a non-empty id, or is triggered under a fresh id. *)
Lemma assign_replication_id_live env doc data currentSignature :
  truthy (field "_deleted" doc) = false →
  let signature := delete "_rev" (fields doc) in
  (∃ repId joined,
      activeReplicationSignaturesByRepId data !! repId = Some (Some joined)
    ∧ equals (VObj joined) (VObj signature) = true
    ∧ repId ≠ ""
    ∧ assign_replication_id env doc data currentSignature
      = (set_field "replication_id" (VStr repId) doc, Some signature))
  ∨ (((∀ repId entry,
         activeReplicationSignaturesByRepId data !! repId = Some entry →
         matches signature entry = false)
      ∨ ∃ joined,
          activeReplicationSignaturesByRepId data !! "" = Some (Some joined))
     ∧ assign_replication_id env doc data currentSignature
       = (set_field "replication_state" (VStr "triggered")
            (set_field "replication_id" (VStr (uuid env)) doc),
          Some signature)).
Proof.
  intros Hdel signature. unfold assign_replication_id. rewrite Hdel.
  simpl negb. cbv iota. fold signature.
  destruct (getMatchingSignatureId signature data) as [repId|] eqn:E.
  - destruct (getMatchingSignatureId_Some E) as (joined & Hl & Heq).
    destruct (truthy (VStr repId)) eqn:Ht.
    + left. exists repId, joined. by rewrite <- truthy_VStr.
    + right. split; [right|done]. exists joined.
      destruct (decide (repId = "")) as [->|Hne]; [done|].
      apply truthy_VStr in Hne. congruence.
  - right. split; [left|done]. apply (getMatchingSignatureId_None E).
Qed.

Lemma file_signature_lookup repId currentSignature signatures key :
  file_signature repId currentSignature signatures !! key
  = if bool_decide (key = repId
                    ∧ ¬ (repId = "__proto__" ∧ currentSignature = None))
    then Some currentSignature
    else signatures !! key.
Proof.
  unfold file_signature. destruct currentSignature as [sig|].
  - destruct (decide (key = repId)) as [->|Hne].
    + rewrite lookup_insert_eq, bool_decide_eq_true_2; [done|].
      split; [done|]. by intros [_ ?].
    + rewrite lookup_insert_ne by done.
      by rewrite bool_decide_eq_false_2 by (by intros [? _]).
  - case_bool_decide as Hp.
    + by rewrite bool_decide_eq_false_2 by (intros [_ Hn]; by apply Hn).
    + destruct (decide (key = repId)) as [->|Hne].
      * rewrite lookup_insert_eq, bool_decide_eq_true_2; [done|].
        split; [done|]. by intros [? _].
      * rewrite lookup_insert_ne by done.
        by rewrite bool_decide_eq_false_2 by (by intros [? _]).
Qed.

Lemma file_signature_Some repId signature :
  file_signature repId (Some signature) = <[repId := Some signature]>.
Proof. done. Qed.

Lemma start_if_triggered_keyed env db doc currentSignature data :
  signatures_keyed data →
  (ToString (field "replication_id" doc) = "" → currentSignature = None) →
  signatures_keyed (start_if_triggered env db doc currentSignature data).1.
Proof.
  intros Hkeyed Hkey. unfold start_if_triggered.
  case_bool_decide; [|done]. intros signature. simpl.
  rewrite file_signature_lookup. case_bool_decide as E; [|apply Hkeyed].
  destruct E as [E _]. by rewrite Hkey.
Qed.

Lemma put_if_changed_registry env docCopy doc data :
  let data' := (put_if_changed env docCopy doc data).1.2 in
    activeReplicationsById data' = activeReplicationsById data
  ∧ activeReplicationSignaturesByRepId data'
    = activeReplicationSignaturesByRepId data.
Proof. unfold put_if_changed. by destruct (equals_Doc _ _). Qed.

Lemma reconcile_throws env db doc data :
  cancel_oldReplication doc data = None →
  reconcile env db doc data = (doc, data, []).
Proof. intros H. unfold reconcile. by rewrite H. Qed.

Lemma reconcile_thrown env db doc data cancelled :
  cancel_oldReplication doc data = Some cancelled →
  currentSignature_throws doc = true →
  reconcile env db doc data = (doc, data, cancelled).
Proof. intros H1 H2. unfold reconcile. by rewrite H1, H2. Qed.

Lemma reconcile_runs env db doc data cancelled :
  cancel_oldReplication doc data = Some cancelled →
  currentSignature_throws doc = false →
  reconcile env db doc data =
    let currentSignature :=
      if truthy (field "replication_id" doc)
      then mjoin (activeReplicationSignaturesByRepId data
                    !! ToString (field "replication_id" doc))
      else None in
    let data := cleanupReplicationData doc data in
    let '(doc1, currentSignature) :=
      assign_replication_id env doc data currentSignature in
    let '(data, started) :=
      start_if_triggered env db doc1 currentSignature data in
    let '(doc2, data, written) := put_if_changed env doc doc1 data in
    (doc2, data, cancelled ++ started ++ written).
Proof. intros H1 H2. unfold reconcile. by rewrite H1, H2. Qed.

Lemma reconcile_registry env db doc data cancelled :
  cancel_oldReplication doc data = Some cancelled →
  currentSignature_throws doc = false →
  let cleaned := cleanupReplicationData doc data in
  let currentSignature :=
    if truthy (field "replication_id" doc)
    then mjoin (activeReplicationSignaturesByRepId data
                  !! ToString (field "replication_id" doc))
    else None in
  let assigned := assign_replication_id env doc cleaned currentSignature in
  let started := start_if_triggered env db assigned.1 assigned.2 cleaned in
  let data' := (reconcile env db doc data).1.2 in
    activeReplicationsById data' = activeReplicationsById started.1
  ∧ activeReplicationSignaturesByRepId data'
    = activeReplicationSignaturesByRepId started.1.
Proof.
  intros Hruns Hreads. cbv zeta. rewrite (reconcile_runs _ _ _ _ _ Hruns Hreads).
  cbv zeta.
  destruct (assign_replication_id _ _ _ _) as [doc1 cs]. simpl.
  destruct (start_if_triggered _ _ _ _ _) as [data1 started]. simpl.
  pose proof (put_if_changed_registry env doc doc1 data1) as H.
  by destruct (put_if_changed _ _ _ _) as [[doc2 data2] written].
Qed.

(** The ids under which [onChanged] files signatures are not empty. *)
Lemma onChanged_signatures_keyed env db doc data :
  uuid env ≠ "" →
  signatures_keyed data →
  signatures_keyed (onChanged env db doc data).1.2.
Proof.
  intros Huuid Hkeyed. unfold onChanged.
  destruct (bool_decide _); [done|]. simpl orb.
  destruct (String.prefix _ _); [done|].
  destruct (cancel_oldReplication doc data) as [cancelled|] eqn:Hruns;
    [|by rewrite reconcile_throws].
  destruct (currentSignature_throws doc) eqn:Hreads;
    [by rewrite (reconcile_thrown _ _ _ _ _ Hruns Hreads)|].
  intros signature.
  rewrite (proj2 (reconcile_registry env db doc data _ Hruns Hreads)).
  revert signature. apply start_if_triggered_keyed.
  { intros sig. rewrite cleanupReplicationData_signatures.
    intros [_ ?]%lookup_delete_Some. by destruct (Hkeyed sig). }
  destruct (truthy (field "_deleted" doc)) eqn:Hdel.
  - rewrite assign_replication_id_tombstone by done. simpl. intros Hk.
    destruct (truthy (field "replication_id" doc)); [|done]. rewrite Hk.
    destruct (activeReplicationSignaturesByRepId data !! "")
      as [[sig|]|] eqn:E; [by destruct (Hkeyed sig) | reflexivity..].
  - edestruct (assign_replication_id_live env doc
                 (cleanupReplicationData doc data)) as
      [(repId & joined & _ & _ & Hne & ->)|[_ ->]]; [done| |]; simpl.
    + by rewrite field_set_field.
    + rewrite field_set_field_ne, field_set_field by done. done.
Qed.

(** A document in which a field was set to a string it did not hold is
    not equal to its copy. *)
Lemma equals_Doc_changed doc docCopy f s :
  f ≠ "constructor" →
  fields doc !! f = Some (VStr s) →
  fields docCopy !! f ≠ Some (VStr s) →
  equals_Doc doc docCopy = false.
Proof.
  intros Hf Hdoc Hcopy. unfold equals_Doc. apply andb_false_intro2.
  destruct (equals _ _) eqn:E; [|done]. destruct Hcopy.
  by apply (equals_VObj_lookup_VStr _ _ f s E Hf).
Qed.

Lemma equals_Doc_refl doc : equals_Doc doc doc = true.
Proof.
  unfold equals_Doc. by rewrite bool_decide_eq_true_2, equals_refl.
Qed.

Lemma put_if_changed_unchanged env doc data :
  put_if_changed env doc doc data = (doc, data, []).
Proof. unfold put_if_changed. by rewrite equals_Doc_refl. Qed.

Lemma put_if_changed_changed env docCopy doc data :
  equals_Doc doc docCopy = false →
  put_if_changed env docCopy doc data
  = let '(doc, data, put) := putAsReplicatorChange (now env) doc data in
    (doc, data, [put]).
Proof. intros H. unfold put_if_changed. by rewrite H. Qed.

Lemma triggered_fields env doc :
  let triggered :=
    set_field "replication_state" (VStr "triggered")
      (set_field "replication_id" (VStr (uuid env)) doc) in
    field "replication_state" triggered = VStr "triggered"
  ∧ field "replication_id" triggered = VStr (uuid env)
  ∧ field "source" triggered = field "source" doc
  ∧ field "target" triggered = field "target" doc
  ∧ _id triggered = _id doc.
Proof.
  cbv zeta. rewrite field_set_field.
  rewrite !(field_set_field_ne "replication_state") by done.
  rewrite field_set_field. by rewrite !field_set_field_ne by done.
Qed.

(** The write-back leaves the id, the replication id and the state of a
    document as they are. *)
Lemma put_if_changed_fields env docCopy doc data :
  let doc' := (put_if_changed env docCopy doc data).1.1 in
    _id doc' = _id doc
  ∧ field "replication_id" doc' = field "replication_id" doc
  ∧ field "replication_state" doc' = field "replication_state" doc.
Proof.
  unfold put_if_changed, putAsReplicatorChange.
  destruct (equals_Doc _ _); [done|]. destruct (truthy _); [|done]. simpl.
  by rewrite !field_set_field_ne by done.
Qed.

(** C3: a document that is neither deleted nor dismissed, whose id is
    not the name of a property plain objects inherit, whose replication
    id, if it carries one, makes a property key, and whose signature
    equals (as the equals package compares: keys named constructor left
    out) that of no entry of the registry gets the id uuid() generated
    and the state triggered; a replication is started from its source to
    its target with the document as options, its completion and error
    handlers are attached, the handle is registered under the document id
    and the signature (the document as it came, without _id and _rev)
    under the new replication id. *)
Theorem onChanged_triggers_fresh_replication env db doc data :
  _id doc ∉ changedByReplicator data →
  String.prefix "_design" (_id doc) = false →
  _id doc ∉ Object_prototype →
  printable (field "replication_id" doc) = true →
  truthy (field "_deleted" doc) = false →
  (∀ repId signature,
     activeReplicationSignaturesByRepId data !! repId = Some (Some signature) →
     equals (VObj signature) (VObj (delete "_rev" (fields doc))) = false) →
  let '(doc', data', cmds) := onChanged env db doc data in
  let triggered :=
    set_field "replication_state" (VStr "triggered")
      (set_field "replication_id" (VStr (uuid env)) doc) in
    onChanged_throws doc data = false
  ∧ field "replication_id" doc' = VStr (uuid env)
  ∧ field "replication_state" doc' = VStr "triggered"
  ∧ Replicate (replication env) (field "source" doc) (field "target" doc)
      triggered ∈ cmds
  ∧ On (replication env) complete (OnReplicationComplete db (_id doc)) ∈ cmds
  ∧ On (replication env) error (OnReplicationError db (_id doc)) ∈ cmds
  ∧ activeReplicationsById data' !! _id doc = Some (replication env)
  ∧ activeReplicationSignaturesByRepId data' !! uuid env
    = Some (Some (delete "_rev" (fields doc))).
Proof.
  intros Hmark Hdesign Hplain Hprints Hdel Hnone.
  rewrite onChanged_unmarked by done.
  pose proof (cancel_oldReplication_plain doc data Hplain) as Hruns.
  pose proof (currentSignature_throws_printable doc Hprints) as Hreads.
  pose proof (reconcile_registry env db doc data _ Hruns Hreads) as Hreg.
  cbv zeta in Hreg. revert Hreg.
  rewrite (reconcile_runs _ _ _ _ _ Hruns Hreads). cbv zeta.
  destruct (assign_replication_id_live env doc
              (cleanupReplicationData doc data)
              (if truthy (field "replication_id" doc)
               then mjoin (activeReplicationSignaturesByRepId data
                             !! ToString (field "replication_id" doc))
               else None) Hdel)
    as [(repId & joined & Hl & Heq & _)|[_ ->]].
  { rewrite cleanupReplicationData_signatures in Hl.
    apply lookup_delete_Some in Hl as [_ Hl].
    by rewrite (Hnone repId joined Hl) in Heq. }
  destruct (triggered_fields env doc) as (Hst & Hid & Hs & Ht & Hi).
  unfold start_if_triggered. rewrite (bool_decide_eq_true_2 _ Hst).
  rewrite Hid, Hs, Ht, Hi. simpl ToString. cbv beta iota zeta.
  rewrite file_signature_Some.
  match goal with |- context [put_if_changed ?e ?c ?d ?r] =>
    pose proof (put_if_changed_fields e c d r) as Hput;
    destruct (put_if_changed e c d r) as [[doc' data'] written]
  end.
  cbv zeta in Hput. simpl in Hput. destruct Hput as (_ & Hid' & Hst').
  simpl. intros [-> ->]. rewrite Hid', Hst', Hid, Hst.
  split; [by apply onChanged_throws_plain|].
  repeat split;
    try (apply elem_of_app; right; rewrite !elem_of_cons; by auto);
    apply lookup_insert_eq.
Qed.

(** What [onChanged] does with a tombstone it has not dismissed: the
    document is left as it is and nothing is written back. *)
Lemma reconcile_tombstone env db doc data cancelled :
  truthy (field "_deleted" doc) = true →
  cancel_oldReplication doc data = Some cancelled →
  currentSignature_throws doc = false →
  reconcile env db doc data =
    let currentSignature :=
      if truthy (field "replication_id" doc)
      then mjoin (activeReplicationSignaturesByRepId data
                    !! ToString (field "replication_id" doc))
      else None in
    let '(data', started) :=
      start_if_triggered env db doc currentSignature
        (cleanupReplicationData doc data) in
    (doc, data', cancelled ++ started ++ []).
Proof.
  intros Hdel Hruns Hreads. rewrite (reconcile_runs _ _ _ _ _ Hruns Hreads).
  cbv zeta. rewrite assign_replication_id_tombstone by done.
  destruct (start_if_triggered _ _ _ _ _) as [data' started].
  by rewrite put_if_changed_unchanged.
Qed.

(** X25: a tombstone for a document id that is not marked as a pending
    self-write and owns a registered replication, the replication id of
    which, if it carries one, makes a property key, gets that replication
    cancelled first; the document is left as it is and nothing is written
    back for it.  Unless the tombstone carries the state triggered
    nothing is started, and the registry loses the entry of the id among
    the active replications and the signature filed under the replication
    id the tombstone carries (no other).  A tombstone that carries the
    state triggered is restarted like a live document: the new
    replication is registered under its id, and under its replication id
    is filed what was read there before. *)
Theorem onChanged_tombstone_cancels env db doc data h :
  _id doc ∉ changedByReplicator data →
  String.prefix "_design" (_id doc) = false →
  truthy (field "_deleted" doc) = true →
  activeReplicationsById data !! _id doc = Some h →
  printable (field "replication_id" doc) = true →
  let '(doc', data', cmds) := onChanged env db doc data in
  let repId := ToString (field "replication_id" doc) in
    onChanged_throws doc data = false
  ∧ doc' = doc
  ∧ changes data' = changes data
  ∧ changedByReplicator data' = changedByReplicator data
  ∧ (∀ written roles, Put written roles ∉ cmds)
  ∧ if bool_decide (field "replication_state" doc = VStr "triggered")
    then
        cmds = [Cancel h;
                Replicate (replication env) (field "source" doc)
                  (field "target" doc) doc;
                On (replication env) complete
                  (OnReplicationComplete db (_id doc));
                On (replication env) error
                  (OnReplicationError db (_id doc))]
      ∧ activeReplicationsById data'
        = <[_id doc := replication env]> (activeReplicationsById data)
      ∧ activeReplicationSignaturesByRepId data'
        = file_signature repId
            (if truthy (field "replication_id" doc)
             then mjoin (activeReplicationSignaturesByRepId data !! repId)
             else None)
            (delete repId (activeReplicationSignaturesByRepId data))
    else
        cmds = [Cancel h]
      ∧ activeReplicationsById data'
        = delete (_id doc) (activeReplicationsById data)
      ∧ activeReplicationSignaturesByRepId data'
        = delete repId (activeReplicationSignaturesByRepId data).
Proof.
  intros Hmark Hdesign Hdel Hrep Hprints.
  rewrite onChanged_unmarked by done.
  rewrite (reconcile_tombstone env db doc data [Cancel h])
    by (done || (by apply cancel_oldReplication_own)
        || by apply currentSignature_throws_printable).
  unfold start_if_triggered. cbv zeta.
  pose proof (onChanged_throws_own doc data h Hrep Hprints) as Hruns.
  case_bool_decide as Hstate; cbn [fst snd app]; (split; [done|]).
  - repeat split; try done.
    + intros written roles. rewrite !elem_of_cons, elem_of_nil.
      by intros [|[|[|[|]]]].
    + simpl. by rewrite insert_delete_eq.
  - repeat split; try done.
    intros written roles. rewrite !elem_of_cons, elem_of_nil.
    by intros [|].
Qed.

(** X24: for a document that is neither deleted nor dismissed, whose id
    is not the name of a property plain objects inherit and whose
    replication id, if it carries one, makes a property key, if the
    registry (built by the controller: no signature stands under the
    empty id) holds, under an id other than the one the document carries
    (that entry is cleared first), a signature that equals the
    document's, then the document receives the replication id of such an
    entry and the reconciliation changes no other field.  The document is
    then written back, which stamps replication_state_time when
    replication_state is set.  A replication is started exactly when the
    document already carries the state triggered; otherwise the registry
    only loses the entries of the document's own id and replication
    id. *)
Theorem onChanged_joins_equal_signature env db doc data :
  signatures_keyed data →
  _id doc ∉ changedByReplicator data →
  String.prefix "_design" (_id doc) = false →
  _id doc ∉ Object_prototype →
  printable (field "replication_id" doc) = true →
  truthy (field "_deleted" doc) = false →
  (∃ repId signature,
      repId ≠ ToString (field "replication_id" doc)
    ∧ activeReplicationSignaturesByRepId data !! repId = Some (Some signature)
    ∧ equals (VObj signature) (VObj (delete "_rev" (fields doc))) = true) →
  let '(doc', data', cmds) := onChanged env db doc data in
  ∃ repId signature,
    let joined := set_field "replication_id" (VStr repId) doc in
    let cancelled :=
      match activeReplicationsById data !! _id doc with
      | Some h => [Cancel h]
      | None => []
      end in
      onChanged_throws doc data = false
    ∧ repId ≠ ToString (field "replication_id" doc)
    ∧ activeReplicationSignaturesByRepId data !! repId = Some (Some signature)
    ∧ equals (VObj signature) (VObj (delete "_rev" (fields doc))) = true
    ∧ doc' = (if truthy (field "replication_state" doc)
              then set_field "replication_state_time" (VNum (now env)) joined
              else joined)
    ∧ changedByReplicator data' = changedByReplicator data ++ [_id doc]
    ∧ if bool_decide (field "replication_state" doc = VStr "triggered")
      then
        cmds = cancelled
                 ++ [Replicate (replication env) (field "source" doc)
                       (field "target" doc) joined;
                     On (replication env) complete
                       (OnReplicationComplete db (_id doc));
                     On (replication env) error
                       (OnReplicationError db (_id doc))]
                 ++ [Put doc' ["_replicator"; "_admin"]]
      else
          cmds = cancelled ++ [] ++ [Put doc' ["_replicator"; "_admin"]]
        ∧ activeReplicationsById data'
          = delete (_id doc) (activeReplicationsById data)
        ∧ activeReplicationSignaturesByRepId data'
          = delete (ToString (field "replication_id" doc))
              (activeReplicationSignaturesByRepId data).
Proof.
  intros Hkeyed Hmark Hdesign Hplain Hprints Hdel (r & sig & Hr & Hlr & Heqr).
  rewrite onChanged_unmarked by done.
  rewrite (reconcile_runs _ _ _ _ _ (cancel_oldReplication_plain _ _ Hplain)
             (currentSignature_throws_printable _ Hprints)).
  cbv zeta.
  destruct (assign_replication_id_live env doc
              (cleanupReplicationData doc data)
              (if truthy (field "replication_id" doc)
               then mjoin (activeReplicationSignaturesByRepId data
                             !! ToString (field "replication_id" doc))
               else None) Hdel)
    as [(repId & signature & Hl & Heq & Hne & ->)|[[Hnone|Hempty] _]]; cycle 1.
  { assert (matches (delete "_rev" (fields doc)) (Some sig) = false) as E.
    { apply (Hnone r). rewrite cleanupReplicationData_signatures.
      by apply lookup_delete_Some. }
    simpl in E. congruence. }
  { destruct Hempty as [joined Hempty].
    rewrite cleanupReplicationData_signatures in Hempty.
    apply lookup_delete_Some in Hempty as [_ Hempty].
    by destruct (Hkeyed joined). }
  rewrite cleanupReplicationData_signatures in Hl.
  apply lookup_delete_Some in Hl as [Hkey Hl].
  set (joined := set_field "replication_id" (VStr repId) doc).
  assert (field "replication_state" joined = field "replication_state" doc)
    as Hst by (by apply field_set_field_ne).
  assert (equals_Doc joined doc = false) as Hchanged.
  { apply (equals_Doc_changed _ _ "replication_id" repId); [done| |].
    - apply lookup_insert_eq.
    - intros E. apply Hkey. unfold field, get. by rewrite E. }
  unfold start_if_triggered, put_if_changed, putAsReplicatorChange.
  rewrite Hst, Hchanged. cbn [negb].
  assert (field "source" joined = field "source" doc
          ∧ field "target" joined = field "target" doc) as [-> ->].
  { unfold joined. by rewrite !field_set_field_ne by done. }
  pose proof (onChanged_throws_plain doc data Hplain Hprints) as Hruns.
  case_bool_decide as Htr; cbv beta iota zeta; exists repId, signature;
    fold joined.
  - rewrite Htr. simpl. done.
  - repeat split; try done.
    destruct (truthy (field "replication_state" doc)); done.
Qed.

(** ** The registry on the world *)

Lemma dataFor_Some db D i data :
  dataFor db D = Some (i, data) →
    indexOf db (dbs D) = Z.of_nat i
  ∧ db ∈ dbs D
  ∧ changes data = mjoin (changesByDbIdx D !! i)
  ∧ activeReplicationsByDbIdxAndId D !! i
    = Some (Some (activeReplicationsById data))
  ∧ activeReplicationSignaturesByDbIdxAndRepId D !! i
    = Some (Some (activeReplicationSignaturesByRepId data))
  ∧ ∃ array,
      changedByReplicatorByDbIdx D !! i
      = Some (Some (array, changedByReplicator data)).
Proof.
  unfold dataFor. pose proof (indexOf_lower db (dbs D)) as Hlow.
  destruct (indexOf db (dbs D) =? -1) eqn:E; [done|].
  apply Z.eqb_neq in E.
  destruct (activeReplicationsByDbIdxAndId D !! _) as [[reps|]|] eqn:E1;
    simpl; try done.
  destruct (activeReplicationSignaturesByDbIdxAndRepId D !! _)
    as [[sigs|]|] eqn:E2; simpl; try done.
  destruct (changedByReplicatorByDbIdx D !! _) as [[[array marks]|]|] eqn:E3;
    simpl; try done.
  intros [= <- <-]. simpl. rewrite Z2Nat.id by lia.
  repeat split; try done; [by apply indexOf_elem | by exists array].
Qed.

Lemma dataFor_None db D : db ∉ dbs D → dataFor db D = None.
Proof.
  intros Hin%indexOf_not_elem. unfold dataFor. by rewrite Hin.
Qed.

(** What a callback left in the objects [dataFor] handed out is what the
    next [dataFor] finds. *)
Lemma dataFor_store db D i data data' :
  dataFor db D = Some (i, data) →
  dataFor db (store i data' D)
  = Some (i, mkData (changes data) (activeReplicationsById data')
               (activeReplicationSignaturesByRepId data')
               (changedByReplicator data')).
Proof.
  intros (Hi & _ & Hc & H1 & H2 & array & H3)%dataFor_Some.
  unfold dataFor, store. simpl. rewrite Hi.
  destruct (Z.of_nat i =? -1) eqn:E; [apply Z.eqb_eq in E; lia|].
  rewrite Nat2Z.id.
  rewrite !list_lookup_insert_eq by (by eapply lookup_lt_Some).
  rewrite list_lookup_alter_eq, H3. simpl. by rewrite Hc.
Qed.

(** Carrying out calls leaves the registry, the validation and the stops
    alone, and logs the calls in order. *)
Lemma exec_frame db cmds w :
    dbData (exec db cmds w) = dbData w
  ∧ validating (exec db cmds w) = validating w
  ∧ stops (exec db cmds w) = stops w
  ∧ calls (exec db cmds w) = calls w ++ (Did db <$> cmds)
  ∧ listeners (exec db cmds w) = listeners w ++ registrations cmds.
Proof.
  revert w. induction cmds as [|c cmds IH]; intros w.
  { simpl. by rewrite !app_nil_r. }
  change (exec db (c :: cmds) w) with (exec db cmds (exec1 db c w)).
  destruct (IH (exec1 db c w)) as (-> & -> & -> & -> & ->).
  destruct c; simpl; rewrite <- ?app_assoc; done.
Qed.

(** A run of [onChanged] that throws has changed nothing and has called
    nothing but the cancel of the old replication. *)
Lemma onChanged_thrown env db doc data :
  onChanged_throws doc data = true →
  ∃ cancelled,
      onChanged env db doc data = (doc, data, cancelled)
    ∧ registrations cancelled = []
    ∧ (cancel_oldReplication doc data = None ∧ cancelled = []
       ∨ cancel_oldReplication doc data = Some cancelled
         ∧ currentSignature_throws doc = true).
Proof.
  unfold onChanged_throws, onChanged.
  destruct (bool_decide _); [done|]. cbn [orb].
  destruct (String.prefix _ _); [done|]. cbn [negb andb].
  destruct (cancel_oldReplication doc data) as [cancelled|] eqn:Hruns.
  - rewrite bool_decide_eq_false_2 by done. cbn [orb]. intros Hreads.
    exists cancelled. rewrite (reconcile_thrown _ _ _ _ _ Hruns Hreads).
    split; [done|]. split; [|by right].
    revert Hruns. unfold cancel_oldReplication.
    destruct (_ !! _); [by intros [= <-]|].
    case_bool_decide; [done|]. by intros [= <-].
  - intros _. exists []. rewrite reconcile_throws by done.
    split; [done|]. split; [done|]. by left.
Qed.

Lemma thrown_onChanged_quiet db doc uuid now w :
  run_onChanged db doc uuid now w = None →
  let w' := thrown_onChanged db doc uuid now w in
    dbData w' = dbData w
  ∧ validating w' = validating w
  ∧ stops w' = stops w
  ∧ listeners w' = listeners w
  ∧ ∃ extra, calls w' = calls w ++ extra.
Proof.
  unfold run_onChanged, thrown_onChanged.
  destruct (dataFor db (dbData w)) as [[i data]|];
    [|intros _; repeat split; exists []; by rewrite app_nil_r].
  destruct (onChanged_throws doc data) eqn:Hthrows;
    [|by destruct (onChanged _ _ _ _) as [[? ?] ?]].
  intros _.
  destruct (onChanged_thrown (mkEnv uuid now (objects w)) db doc data Hthrows)
    as (cancelled & -> & Hnone & _).
  cbn [snd].
  destruct (exec_frame db cancelled w) as (-> & -> & -> & -> & ->).
  rewrite Hnone, app_nil_r. repeat split. eauto.
Qed.

Lemma thrown_quiet l p w :
  run_listener l p w = None →
  let w' := thrown l p w in
    dbData w' = dbData w
  ∧ validating w' = validating w
  ∧ stops w' = stops w
  ∧ listeners w' = listeners w
  ∧ ∃ extra, calls w' = calls w ++ extra.
Proof.
  destruct l, p; cbn [run_listener thrown];
    try (intros _; repeat split; exists []; by rewrite app_nil_r).
  apply thrown_onChanged_quiet.
Qed.

(** ** The error handler *)

Lemma emit_single h ev p l w :
  listeners_of h ev w = [l] →
  emit h ev p w = default (thrown l p w) (run_listener l p w).
Proof.
  intros Hl. unfold emit. rewrite Hl. simpl. by destruct (run_listener l p w).
Qed.


(** ** Conflicts of the write-back *)

Lemma indexOf_app_first `{EqDecision A} (x : A) before after :
  x ∉ before →
  indexOf x (before ++ x :: after) = Z.of_nat (length before).
Proof.
  induction before as [|y before IH]; intros Hnot.
  - simpl. by rewrite decide_True.
  - apply not_elem_of_cons in Hnot as [Hne Hnot].
    cbn [app indexOf length]. rewrite decide_False, IH by done.
    destruct (Z.ltb_spec (Z.of_nat (length before)) 0); lia.
Qed.

(** [l.splice(l.indexOf(x), 1)] takes the first [x] out of [l]. *)
Lemma splice_indexOf `{EqDecision A} (x : A) before after :
  x ∉ before →
  splice (Finite (indexOf x (before ++ x :: after))) 1 (before ++ x :: after)
  = before ++ after.
Proof.
  intros Hnot. rewrite indexOf_app_first by done. unfold splice.
  rewrite length_app. simpl length.
  destruct (Z.ltb_spec (Z.of_nat (length before)) 0); [lia|].
  rewrite Z.min_l by lia.
  replace (Z.min (Z.max 1 0) _) with 1 by lia.
  rewrite Nat2Z.id.
  replace (Z.to_nat (Z.of_nat (length before) + 1)) with (S (length before))
    by lia.
  rewrite take_app_length.
  change (before ++ x :: after) with (before ++ [x] ++ after).
  rewrite app_assoc, drop_app_length'; [done|].
  rewrite length_app. simpl. lia.
Qed.



(** ** A superseded replication *)

Lemma onChanged_fresh env db doc data cancelled :
  _id doc ∉ changedByReplicator data →
  String.prefix "_design" (_id doc) = false →
  truthy (field "_deleted" doc) = false →
  (∀ repId signature,
     activeReplicationSignaturesByRepId data !! repId = Some (Some signature) →
     equals (VObj signature) (VObj (delete "_rev" (fields doc))) = false) →
  cancel_oldReplication doc data = Some cancelled →
  currentSignature_throws doc = false →
  onChanged env db doc data =
    let triggered :=
      set_field "replication_state" (VStr "triggered")
        (set_field "replication_id" (VStr (uuid env)) doc) in
    let registered :=
      set_activeReplicationSignaturesByRepId
        (<[uuid env := Some (delete "_rev" (fields doc))]>)
        (set_activeReplicationsById (<[_id doc := replication env]>)
           (cleanupReplicationData doc data)) in
    let '(doc', data', written) :=
      put_if_changed env doc triggered registered in
    (doc', data',
     cancelled
     ++ [Replicate (replication env) (field "source" doc)
           (field "target" doc) triggered;
         On (replication env) complete (OnReplicationComplete db (_id doc));
         On (replication env) error (OnReplicationError db (_id doc))]
     ++ written).
Proof.
  intros Hmark Hdesign Hdel Hnone Hruns Hreads.
  rewrite onChanged_unmarked by done.
  rewrite (reconcile_runs _ _ _ _ _ Hruns Hreads). cbv zeta.
  destruct (assign_replication_id_live env doc
              (cleanupReplicationData doc data)
              (if truthy (field "replication_id" doc)
               then mjoin (activeReplicationSignaturesByRepId data
                             !! ToString (field "replication_id" doc))
               else None) Hdel)
    as [(repId & joined & Hl & Heq & _)|[_ ->]].
  { rewrite cleanupReplicationData_signatures in Hl.
    apply lookup_delete_Some in Hl as [_ Hl].
    by rewrite (Hnone repId joined Hl) in Heq. }
  destruct (triggered_fields env doc) as (Hst & Hid & Hs & Ht & Hi).
  unfold start_if_triggered. rewrite (bool_decide_eq_true_2 _ Hst).
  by rewrite Hid, Hs, Ht, Hi.
Qed.

Lemma registrations_app cmds1 cmds2 :
  registrations (cmds1 ++ cmds2) = registrations cmds1 ++ registrations cmds2.
Proof. apply omap_app. Qed.

Lemma put_if_changed_commands env docCopy doc data :
  registrations (put_if_changed env docCopy doc data).2 = [].
Proof. unfold put_if_changed. by destruct (equals_Doc _ _). Qed.

Lemma listeners_of_app h ev w extra :
  snd <$> filter (λ r, r.1 = (h, ev)) (listeners w ++ extra)
  = listeners_of h ev w ++ (snd <$> filter (λ r, r.1 = (h, ev)) extra).
Proof. unfold listeners_of. by rewrite filter_app, fmap_app. Qed.

(** C10: a change of a document whose id owns a replication cancels that
    replication and registers a new one, but the listeners of the old one
    stay where they are.  When the cancelled replication then reports its
    completion, the completion handler fetches the document; with the
    document fetched (it carries the new replication id), it is the entry
    of the new replication and the new signature that leave the registry,
    and the document is put back with the state completed. *)
Theorem superseded_replication_still_reports
    w db i data feed old doc fresh time info fetched time' :
  dataFor db (dbData w) = Some (i, data) →
  listeners_of feed change w = [OnChange db] →
  activeReplicationsById data !! _id doc = Some old →
  listeners_of old complete w = [OnReplicationComplete db (_id doc)] →
  old ≠ objects w →
  _id doc ∉ changedByReplicator data →
  String.prefix "_design" (_id doc) = false →
  truthy (field "_deleted" doc) = false →
  printable (field "replication_id" doc) = true →
  (∀ repId signature,
     activeReplicationSignaturesByRepId data !! repId = Some (Some signature) →
     equals (VObj signature) (VObj (delete "_rev" (fields doc))) = false) →
  _id fetched = _id doc →
  field "replication_id" fetched = VStr fresh →
  let stats := delete "ok" (delete "status" info) in
  let w1 := step (Emit feed change (Change doc fresh time)) w in
  let w2 := step (Emit old complete (Info info)) w1 in
  let w3 :=
    step (Fetched db (_id doc) (SetCompleted stats) fetched time') w2 in
    Did db (Cancel old) ∈ calls w1
  ∧ (∃ data1,
        dataFor db (dbData w1) = Some (i, data1)
      ∧ activeReplicationsById data1 !! _id doc = Some (objects w)
      ∧ activeReplicationSignaturesByRepId data1 !! fresh
        = Some (Some (delete "_rev" (fields doc))))
  ∧ (∀ ev, listeners_of old ev w1 = listeners_of old ev w)
  ∧ calls w2 = calls w1 ++ [Did db (Get (_id doc) (SetCompleted stats))]
  ∧ (∃ data3,
        dataFor db (dbData w3) = Some (i, data3)
      ∧ activeReplicationsById data3 !! _id doc = None
      ∧ activeReplicationSignaturesByRepId data3 !! fresh = None)
  ∧ ∃ written,
        Did db (Put written ["_replicator"; "_admin"]) ∈ calls w3
      ∧ field "replication_state" written = VStr "completed"
      ∧ field "replication_stats" written = VObj stats.
Proof.
  intros Hdata Hfeed Hold Hls Hfresh Hmark Hdesign Hdel Hprints Hnone Hid Hrid.
  cbv zeta. cbn [step].
  rewrite (emit_single _ _ _ _ _ Hfeed). cbn [run_listener].
  unfold run_onChanged. rewrite Hdata.
  rewrite (onChanged_throws_own _ _ _ Hold Hprints).
  rewrite (onChanged_fresh _ _ _ _ [Cancel old])
    by (done || (by apply cancel_oldReplication_own)
        || by apply currentSignature_throws_printable).
  cbn [uuid replication now]. cbv zeta.
  match goal with |- context [put_if_changed ?e ?c ?d ?r] =>
    pose proof (put_if_changed_registry e c d r) as Hreg;
    pose proof (put_if_changed_commands e c d r) as Hcmds;
    destruct (put_if_changed e c d r) as [[doc1 data1] written]
  end.
  cbv zeta in Hreg. simpl in Hreg, Hcmds. destruct Hreg as [Hjobs Hsigs].
  cbn [default from_option id].
  match goal with |- context [exec db ?cmds ?w0] =>
    destruct (exec_frame db cmds w0) as (HD1 & _ & _ & Hcalls1 & Hl1);
    set (w1 := exec db cmds w0) in *; clearbody w1
  end.
  cbn [dbData set_dbData] in HD1. cbn [calls set_dbData] in Hcalls1.
  cbn [listeners set_dbData] in Hl1.
  rewrite !registrations_app, Hcmds in Hl1. cbn in Hl1.
  assert (∀ ev, listeners_of old ev w1 = listeners_of old ev w) as Hkeep.
  { intros ev. unfold listeners_of at 1. rewrite Hl1.
    rewrite listeners_of_app. rewrite !filter_cons_False, filter_nil.
    - apply app_nil_r.
    - simpl. congruence.
    - simpl. congruence. }
  assert (dataFor db (dbData w1)
          = Some (i, mkData (changes data) (activeReplicationsById data1)
                       (activeReplicationSignaturesByRepId data1)
                       (changedByReplicator data1))) as Hdata1.
  { rewrite HD1. by apply dataFor_store. }
  rewrite (emit_single _ _ _ _ w1 (eq_trans (Hkeep _) Hls)).
  change (default _ _)
    with (exec db [Get (_id doc)
                     (SetCompleted (delete "ok" (delete "status" info)))] w1).
  match goal with |- context [exec db ?cmds w1] =>
    destruct (exec_frame db cmds w1) as (HD2 & _ & _ & Hcalls2 & _);
    set (w2 := exec db cmds w1) in *; clearbody w2
  end.
  unfold run_updateExistingDoc_then. rewrite HD2, Hdata1.
  unfold updateExistingDoc_then, putAsReplicatorChange, apply_func.
  rewrite !(field_set_field_ne "replication_stats") by done.
  rewrite field_set_field. cbn [truthy negb String.eqb Ascii.eqb Bool.eqb].
  cbv iota beta.
  match goal with |- context [exec db ?cmds ?w0] =>
    destruct (exec_frame db cmds w0) as (HD3 & _ & _ & Hcalls3 & _);
    set (w3 := exec db cmds w0) in *; clearbody w3
  end.
  cbn [dbData set_dbData] in HD3. cbn [calls set_dbData] in Hcalls3.
  rewrite <- HD2 in Hdata1.
  split; [|split; [|split; [|split; [|split]]]].
  - rewrite Hcalls1. apply elem_of_app. right. apply list_elem_of_here.
  - eexists. split; [reflexivity|]. simpl.
    rewrite Hjobs, Hsigs. simpl. by rewrite !lookup_insert_eq.
  - done.
  - done.
  - eexists. rewrite HD3. split; [by apply dataFor_store|]. simpl.
    rewrite Hid, Hrid. simpl. by rewrite !lookup_delete_eq.
  - eexists. split.
    + rewrite Hcalls3. apply elem_of_app. right. apply list_elem_of_here.
    + rewrite !(field_set_field_ne "replication_state_time") by done.
      rewrite field_set_field.
      by rewrite field_set_field_ne, field_set_field by done.
Qed.

(** ** What every reachable world satisfies *)

Lemma occurrences_app r l1 l2 :
  occurrences r (l1 ++ l2) = (occurrences r l1 + occurrences r l2)%nat.
Proof. unfold occurrences. by rewrite filter_app, length_app. Qed.

Lemma occurrences_plain h ev k hb extra :
  Forall plain extra → occurrences (h, ev, DoneCancelling k hb) extra = 0%nat.
Proof.
  unfold occurrences. induction 1 as [|r extra Hr _ IH]; [done|].
  rewrite filter_cons_False; [done|]. intros ->. exact Hr.
Qed.

Lemma occurrences_elem r l : (0 < occurrences r l)%nat ↔ r ∈ l.
Proof.
  unfold occurrences. induction l as [|x l IH].
  - simpl. split; [lia|]. by intros ?%elem_of_nil.
  - rewrite elem_of_cons. destruct (decide (x = r)) as [->|Hne].
    + rewrite filter_cons_True by done. simpl. split; [by left | lia].
    + rewrite filter_cons_False by done. rewrite IH.
      split; [by right | by intros [?|?]].
Qed.

(** Removing the listeners of one emitter. *)
Lemma occurrences_removeAllListeners r hb l :
  occurrences r (filter (λ x, x.1.1 ≠ hb) l)
  = if decide (r.1.1 = hb) then 0%nat else occurrences r l.
Proof.
  unfold occurrences. rewrite list_filter_filter.
  destruct (decide (r.1.1 = hb)) as [E|E].
  - induction l as [|x l IH]; [done|].
    rewrite filter_cons_False; [done|]. intros [-> ?]. done.
  - f_equal. apply list_filter_iff. intros x. split; [by intros [? _]|].
    intros ->. done.
Qed.

Lemma elem_of_plain_app r l extra :
  Forall plain extra → ¬ plain r → r ∈ l ++ extra → r ∈ l.
Proof.
  intros Hextra Hr [?|Hin]%elem_of_app; [done|].
  rewrite Forall_forall in Hextra. by destruct (Hr (Hextra _ Hin)).
Qed.

(** A callback that leaves the registry of databases, the validation and
    the stops alone and only registers handlers of the controller keeps
    the world consistent. *)
Lemma consistent_frame w w' extra :
  dbs (dbData w') = dbs (dbData w) →
  validating w' = validating w →
  stops w' = stops w →
  listeners w' = listeners w ++ extra →
  Forall plain extra →
  consistent w → consistent w'.
Proof.
  intros Hdbs Hval Hstops Hls Hextra [H1 H2 H3 H4 H5 H6].
  split; rewrite ?Hdbs, ?Hval, ?Hstops, ?Hls; try done.
  - intros h ev k hb Hin. apply (H5 h ev k hb).
    apply (elem_of_plain_app _ _ extra); [done | exact id | done].
  - intros k h.
    rewrite !occurrences_app, !(occurrences_plain _ _ _ _ extra) by done.
    by rewrite H6.
Qed.

Lemma onChanged_plain env db doc data :
  Forall plain (registrations (onChanged env db doc data).2).
Proof.
  unfold onChanged. destruct (bool_decide _); [by constructor|]. simpl orb.
  destruct (String.prefix _ _); [by constructor|].
  unfold reconcile, cancel_oldReplication.
  destruct (activeReplicationsById data !! _id doc);
    [|case_bool_decide; [by constructor|]];
    (destruct (currentSignature_throws doc); [by constructor|]);
    destruct (assign_replication_id _ _ _ _) as [doc1 cs];
    unfold start_if_triggered;
    pose proof (put_if_changed_commands env doc doc1) as Hput;
    case_bool_decide;
    match goal with |- context [put_if_changed ?e ?c ?d ?r] =>
      specialize (Hput r); destruct (put_if_changed e c d r) as [[? ?] ?]
    end; simpl in *; rewrite ?registrations_app, ?Hput; simpl;
    repeat constructor.
Qed.

Lemma exec_consistent db cmds w :
  Forall plain (registrations cmds) →
  consistent w → consistent (exec db cmds w).
Proof.
  intros Hplain. destruct (exec_frame db cmds w) as (HD & Hv & Hs & _ & Hl).
  apply (consistent_frame w _ (registrations cmds)); try done.
  by rewrite HD.
Qed.

Lemma store_consistent i data w :
  consistent w → consistent (set_dbData (store i data) w).
Proof.
  apply (consistent_frame w _ []); try done. simpl. by rewrite app_nil_r.
Qed.

Lemma run_onChanged_consistent db doc uuid now w w' :
  run_onChanged db doc uuid now w = Some w' →
  consistent w → consistent w'.
Proof.
  unfold run_onChanged. destruct (dataFor db (dbData w)) as [[i data]|];
    [|done].
  destruct (onChanged_throws doc data); [done|].
  pose proof (onChanged_plain (mkEnv uuid now (objects w)) db doc data).
  destruct (onChanged _ _ _ _) as [[doc' data'] cmds]. intros [= <-] Hw.
  by apply exec_consistent, store_consistent.
Qed.

Lemma thrown_onChanged_consistent db doc uuid now w :
  consistent w → consistent (thrown_onChanged db doc uuid now w).
Proof.
  unfold thrown_onChanged.
  destruct (dataFor db (dbData w)) as [[i data]|]; [|done].
  apply exec_consistent, onChanged_plain.
Qed.

Lemma thrown_consistent l p w : consistent w → consistent (thrown l p w).
Proof.
  destruct l, p; cbn [thrown]; try done. apply thrown_onChanged_consistent.
Qed.

Lemma occurrences_filter_keep (P : Handle * EventName * Listener → Prop)
    `{∀ x, Decision (P x)} r l :
  P r → occurrences r (filter P l) = occurrences r l.
Proof.
  intros Hr. unfold occurrences. rewrite list_filter_filter.
  f_equal. apply list_filter_iff. intros x. split; [by intros [? _]|].
  by intros ->.
Qed.

(** A callback that registers nothing, leaves the registry of databases
    and the validation alone, and moves no stop back to pending keeps the
    world consistent. *)
Lemma consistent_shrink w w' :
  dbs (dbData w') = dbs (dbData w) →
  validating w' = validating w →
  length (stops w') = length (stops w) →
  (∀ k s', stops w' !! k = Some s' →
     ∃ s, stops w !! k = Some s ∧ stop_db s' = stop_db s
          ∧ (in_flight s' → in_flight s)) →
  (∀ r, r ∈ listeners w' → r ∈ listeners w) →
  (∀ k h,
     occurrences (h, complete, DoneCancelling k h) (listeners w')
     = occurrences (h, error, DoneCancelling k h) (listeners w')) →
  consistent w → consistent w'.
Proof.
  intros Hdbs Hval Hlen Hstops Hls Hpaired [H1 H2 H3 H4 H5 H6].
  split; rewrite ?Hdbs, ?Hval, ?Hlen; try done.
  - intros k s' (s & Hs & -> & Hin)%Hstops Hf. eauto.
  - intros k k' s1 s2 (s & Hs & -> & Hin)%Hstops
      (s' & Hs' & -> & Hin')%Hstops ? ? ?. eauto.
  - intros h ev k hb Hin%Hls. eauto.
Qed.

Lemma doneCancelling_consistent k hb w :
  consistent w → consistent (doneCancelling k hb w).
Proof.
  intros Hw. apply (consistent_shrink w); try done.
  - simpl. by rewrite length_alter.
  - intros k0 s'. simpl. intros Hl.
    destruct (decide (k = k0)) as [->|Hne].
    + rewrite list_lookup_alter_eq in Hl.
      destruct (stops w !! k0) as [s|]; [|done]. injection Hl as <-.
      exists s. repeat split. simpl.
      destruct (_ && _) eqn:E; [|done].
      apply andb_prop in E as [_ E%bool_decide_eq_true]. by left.
    + rewrite list_lookup_alter_ne in Hl by done. eauto.
  - intros r. simpl. by intros [_ ?]%list_elem_of_filter.
  - intros k0 h. simpl. rewrite !occurrences_removeAllListeners. simpl.
    destruct (decide (h = hb)); [done|]. apply (listeners_paired w Hw).
Qed.

(** [cancel] inside a call of [stopReplicator] that is among the stops. *)
Lemma cancel_consistent k h w :
  (k < length (stops w))%nat →
  consistent w → consistent (cancel k h w).
Proof.
  intros Hk [H1 H2 H3 H4 H5 H6].
  assert (∀ k0 s', stops (cancel k h w) !! k0 = Some s' →
            ∃ s, stops w !! k0 = Some s ∧ stop_db s' = stop_db s
                 ∧ (in_flight s' → in_flight s)) as Hstops.
  { intros k0 s'. simpl. intros Hl.
    destruct (decide (k = k0)) as [->|Hne].
    - rewrite list_lookup_alter_eq in Hl.
      destruct (stops w !! k0) as [s|]; [|done]. injection Hl as <-. eauto.
    - rewrite list_lookup_alter_ne in Hl by done. eauto. }
  split; try done.
  - intros k0 s' (s & Hs & -> & Hin)%Hstops Hf. simpl. eauto.
  - intros k0 k' s1 s2 (s & Hs & -> & Hin)%Hstops
      (s' & Hs' & -> & Hin')%Hstops ? ? ?. eauto.
  - intros h0 ev k0 hb. simpl. rewrite length_alter.
    intros [Hin|Hin]%elem_of_app; [eauto|].
    apply elem_of_cons in Hin as [[= -> -> -> ->]|Hin]; [done|].
    apply list_elem_of_singleton in Hin as [= -> -> -> ->]. done.
  - intros k0 h0. simpl. rewrite !occurrences_app, H6. f_equal.
    unfold occurrences.
    destruct (decide ((h0, k0) = (h, k))) as [[= -> ->]|Hne].
    + rewrite filter_cons_True, filter_cons_False by done.
      rewrite filter_cons_False, filter_cons_True by done. done.
    + rewrite !filter_cons_False; [done|congruence..].
Qed.

Lemma splice_indexOf_elem (db : Db) l :
  NoDup l → db ∈ l →
    NoDup (splice (Finite (indexOf db l)) 1 l)
  ∧ ∀ x, x ∈ splice (Finite (indexOf db l)) 1 l ↔ x ∈ l ∧ x ≠ db.
Proof.
  intros Hnd (before & after & -> & Hnot)%list_elem_of_split_l.
  rewrite splice_indexOf by done.
  apply NoDup_app in Hnd as (Hb & Hba & Ha).
  apply NoDup_cons in Ha as [Hdb Ha].
  split.
  - apply NoDup_app. repeat split; [done| |done].
    intros x Hx Hx'. apply (Hba x Hx). by right.
  - intros x. rewrite !elem_of_app, elem_of_cons. split.
    + intros [Hx|Hx]; (split; [tauto|]); intros ->; done.
    + intros [[Hx|[->|Hx]] Hne]; tauto.
Qed.

Lemma startReplicator_consistent db w :
  consistent w → consistent (startReplicator db w).1.
Proof.
  intros [H1 H2 H3 H4 H5 H6]. unfold startReplicator.
  case_bool_decide as Hval; [done|]. split; simpl; try done.
  - apply NoDup_app. repeat split; [done| |apply NoDup_singleton].
    intros x Hx ->%list_elem_of_singleton. auto.
  - intros x [Hx| ->%list_elem_of_singleton]%elem_of_app;
      [apply elem_of_union_r; auto | by apply elem_of_union_l, elem_of_singleton].
  - intros k s Hs Hf. destruct (H3 k s Hs Hf) as [Hnot Hin]. split.
    + intros [?|E%list_elem_of_singleton]%elem_of_app; [done|].
      apply Hval. by rewrite <- E.
    + by apply elem_of_union_r.
Qed.

Lemma startReplicator_subscribe_consistent db i w :
  consistent w → consistent (startReplicator_subscribe db i w).
Proof.
  apply (consistent_frame w _ [(objects w, change, OnChange db)]);
    try done.
  by repeat constructor.
Qed.

Lemma foldl_cancel_consistent k (hs : list (string * Handle)) w :
  (k < length (stops w))%nat →
  consistent w →
  consistent (foldl (λ w entry, cancel k entry.2 w) w hs).
Proof.
  revert w. induction hs as [|h hs IH]; intros w Hk Hw; [done|].
  simpl. apply IH; [by simpl; rewrite length_alter|].
  by apply cancel_consistent.
Qed.

Lemma stopReplicator_consistent db w :
  consistent w → consistent (stopReplicator db w).1.
Proof.
  intros Hw. unfold stopReplicator.
  destruct (dataFor db (dbData w)) as [[i data]|] eqn:Hdata; [|done].
  apply dataFor_Some in Hdata as (_ & Hdb & _).
  destruct Hw as [H1 H2 H3 H4 H5 H6].
  destruct (splice_indexOf_elem db _ H1 Hdb) as [Hnd Hsplice].
  (* the entry is cleaned up and the stop is added *)
  assert (∀ p, consistent
    (set_stops (λ ss, ss ++ [mkStop db 0 p])
       (set_dbData (λ D,
          mkDbData
            (splice (Finite (indexOf db (dbs (dbData w)))) 1 (dbs D))
            (splice (Finite (indexOf db (dbs (dbData w)))) 1
               (changesByDbIdx D))
            (splice (Finite (indexOf db (dbs (dbData w)))) 1
               (activeReplicationsByDbIdxAndId D))
            (splice (Finite (indexOf db (dbs (dbData w)))) 1
               (activeReplicationSignaturesByDbIdxAndRepId D))
            (splice (Finite (indexOf db (dbs (dbData w)))) 1
               (changedByReplicatorByDbIdx D))) w))) as Hadded.
  { intros p. split; simpl; try done.
    - intros x [Hx _]%Hsplice. auto.
    - intros k s Hs Hf. apply lookup_app_Some in Hs
        as [Hs|[_ Hs]].
      + destruct (H3 k s Hs Hf) as [Hnot Hin]. split; [|done].
        by intros [? _]%Hsplice.
      + apply list_lookup_singleton_Some in Hs as [_ <-]. simpl. split.
        * by intros [_ ?]%Hsplice.
        * auto.
    - intros k k' s s' Hs Hs' Hf Hf' Hdbs.
      apply lookup_app_Some in Hs as [Hs|[Hk Hs]];
        apply lookup_app_Some in Hs' as [Hs'|[Hk' Hs']].
      + eauto.
      + apply list_lookup_singleton_Some in Hs' as [_ <-]. simpl in Hdbs.
        destruct (H3 k s Hs Hf) as [Hnot _]. rewrite Hdbs in Hnot. done.
      + apply list_lookup_singleton_Some in Hs as [_ <-]. simpl in Hdbs.
        destruct (H3 k' s' Hs' Hf') as [Hnot _]. rewrite <- Hdbs in Hnot.
        done.
      + apply list_lookup_singleton_Some in Hs as [Hs _].
        apply list_lookup_singleton_Some in Hs' as [Hs' _]. lia.
    - intros h ev k hb Hin. rewrite length_app. simpl.
      destruct (H5 h ev k hb Hin) as (? & ? & ?). repeat split; [done..|lia]. }
  destruct (changes data) as [feed|]; [|apply Hadded]. simpl.
  apply foldl_cancel_consistent.
  { simpl. rewrite length_alter, length_app. simpl. lia. }
  match goal with |- consistent (log _ (set_listeners _ ?w0)) =>
    assert (consistent w0) as Hw0
  end.
  { apply cancel_consistent; [|apply Hadded]. simpl. rewrite length_app.
    simpl. lia. }
  eapply consistent_shrink; [| | | | | |exact Hw0]; try done.
  - intros k s' Hs. eauto.
  - intros r. simpl. by intros [_ ?]%list_elem_of_filter.
  - intros k h. cbn [listeners log set_listeners].
    rewrite !(occurrences_filter_keep (λ r, r.1 ≠ (feed, change)))
      by (simpl; congruence).
    apply (listeners_paired _ Hw0).
Qed.

Lemma stopReplicator_then_consistent k w :
  consistent w → consistent (stopReplicator_then k w).
Proof.
  intros Hw. unfold stopReplicator_then.
  destruct (stops w !! k) as [s|] eqn:Hs; [|done].
  case_bool_decide as Hp; [|done].
  assert (in_flight s) as Hf by (by right).
  assert (∀ p k0 s',
    <[k := mkStop (stop_db s) (stillCancellingCount s) p]> (stops w) !! k0
    = Some s' →
    p ≠ Cancelling → p ≠ Cancelled →
    ∃ s0, stops w !! k0 = Some s0 ∧ stop_db s' = stop_db s0
          ∧ (in_flight s' → in_flight s0 ∧ k0 ≠ k)) as Hstops.
  { intros p k0 s' Hl Hp1 Hp2. destruct (decide (k = k0)) as [->|Hne].
    - rewrite list_lookup_insert_eq in Hl by (by eapply lookup_lt_Some).
      injection Hl as <-. exists s. repeat split; try done;
        by destruct H as [H|H]; simpl in H.
    - rewrite list_lookup_insert_ne in Hl by done. eauto. }
  case_bool_decide as Hval.
  - destruct Hw as [H1 H2 H3 H4 H5 H6]. split; simpl; try done.
    + intros db Hdb. apply elem_of_difference. split; [auto|].
      intros ->%elem_of_singleton. by destruct (H3 k s Hs Hf).
    + intros k0 s' (s0 & Hs0 & -> & Hin)%Hstops Hf'; [|done..].
      destruct (Hin Hf') as [Hf0 Hne]. destruct (H3 k0 s0 Hs0 Hf0).
      split; [done|]. apply elem_of_difference. split; [done|].
      intros E%elem_of_singleton. apply Hne. eauto.
    + intros k1 k2 s1 s2 (s1' & Hs1 & -> & Hin1)%Hstops
        (s2' & Hs2 & -> & Hin2)%Hstops Hf1 Hf2 ?; try done.
      destruct (Hin1 Hf1), (Hin2 Hf2). eauto.
    + intros h ev k0 hb Hin. rewrite length_insert. eauto.
  - eapply consistent_shrink; [| | | | | |exact Hw]; try done.
    + simpl. by rewrite length_insert.
    + intros k0 s' (s0 & Hs0 & -> & Hin)%Hstops; [|done..].
      exists s0. repeat split; [done|]. by intros []%Hin.
    + apply (listeners_paired _ Hw).
Qed.

Lemma run_updateExistingDoc_then_consistent db docId func doc now w :
  consistent w →
  consistent (run_updateExistingDoc_then db docId func doc now w).
Proof.
  intros Hw. unfold run_updateExistingDoc_then.
  destruct (dataFor db (dbData w)) as [[i data]|]; [|done].
  unfold updateExistingDoc_then, putAsReplicatorChange.
  apply exec_consistent; [by constructor|]. by apply store_consistent.
Qed.

Lemma run_put_failed_consistent db array doc err retry w :
  consistent w → consistent (run_put_failed db array doc err retry w).
Proof.
  intros Hw. unfold run_put_failed.
  match goal with |- context [set_dbData ?f w] =>
    assert (consistent (set_dbData f w)) as Hw'
  end.
  { revert Hw. apply (consistent_frame w _ []); try done.
    simpl. by rewrite app_nil_r. }
  destruct retry as [[docId func]|]; [|done].
  apply exec_consistent; [|done]. unfold updateExistingDoc_catch.
  destruct (status err =? 409); by constructor.
Qed.

Lemma run_listener_consistent l p w w' :
  run_listener l p w = Some w' → consistent w → consistent w'.
Proof.
  destruct l, p; cbn [run_listener]; try done.
  - apply run_onChanged_consistent.
  - intros [= <-] Hw. by apply (exec_consistent db [_] w); [constructor|].
  - intros [= <-] Hw. by apply (exec_consistent db [_] w); [constructor|].
  - intros [= <-]. apply doneCancelling_consistent.
  - intros [= <-]. apply doneCancelling_consistent.
Qed.

Lemma run_listeners_consistent ls p w :
  consistent w → consistent (run_listeners ls p w).
Proof.
  revert w. induction ls as [|l ls IH]; intros w Hw; [done|]. simpl.
  destruct (run_listener l p w) as [w'|] eqn:E;
    [|by apply thrown_consistent].
  apply IH. by eapply run_listener_consistent.
Qed.

Lemma forEach_onChanged_consistent db rows w :
  consistent w → consistent (forEach_onChanged db rows w).1.
Proof.
  revert w. induction rows as [|[[doc uuid] now] rows IH]; intros w Hw;
    [done|].
  simpl. destruct (run_onChanged db doc uuid now w) as [w'|] eqn:E;
    [|by apply thrown_onChanged_consistent].
  apply IH. by eapply run_onChanged_consistent.
Qed.

Lemma step_consistent e w : consistent w → consistent (step e w).
Proof.
  intros Hw. destruct e; simpl.
  - by apply startReplicator_consistent.
  - revert Hw. apply (consistent_frame w _ []); try done.
    simpl. by rewrite app_nil_r.
  - pose proof (forEach_onChanged_consistent db rows w Hw) as Hrows.
    destruct (forEach_onChanged db rows w) as [w' []]; [|done].
    by apply startReplicator_subscribe_consistent.
  - by apply stopReplicator_consistent.
  - by apply stopReplicator_then_consistent.
  - by apply run_listeners_consistent.
  - by apply run_updateExistingDoc_then_consistent.
  - by apply run_put_failed_consistent.
Qed.

Lemma initial_consistent : consistent initial.
Proof.
  split; simpl; try done.
  - apply NoDup_nil_2.
  - by intros db ?%elem_of_nil.
  - by intros h ev k hb ?%elem_of_nil.
Qed.

Lemma run_consistent es w : consistent w → consistent (run es w).
Proof.
  revert w. induction es as [|e es IH]; intros w Hw; [done|].
  simpl. apply IH. by apply step_consistent.
Qed.

(** C4: in every world the event loop reaches, [startReplicator] on a
    database that has a registry entry, or whose validation is installed,
    is rejected with already_active and changes nothing, and
    [stopReplicator] on a database without a registry entry is rejected
    with already_inactive and changes nothing; in any world at all, a
    second [startReplicator] on the same database is rejected with
    already_active. *)
Theorem start_twice_and_stop_unstarted es w db :
  let reached := run es initial in
    (db ∈ dbs (dbData reached) ∨ db ∈ validating reached →
     startReplicator db reached = (reached, Some already_active))
  ∧ (db ∉ dbs (dbData reached) →
     stopReplicator db reached = (reached, Some already_inactive))
  ∧ startReplicator db (startReplicator db w).1
    = ((startReplicator db w).1, Some already_active).
Proof.
  cbv zeta. pose proof (run_consistent es initial initial_consistent) as Hr.
  assert (∀ w0, db ∈ validating w0 →
            startReplicator db w0 = (w0, Some already_active)) as Hactive.
  { intros w0 Hin. unfold startReplicator.
    by rewrite (bool_decide_eq_true_2 _ Hin). }
  repeat split.
  - intros [Hin|Hin]; apply Hactive; [|done].
    by apply (dbs_validating _ Hr).
  - intros Hnot. unfold stopReplicator. by rewrite dataFor_None.
  - apply Hactive. unfold startReplicator. case_bool_decide; [done|].
    simpl. by apply elem_of_union_l, elem_of_singleton.
Qed.

(** ** Stopping *)

Lemma still_listening_app stop (l extra : list (Handle * EventName * Listener)) :
  length (filter (λ r, is_doneCancelling stop complete r = true) (l ++ extra))
  = (length (filter (λ r, is_doneCancelling stop complete r = true) l)
     + length (filter (λ r, is_doneCancelling stop complete r = true) extra))%nat.
Proof. by rewrite filter_app, length_app. Qed.

Lemma still_listening_plain stop extra :
  Forall plain extra →
  length (filter (λ r, is_doneCancelling stop complete r = true) extra) = 0%nat.
Proof.
  induction 1 as [|[[h ev] l] extra Hr _ IH]; [done|].
  rewrite filter_cons_False; [done|]. by destruct l.
Qed.

Lemma still_listening_elem stop h w :
  (h, complete, DoneCancelling stop h) ∈ listeners w →
  (0 < still_listening stop w)%nat.
Proof.
  intros Hin. unfold still_listening.
  assert ((h, complete, DoneCancelling stop h)
          ∈ filter (λ r, is_doneCancelling stop complete r = true)
              (listeners w)) as Hf.
  { apply list_elem_of_filter. split; [|done]. simpl.
    by apply bool_decide_eq_true. }
  destruct (filter _ _); [by apply elem_of_nil in Hf | simpl; lia].
Qed.

(** Removing the listeners of [hb] takes away as many listeners of the
    call [stop] as [hb] carried for its completion. *)
Lemma still_listening_removeAllListeners stop hb l :
  (∀ h ev k hb', (h, ev, DoneCancelling k hb') ∈ l → hb' = h) →
  (length (filter (λ r, is_doneCancelling stop complete r = true)
             (filter (λ r, r.1.1 ≠ hb) l))
   + occurrences (hb, complete, DoneCancelling stop hb) l)%nat
  = length (filter (λ r, is_doneCancelling stop complete r = true) l).
Proof.
  unfold occurrences. induction l as [|[[h ev] x] l IH]; intros Hown; [done|].
  assert (∀ h ev k hb', (h, ev, DoneCancelling k hb') ∈ l → hb' = h) as Hl.
  { intros ???? Hin. eapply Hown. by right. }
  specialize (IH Hl).
  destruct (decide (h = hb)) as [->|Hne].
  - rewrite (filter_cons_False (λ r, r.1.1 ≠ hb)) by (simpl; tauto).
    destruct (is_doneCancelling stop complete (hb, ev, x)) eqn:E.
    + destruct x as [| | |k hb']; try done. simpl in E.
      apply bool_decide_eq_true in E as [-> ->].
      assert (hb' = hb) as -> by (eapply Hown; left).
      rewrite (filter_cons_True (λ r, r = _)) by done.
      rewrite filter_cons_True by (simpl; by apply bool_decide_eq_true).
      simpl. lia.
    + rewrite (filter_cons_False
                 (λ r, is_doneCancelling stop complete r = true))
        by (cbv beta; congruence).
      rewrite filter_cons_False; [done|]. intros [= -> ->]. simpl in E.
      by rewrite bool_decide_eq_true_2 in E.
  - rewrite (filter_cons_True (λ r, r.1.1 ≠ hb)) by done.
    rewrite (filter_cons_False (λ r, r = _)) by congruence.
    destruct (is_doneCancelling stop complete (h, ev, x)) eqn:E.
    + rewrite !(filter_cons_True
                  (λ r, is_doneCancelling stop complete r = true)) by done.
      simpl. lia.
    + rewrite !(filter_cons_False
                  (λ r, is_doneCancelling stop complete r = true))
        by (cbv beta; congruence).
      done.
Qed.

Lemma run_onChanged_frame db doc uuid now w w' :
  run_onChanged db doc uuid now w = Some w' →
    stops w' = stops w
  ∧ ∃ extra, listeners w' = listeners w ++ extra ∧ Forall plain extra.
Proof.
  unfold run_onChanged. destruct (dataFor db (dbData w)) as [[i data]|];
    [|done].
  destruct (onChanged_throws doc data); [done|].
  pose proof (onChanged_plain (mkEnv uuid now (objects w)) db doc data).
  destruct (onChanged _ _ _ _) as [[doc' data'] cmds]. intros [= <-].
  destruct (exec_frame db cmds (set_dbData (store i data') w))
    as (_ & _ & -> & _ & ->). eauto.
Qed.

(** A handler of the controller leaves the stops alone and registers
    handlers of the controller only. *)
Lemma run_listener_frame l p w w' :
  (∀ k hb, l ≠ DoneCancelling k hb) →
  run_listener l p w = Some w' →
    stops w' = stops w
  ∧ ∃ extra, listeners w' = listeners w ++ extra ∧ Forall plain extra.
Proof.
  intros Hl. destruct l as [db|db docId|db docId|k hb], p;
    cbn [run_listener]; try done.
  - apply run_onChanged_frame.
  - intros [= <-]. split; [done|]. exists []. by rewrite app_nil_r.
  - intros [= <-]. split; [done|]. exists []. by rewrite app_nil_r.
  - by destruct (Hl k hb).
  - by destruct (Hl k hb).
Qed.

Section Emission.
Variables (stop : nat) (db : Db) (h : Handle) (p : Payload).

(** The listeners of the call [stop] that are still to run in an
    emission of [h]. *)
Let to_run (ls : list Listener) : nat :=
  length (filter (λ l, l = DoneCancelling stop h) ls).

Let carried (w : World) : nat :=
  occurrences (h, complete, DoneCancelling stop h) (listeners w).

(** While the listeners [ls] of an emission of [h] are still to run:
    those of them that have lost their registration already are counted
    on top of the registered ones. *)
Let emitting (ls : list Listener) (w : World) : Prop :=
  ∃ s,
      stops w !! stop = Some s
    ∧ stop_db s = db
    ∧ (promise s = Cancelling →
       Z.of_nat (still_listening stop w + (to_run ls - carried w))
       ≤ stillCancellingCount s)
    ∧ (promise s ≠ Cancelling → still_listening stop w = 0%nat).

Lemma run_listeners_emitting ls w :
  consistent w →
  (∀ k hb, DoneCancelling k hb ∈ ls → hb = h) →
  emitting ls w →
  let w' := run_listeners ls p w in
    emitting [] w'
  ∧ ∀ r, r ∈ listeners w →
      (r.1.1 ≠ h ∨ ∀ k hb, DoneCancelling k hb ∉ ls) →
      r ∈ listeners w'.
Proof.
  revert w. induction ls as [|l ls IH]; intros w Hw Hown Hem; [done|].
  assert (emitting [] w) as Hstopped.
  { destruct Hem as (s & Hs & Hdb & Hcount & Hzero).
    exists s. repeat split; try done. intros Hp. specialize (Hcount Hp).
    unfold to_run. simpl. lia. }
  assert (∀ k hb, DoneCancelling k hb ∈ ls → hb = h) as Hown'.
  { intros k hb Hin. apply (Hown k hb). by right. }
  cbn [run_listeners].
  assert ((∃ k, l = DoneCancelling k h)
          ∨ ∀ k hb, l ≠ DoneCancelling k hb) as [[k ->]|Hl].
  { destruct l as [| | |k hb]; try (by right). left. exists k.
    f_equal. apply (Hown k hb). by left. }
  - (* a doneCancelling listener: the listeners of [h] go *)
    change (run_listener (DoneCancelling k h) p w)
      with (Some (doneCancelling k h w)).
    set (w1 := doneCancelling k h w).
    pose proof (doneCancelling_consistent k h w Hw) as Hw1. fold w1 in Hw1.
    assert (still_listening stop w1 + carried w
            = still_listening stop w)%nat as Hsl.
    { apply still_listening_removeAllListeners.
      intros h0 ev k0 hb' Hin. by destruct (listeners_own w Hw _ _ _ _ Hin). }
    assert (carried w1 = 0%nat) as Hc1.
    { unfold carried, w1. simpl.
      rewrite occurrences_removeAllListeners. simpl. by rewrite decide_True. }
    assert (emitting ls w1) as Hem1.
    { destruct Hem as (s & Hs & Hdb & Hcount & Hzero).
      unfold emitting. rewrite Hc1. unfold w1 at 1. simpl.
      destruct (decide (k = stop)) as [->|Hne].
      - rewrite list_lookup_alter_eq, Hs. simpl. eexists. split; [done|].
        simpl. split; [done|].
        assert (to_run (DoneCancelling stop h :: ls) = S (to_run ls))
          as Hrun by (unfold to_run; by rewrite filter_cons_True).
        rewrite Hrun in Hcount.
        destruct (decide (promise s = Cancelling)) as [Hp|Hp].
        + specialize (Hcount Hp). rewrite Hp.
          rewrite (bool_decide_eq_true_2 _ eq_refl), andb_true_r.
          destruct (Z.eqb_spec (stillCancellingCount s - 1) 0) as [E|E].
          * split; [done|]. intros _. lia.
          * split; [|done]. intros _. lia.
        + rewrite (bool_decide_eq_false_2 _ Hp), andb_false_r.
          split; [done|]. intros _. specialize (Hzero Hp). lia.
      - rewrite list_lookup_alter_ne by done. exists s.
        assert (to_run (DoneCancelling k h :: ls) = to_run ls) as Hrun.
        { unfold to_run. rewrite filter_cons_False; [done|]. congruence. }
        rewrite Hrun in Hcount. repeat split; try done.
        + intros Hp. specialize (Hcount Hp). lia.
        + intros Hp. specialize (Hzero Hp). lia. }
    destruct (IH w1 Hw1 Hown' Hem1) as [Hdone Hkeep]. split; [done|].
    intros r Hr [Hne|Hnone].
    + apply Hkeep; [|by left]. unfold w1. simpl.
      by apply list_elem_of_filter.
    + destruct (Hnone k h). by left.
  - (* a handler of the controller *)
    destruct (run_listener l p w) as [w1|] eqn:Hrun.
    2:{ destruct (thrown_quiet l p w Hrun) as (_ & _ & Hs0 & Hl0 & _).
        split; [|intros r Hr _; by rewrite Hl0].
        unfold emitting, still_listening, carried. rewrite Hs0, Hl0.
        exact Hstopped. }
    pose proof (run_listener_consistent _ _ _ _ Hrun Hw) as Hw1.
    destruct (run_listener_frame _ _ _ _ Hl Hrun)
      as (Hstops & extra & Hls & Hextra).
    assert (emitting ls w1) as Hem1.
    { destruct Hem as (s & Hs & Hdb & Hcount & Hzero).
      exists s. unfold still_listening, carried in *.
      rewrite Hstops, Hls, still_listening_app, occurrences_app.
      rewrite (still_listening_plain _ extra) by done.
      rewrite (occurrences_plain _ _ _ _ extra) by done.
      rewrite !Nat.add_0_r.
      assert (to_run (l :: ls) = to_run ls) as Hrun'.
      { unfold to_run. rewrite filter_cons_False; [done|]. apply Hl. }
      rewrite Hrun' in Hcount. done. }
    destruct (IH w1 Hw1 Hown' Hem1) as [Hdone Hkeep]. split; [done|].
    intros r Hr Hcase. apply Hkeep.
    + rewrite Hls. apply elem_of_app. by left.
    + destruct Hcase as [?|Hnone]; [by left|]. right.
      intros k hb Hin. apply (Hnone k hb). by right.
Qed.
End Emission.

Lemma to_run_snapshot stop h ev w :
  length (filter (λ l, l = DoneCancelling stop h) (listeners_of h ev w))
  = occurrences (h, ev, DoneCancelling stop h) (listeners w).
Proof.
  unfold listeners_of, occurrences.
  induction (listeners w) as [|[[h' ev'] l] ls IH]; [done|].
  destruct (decide ((h', ev') = (h, ev))) as [[= -> ->]|Hne].
  - rewrite (filter_cons_True (λ r, r.1 = (h, ev))) by done.
    rewrite fmap_cons. cbn [snd].
    destruct (decide (l = DoneCancelling stop h)) as [->|Hl].
    + rewrite !filter_cons_True by done. simpl. by rewrite IH.
    + rewrite !filter_cons_False by congruence. done.
  - rewrite (filter_cons_False (λ r, r.1 = (h, ev))) by done.
    rewrite (filter_cons_False (λ r, r = _)) by congruence. done.
Qed.

Lemma terminated_app h es es' : terminated h es → terminated h (es ++ es').
Proof.
  intros (ev & p & Hev & Hin). exists ev, p. split; [done|].
  apply elem_of_app. by left.
Qed.

(** An emission keeps the account of a stop: a listener of the stop is
    lost only by running, or to the listener of another stop on the same
    emitter, which the stop then no longer counts on. *)
Lemma emit_pending stop db hs es h ev p w :
  consistent w →
  stop_pending stop db hs es w →
  stop_pending stop db hs (es ++ [Emit h ev p]) (emit h ev p w).
Proof.
  intros Hw [(s & Hs & Hdb & Hcount & Hzero) Hhs]. unfold emit.
  assert (∀ k hb, DoneCancelling k hb ∈ listeners_of h ev w →
            hb = h ∧ ev ≠ change) as Hown.
  { intros k hb (r & Hl & [Hr Hin]%list_elem_of_filter)%list_elem_of_fmap.
    destruct r as [[h' ev'] l']. simpl in *. injection Hr as -> ->.
    subst l'. by destruct (listeners_own w Hw _ _ _ _ Hin) as (? & ? & _). }
  assert (length (filter (λ l, l = DoneCancelling stop h)
                    (listeners_of h ev w))
          ≤ occurrences (h, complete, DoneCancelling stop h) (listeners w))%nat
    as Hrun.
  { rewrite to_run_snapshot. destruct ev.
    - destruct (occurrences _ _) eqn:E; [lia|].
      assert ((h, change, DoneCancelling stop h) ∈ listeners w) as Hin
        by (apply occurrences_elem; lia).
      by destruct (listeners_own w Hw _ _ _ _ Hin) as (_ & ? & _).
    - done.
    - by rewrite (listeners_paired w Hw). }
  destruct (run_listeners_emitting stop db h p (listeners_of h ev w) w Hw)
    as [(s' & Hs' & Hdb' & Hcount' & Hzero') Hkeep].
  { intros k hb Hin. by destruct (Hown k hb Hin). }
  { exists s. repeat split; try done. intros Hp. specialize (Hcount Hp).
    lia. }
  split.
  - exists s'. repeat split; try done. intros Hp. specialize (Hcount' Hp).
    simpl in Hcount'. lia.
  - intros h0 Hin. destruct (Hhs h0 Hin) as [Ht|Hl];
      [left; by apply terminated_app|].
    destruct (decide (h0 = h)) as [->|Hne].
    + destruct (decide (ev = change)) as [->|Hev].
      * right. apply Hkeep; [done|]. right. intros k hb Hin'.
        by destruct (Hown k hb Hin').
      * left. exists ev, p. split; [done|]. apply elem_of_app. right.
        apply list_elem_of_here.
    + right. apply Hkeep; [done|]. by left.
Qed.

(** A callback that leaves the stop and its listeners alone keeps its
    account. *)
Lemma stop_pending_frame stop db hs es e w w' :
  (∀ s, stops w !! stop = Some s →
     ∃ s', stops w' !! stop = Some s' ∧ stop_db s' = stop_db s
           ∧ stillCancellingCount s' = stillCancellingCount s
           ∧ (promise s' = Cancelling ↔ promise s = Cancelling)) →
  still_listening stop w' = still_listening stop w →
  (∀ h, (h, complete, DoneCancelling stop h) ∈ listeners w →
        (h, complete, DoneCancelling stop h) ∈ listeners w') →
  stop_pending stop db hs es w →
  stop_pending stop db hs (es ++ [e]) w'.
Proof.
  intros Hstops Hsl Hkeep [(s & Hs & Hdb & Hcount & Hzero) Hhs].
  destruct (Hstops s Hs) as (s' & Hs' & Hdb' & Hc' & Hp'). split.
  - exists s'. rewrite Hsl, Hdb', Hc'. repeat split; try done.
    + intros Hp. apply Hcount, Hp', Hp.
    + intros Hp. apply Hzero. intros Hp0. apply Hp, Hp', Hp0.
  - intros h Hin. destruct (Hhs h Hin) as [Ht|Hl];
      [left; by apply terminated_app | right; auto].
Qed.

Lemma stop_pending_plain stop db hs es e w w' :
  stops w' = stops w →
  (∃ extra, listeners w' = listeners w ++ extra ∧ Forall plain extra) →
  stop_pending stop db hs es w →
  stop_pending stop db hs (es ++ [e]) w'.
Proof.
  intros Hstops (extra & Hls & Hextra). apply stop_pending_frame.
  - intros s Hs. exists s. by rewrite Hstops.
  - unfold still_listening.
    rewrite Hls, still_listening_app, (still_listening_plain _ extra) by done.
    lia.
  - intros h Hin. rewrite Hls. apply elem_of_app. by left.
Qed.

Lemma forEach_onChanged_frame db rows w :
  let w' := (forEach_onChanged db rows w).1 in
    stops w' = stops w
  ∧ ∃ extra, listeners w' = listeners w ++ extra ∧ Forall plain extra.
Proof.
  revert w. induction rows as [|[[doc uuid] now] rows IH]; intros w.
  { split; [done|]. exists []. by rewrite app_nil_r. }
  simpl. destruct (run_onChanged db doc uuid now w) as [w1|] eqn:E.
  2:{ destruct (thrown_onChanged_quiet db doc uuid now w E)
        as (_ & _ & Hs0 & Hl0 & _).
      split; [done|]. exists []. by rewrite app_nil_r. }
  destruct (run_onChanged_frame _ _ _ _ _ _ E) as (Hs1 & x1 & Hl1 & Hx1).
  destruct (IH w1) as (Hs2 & x2 & Hl2 & Hx2). cbv zeta in *.
  split; [congruence|]. exists (x1 ++ x2).
  rewrite Hl2, Hl1, <- app_assoc. split; [done|]. by apply Forall_app.
Qed.

Lemma still_listening_cancel stop k h w :
  still_listening stop (cancel k h w)
  = (still_listening stop w + if decide (k = stop) then 1 else 0)%nat.
Proof.
  unfold still_listening. cbn [cancel listeners set_listeners log set_stops].
  rewrite still_listening_app. f_equal.
  assert (¬ is_doneCancelling stop complete (h, error, DoneCancelling k h)
            = true) as Herror.
  { unfold is_doneCancelling. rewrite bool_decide_eq_true. by intros [? _]. }
  destruct (decide (k = stop)) as [->|Hne].
  - rewrite filter_cons_True
      by (unfold is_doneCancelling; by rewrite bool_decide_eq_true).
    by rewrite filter_cons_False.
  - rewrite filter_cons_False
      by (unfold is_doneCancelling; rewrite bool_decide_eq_true;
          by intros [_ ?]).
    by rewrite filter_cons_False.
Qed.

Lemma still_listening_removeChange stop feed l :
  length (filter (λ r, is_doneCancelling stop complete r = true)
            (filter (λ r, r.1 ≠ (feed, change)) l))
  = length (filter (λ r, is_doneCancelling stop complete r = true) l).
Proof.
  rewrite list_filter_filter. f_equal. apply list_filter_iff.
  intros [[h ev] l']. split; [by intros [? _]|]. intros Hd. split; [done|].
  destruct l'; try done. unfold is_doneCancelling in Hd.
  apply bool_decide_eq_true in Hd as [-> _]. simpl. congruence.
Qed.

(** The cancellations of another call of [stopReplicator]. *)
Lemma foldl_cancel_other stop k (hs : list (string * Handle)) w :
  k ≠ stop →
  let w' := foldl (λ w entry, cancel k entry.2 w) w hs in
    stops w' !! stop = stops w !! stop
  ∧ still_listening stop w' = still_listening stop w
  ∧ ∀ r, r ∈ listeners w → r ∈ listeners w'.
Proof.
  intros Hne. revert w. induction hs as [|e hs IH]; intros w; [done|].
  simpl. destruct (IH (cancel k e.2 w)) as (-> & -> & Hkeep).
  rewrite still_listening_cancel, decide_False by done.
  repeat split.
  - simpl. by rewrite list_lookup_alter_ne.
  - lia.
  - intros r Hr. apply Hkeep. simpl. apply elem_of_app. by left.
Qed.

(** The cancellations of the call [stop] itself: every emitter cancelled
    carries a listener, and the counter keeps up with the listeners. *)
Lemma foldl_cancel_own stop db (hs : list (string * Handle)) w :
  (∃ s, stops w !! stop = Some s ∧ stop_db s = db
        ∧ promise s = Cancelling
        ∧ Z.of_nat (still_listening stop w) ≤ stillCancellingCount s) →
  let w' := foldl (λ w entry, cancel stop entry.2 w) w hs in
    (∃ s, stops w' !! stop = Some s ∧ stop_db s = db
          ∧ promise s = Cancelling
          ∧ Z.of_nat (still_listening stop w') ≤ stillCancellingCount s)
  ∧ (∀ r, r ∈ listeners w → r ∈ listeners w')
  ∧ ∀ h, h ∈ hs.*2 → (h, complete, DoneCancelling stop h) ∈ listeners w'.
Proof.
  revert w. induction hs as [|e hs IH]; intros w Hw.
  { repeat split; [done..|]. by intros h ?%elem_of_nil. }
  simpl. destruct (IH (cancel stop e.2 w)) as (Hstop & Hkeep & Hhs).
  { destruct Hw as (s & Hs & Hdb & Hp & Hcount).
    rewrite still_listening_cancel, decide_True by done. simpl.
    rewrite list_lookup_alter_eq, Hs. simpl. eexists. split; [done|].
    simpl. repeat split; [done..|lia]. }
  repeat split; [done| |].
  - intros r Hr. apply Hkeep. simpl. apply elem_of_app. by left.
  - intros h [->|Hin]%elem_of_cons; [|auto].
    apply Hkeep. simpl. apply elem_of_app. right. apply list_elem_of_here.
Qed.

Lemma stopReplicator_other stop db hs es w :
  stop_pending stop db hs es w →
  ∀ db', stop_pending stop db hs (es ++ [StopCalled db'])
           (stopReplicator db' w).1.
Proof.
  intros Hpending db'. revert Hpending. unfold stopReplicator.
  destruct (dataFor db' (dbData w)) as [[i data]|].
  2:{ apply stop_pending_plain; [done|]. exists []. by rewrite app_nil_r. }
  destruct (changes data) as [feed|].
  2:{ intros Hpending. revert Hpending. apply stop_pending_frame; try done.
      intros s Hs. exists s. simpl. rewrite lookup_app_l; [done|].
      by eapply lookup_lt_Some. }
  intros Hpending. assert (stop < length (stops w))%nat as Hlt.
  { destruct Hpending as [(s & Hs & _) _]. by eapply lookup_lt_Some. }
  revert Hpending. cbn [fst stops set_dbData].
  match goal with |- context [foldl ?f ?w0 ?l] =>
    destruct (foldl_cancel_other stop (length (stops w)) l w0)
      as (Hs & Hsl & Hkeep); [lia|]
  end.
  apply stop_pending_frame.
  - intros s Hs0. exists s. rewrite Hs. simpl.
    rewrite list_lookup_alter_ne by lia. rewrite lookup_app_l by done. done.
  - rewrite Hsl. unfold still_listening at 1.
    cbn [listeners log set_listeners].
    rewrite still_listening_removeChange.
    match goal with |- length (filter _ (listeners ?wc)) = _ =>
      change (still_listening stop wc = still_listening stop w)
    end.
    rewrite still_listening_cancel, decide_False by lia.
    unfold still_listening. simpl. lia.
  - intros h Hin. apply Hkeep. simpl. apply list_elem_of_filter.
    split; [done|]. apply elem_of_app. by left.
Qed.

Lemma stopReplicator_then_pending stop db hs es k w :
  stop_pending stop db hs es w →
  stop_pending stop db hs (es ++ [StopThen k]) (stopReplicator_then k w).
Proof.
  unfold stopReplicator_then.
  destruct (stops w !! k) as [s|] eqn:Hs.
  2:{ apply stop_pending_plain; [done|]. exists []. by rewrite app_nil_r. }
  case_bool_decide as Hp.
  2:{ apply stop_pending_plain; [done|]. exists []. by rewrite app_nil_r. }
  assert (∀ p w0,
    p ≠ Cancelling →
    stops w0 = stops w →
    listeners w0 = listeners w →
    stop_pending stop db hs es w →
    stop_pending stop db hs (es ++ [StopThen k])
      (set_stops (<[k := mkStop (stop_db s) (stillCancellingCount s) p]>)
         w0)) as Hset.
  { intros p w0 Hne Hstops Hls. apply stop_pending_frame.
    - intros s0 Hs0. simpl. rewrite Hstops.
      destruct (decide (k = stop)) as [->|Hk].
      + rewrite list_lookup_insert_eq by (by eapply lookup_lt_Some).
        eexists. split; [done|]. simpl. replace s0 with s by congruence.
        repeat split; try done; simpl; intros ?; congruence.
      + rewrite list_lookup_insert_ne by done. eauto.
    - unfold still_listening. simpl. by rewrite Hls.
    - intros h. simpl. by rewrite Hls. }
  case_bool_decide; apply Hset; done.
Qed.

Lemma step_pending stop db hs es e w :
  consistent w →
  stop_pending stop db hs es w →
  stop_pending stop db hs (es ++ [e]) (step e w).
Proof.
  intros Hw. destruct e; cbn [step].
  - unfold startReplicator. case_bool_decide;
      (apply stop_pending_plain; [done|]; exists []; by rewrite app_nil_r).
  - apply stop_pending_plain; [done|]. exists []. by rewrite app_nil_r.
  - destruct (forEach_onChanged_frame db0 rows w) as (Hs & extra & Hl & Hx).
    cbv zeta in *.
    destruct (forEach_onChanged db0 rows w) as [w' []]; simpl in *.
    + apply stop_pending_plain; [done|].
      exists (extra ++ [(objects w', change, OnChange db0)]).
      simpl. rewrite Hl, <- app_assoc. split; [done|].
      apply Forall_app. split; [done|]. by repeat constructor.
    + apply stop_pending_plain; eauto.
  - intros Hp. by apply stopReplicator_other.
  - apply stopReplicator_then_pending.
  - by apply emit_pending.
  - unfold run_updateExistingDoc_then.
    destruct (dataFor db0 (dbData w)) as [[i data]|].
    2:{ apply stop_pending_plain; [done|]. exists []. by rewrite app_nil_r. }
    unfold updateExistingDoc_then, putAsReplicatorChange.
    apply stop_pending_plain; [done|]. exists []. by rewrite app_nil_r.
  - unfold run_put_failed. destruct retry as [[docId func]|].
    2:{ apply stop_pending_plain; [done|]. exists []. by rewrite app_nil_r. }
    match goal with |- context [exec ?d ?cmds ?w0] =>
      destruct (exec_frame d cmds w0) as (_ & _ & Hs & _ & Hl)
    end.
    apply stop_pending_plain; [done|].
    exists []. rewrite Hl. unfold updateExistingDoc_catch.
    by destruct (status err =? 409).
Qed.

Lemma run_pending stop db hs es0 es w :
  consistent w →
  stop_pending stop db hs es0 w →
  stop_pending stop db hs (es0 ++ es) (run es w).
Proof.
  revert es0 w. induction es as [|e es IH]; intros es0 w Hw Hp.
  { by rewrite app_nil_r. }
  simpl. replace (es0 ++ e :: es) with ((es0 ++ [e]) ++ es)
    by (by rewrite <- app_assoc).
  apply IH; [by apply step_consistent | by apply step_pending].
Qed.

(** Right after [stopReplicator], every emitter it cancels carries a
    listener of the call, and the counter stands at their number. *)
Lemma stopReplicator_pending db w i data feed :
  consistent w →
  dataFor db (dbData w) = Some (i, data) →
  changes data = Some feed →
  stop_pending (length (stops w)) db
    (feed :: (map_to_list (activeReplicationsById data)).*2) []
    (stopReplicator db w).1.
Proof.
  intros Hw Hdata Hfeed. unfold stopReplicator. rewrite Hdata, Hfeed.
  cbn [fst stops set_dbData].
  set (stop := length (stops w)).
  match goal with |- context [foldl ?f ?w0 ?l] =>
    destruct (foldl_cancel_own stop db l w0) as (Hstop & Hkeep & Hhs)
  end.
  { assert (still_listening stop w = 0%nat) as Hnone.
    { unfold still_listening.
      destruct (filter _ (listeners w)) as [|[[h ev] l] rest] eqn:E; [done|].
      assert ((h, ev, l) ∈ filter
                (λ r, is_doneCancelling stop complete r = true) (listeners w))
        as [Hd Hin]%list_elem_of_filter
        by (rewrite E; apply list_elem_of_here).
      destruct l as [| | |k hb]; try done. unfold is_doneCancelling in Hd.
      apply bool_decide_eq_true in Hd as [_ ->].
      destruct (listeners_own w Hw _ _ _ _ Hin) as (_ & _ & Hlt).
      unfold stop in Hlt. lia. }
    unfold still_listening. cbn [listeners log set_listeners].
    rewrite still_listening_removeChange.
    match goal with |- context [length (filter ?P (listeners ?wc))] =>
      change (length (filter P (listeners wc)))
        with (still_listening stop wc)
    end.
    rewrite still_listening_cancel, decide_True by done.
    change (still_listening stop (set_stops _ (set_dbData _ w)))
      with (still_listening stop w).
    rewrite Hnone. cbn [stops log set_listeners cancel set_stops].
    rewrite list_lookup_alter_eq, lookup_app_r by done.
    unfold stop. rewrite Nat.sub_diag. simpl. eexists. split; [done|].
    simpl. repeat split; [done..|lia]. }
  destruct Hstop as (s & Hs & Hdb & Hp & Hcount). split.
  - exists s. repeat split; done.
  - intros h [->|Hin]%elem_of_cons; right; [|auto].
    apply Hkeep. simpl. apply list_elem_of_filter. split; [done|].
    apply elem_of_app. right. apply list_elem_of_here.
Qed.

(** C5: for a call of [stopReplicator] on a database with a registry
    entry and a subscription to its change feed, whatever happens
    afterwards: if the [then] callback has run and fulfilled the promise
    of the call, or if just [resolve] has been called, or if the
    validation of the database is no longer installed, then the change
    feed and every replication that was registered have each emitted a
    terminal (complete or error) notification since the call.  (An
    emitter's listeners are removed at its first notification, so one
    notification each is what the call waits for.) *)
Theorem stopReplicator_waits_for_terminal_notifications
    w db i data feed es :
  consistent w →
  dataFor db (dbData w) = Some (i, data) →
  changes data = Some feed →
  let w' := run es (stopReplicator db w).1 in
  ∃ s,
      stops w' !! length (stops w) = Some s
    ∧ stop_db s = db
    ∧ (promise s ≠ Cancelling ∨ db ∉ validating w' →
       ∀ h, h ∈ feed :: (map_to_list (activeReplicationsById data)).*2 →
            terminated h es).
Proof.
  intros Hw Hdata Hfeed w'.
  pose proof (stopReplicator_consistent db w Hw) as Hw1.
  pose proof (run_consistent es _ Hw1) as Hw'. fold w' in Hw'.
  pose proof (run_pending _ _ _ [] es _ Hw1
                (stopReplicator_pending db w i data feed Hw Hdata Hfeed))
    as [(s & Hs & Hdb & Hcount & Hzero) Hhs].
  fold w' in Hs, Hzero, Hhs. exists s. repeat split; [done..|].
  intros Hdone h Hin.
  assert (promise s ≠ Cancelling) as Hp.
  { destruct Hdone as [?|Hval]; [done|]. intros Hp. apply Hval.
    rewrite <- Hdb. apply (stops_apart w' Hw' _ s Hs). by left. }
  destruct (Hhs h Hin) as [?|Hl]; [done|].
  apply still_listening_elem in Hl. rewrite (Hzero Hp) in Hl. lia.
Qed.

(** * Further properties of the controller *)
(** ** The signature matcher, design documents and self-writes *)

Lemma equals_constructor m v :
  equals (VObj (<["constructor" := v]> m)) (VObj m) = true.
Proof.
  apply bool_decide_eq_true_2. simpl.
  by rewrite fmap_insert, delete_insert_eq.
Qed.

(** X1: [getMatchingSignatureId] returns the id of an entry whose
    signature equals the searched one as the equals package compares
    them: a property named constructor counts for nothing, and on every
    other key the two agree (up to such properties inside the values, so
    outright where a value is a string).  It returns nothing exactly when
    no entry holds a signature equal in this way (an entry holding
    [undefined] never matches), and an entry that holds the searched
    signature itself is always found equal. *)
Theorem getMatchingSignatureId_finds_equal_signature searched data :
    (∀ repId,
       getMatchingSignatureId searched data = Some repId →
       ∃ signature,
           activeReplicationSignaturesByRepId data !! repId
           = Some (Some signature)
         ∧ equals (VObj signature) (VObj searched) = true
         ∧ (∀ key, key ≠ "constructor" →
                   strip <$> signature !! key = strip <$> searched !! key)
         ∧ ∀ key s, key ≠ "constructor" →
                    signature !! key = Some (VStr s)
                    ↔ searched !! key = Some (VStr s))
  ∧ (getMatchingSignatureId searched data = None ↔
     ∀ repId signature,
       activeReplicationSignaturesByRepId data !! repId
       = Some (Some signature) →
       equals (VObj signature) (VObj searched) = false)
  ∧ (∀ repId,
       activeReplicationSignaturesByRepId data !! repId
       = Some (Some searched) →
       is_Some (getMatchingSignatureId searched data))
  ∧ ∀ v, equals (VObj (<["constructor" := v]> searched)) (VObj searched)
         = true.
Proof.
  split; [|split; [split|split]].
  - intros repId (signature & Hl & Heq)%getMatchingSignatureId_Some.
    exists signature. split; [done|]. split; [done|]. split.
    + intros key. by apply equals_VObj_lookup.
    + intros key s. by apply equals_VObj_lookup_VStr.
  - intros Hnone repId signature Hl.
    apply (getMatchingSignatureId_None Hnone repId (Some signature) Hl).
  - intros Hnone.
    destruct (getMatchingSignatureId searched data) as [repId|] eqn:E;
      [|done].
    destruct (getMatchingSignatureId_Some E) as (signature & Hl & Heq).
    by rewrite (Hnone repId signature Hl) in Heq.
  - intros repId Hl.
    apply (getMatchingSignatureId_is_Some _ _ repId (Some searched) Hl).
    apply matches_refl.
  - intros v. apply equals_constructor.
Qed.

(** X2: a change of a design document is never reconciled: nothing is
    cancelled, started or written, the document and the replications and
    signatures of the registry stay as they are, and so does the whole
    registry unless the id is marked as a pending self-write. *)
Theorem onChanged_skips_design_documents env db doc data :
  String.prefix "_design" (_id doc) = true →
  let r := onChanged env db doc data in
    r.2 = []
  ∧ r.1.1 = doc
  ∧ activeReplicationsById r.1.2 = activeReplicationsById data
  ∧ activeReplicationSignaturesByRepId r.1.2
    = activeReplicationSignaturesByRepId data
  ∧ (_id doc ∉ changedByReplicator data → r.1.2 = data).
Proof.
  intros Hdesign. cbv zeta. unfold onChanged. rewrite Hdesign, orb_true_r.
  case_bool_decide as Hmark; simpl; repeat split; try done.
  intros []. by apply indexOf_elem.
Qed.

Lemma splice_first {A} (x : A) l : splice (Finite 0) 1 (x :: l) = l.
Proof.
  unfold splice. cbn [length]. change (0 <? 0) with false. cbv iota.
  rewrite Z.min_l by lia. rewrite Z.sub_0_r, Z.add_0_l.
  rewrite Z.min_l by lia. change (Z.max 1 0) with 1. done.
Qed.

Lemma length_splice {A} start (l : list A) :
  (length l - 1 ≤ length (splice start 1 l) ≤ length l)%nat.
Proof.
  unfold splice. rewrite length_app, length_take, length_drop.
  change (Z.max 1 0) with 1.
  destruct start as [|z|]; [lia| |lia].
  destruct (Z.ltb_spec z 0); lia.
Qed.

(** X3: a change of a document whose id is marked as a pending self-write
    is dismissed: nothing is cancelled, started or written, the document,
    the subscription, the replications and the signatures stay as they
    are, and the marks lose one entry at most. *)
Theorem onChanged_dismisses_self_writes env db doc data :
  _id doc ∈ changedByReplicator data →
  let r := onChanged env db doc data in
    r.2 = []
  ∧ r.1.1 = doc
  ∧ changes r.1.2 = changes data
  ∧ activeReplicationsById r.1.2 = activeReplicationsById data
  ∧ activeReplicationSignaturesByRepId r.1.2
    = activeReplicationSignaturesByRepId data
  ∧ (length (changedByReplicator data) - 1
     ≤ length (changedByReplicator r.1.2)
     ≤ length (changedByReplicator data))%nat.
Proof.
  intros Hmark. cbv zeta. rewrite onChanged_marked by done.
  repeat split; try done; apply length_splice.
Qed.

(** The changes [docs] reach [onChanged] one after the other. *)
Lemma foldl_onChanged_cons env db doc docs data cmds :
  foldl (λ acc doc, let r := onChanged env db doc acc.1 in
                    (r.1.2, acc.2 ++ r.2)) (data, cmds) (doc :: docs)
  = foldl (λ acc doc, let r := onChanged env db doc acc.1 in
                      (r.1.2, acc.2 ++ r.2))
      ((onChanged env db doc data).1.2,
       cmds ++ (onChanged env db doc data).2) docs.
Proof. done. Qed.

(** X4: when the marks of the pending self-writes are the ids of the
    documents [docs], in the order of the writes, none of the ids reading
    as a number other than zero, and the changes of those documents
    arrive in that order, each of them is dismissed and clears its own
    mark: in the end no mark is left, the marks set meanwhile apart, and
    nothing was cancelled, started or written. *)
Theorem echoes_in_order_clear_the_marks env db docs data later :
  Forall (λ doc, ToIntegerOrInfinity (_id doc) = Finite 0) docs →
  changedByReplicator data = (_id <$> docs) ++ later →
  foldl (λ acc doc, let r := onChanged env db doc acc.1 in
                    (r.1.2, acc.2 ++ r.2)) (data, []) docs
  = (set_changedByReplicator (λ _, later) data, []).
Proof.
  revert data. induction docs as [|doc docs IH]; intros data Hids Hmarks.
  - simpl in *. destruct data. simpl in *. by subst.
  - apply Forall_cons in Hids as [Hid Hids].
    rewrite foldl_onChanged_cons, onChanged_marked
      by (rewrite Hmarks; apply list_elem_of_here).
    cbn [fst snd app]. rewrite IH; [|done|].
    + destruct data. done.
    + destruct data. simpl in *. rewrite Hmarks, Hid. apply splice_first.
Qed.

(** ** The marks around a put that fails *)

Lemma splice_last {A} (l : list A) :
  splice (Finite (-1)) 1 l = take (length l - 1) l.
Proof.
  unfold splice. change (-1 <? 0) with true. cbv iota.
  change (Z.max 1 0) with 1.
  destruct l as [|x l]; [done|].
  set (n := length (x :: l)). assert (1 ≤ n)%nat by (unfold n; simpl; lia).
  rewrite Z.max_l by lia. rewrite Z.min_l by lia.
  replace (Z.to_nat (Z.of_nat n + -1)) with (n - 1)%nat by lia.
  replace (Z.to_nat (Z.of_nat n + -1 + 1)) with n by lia.
  unfold n. by rewrite drop_all, app_nil_r.
Qed.

(** X5: a put that fails takes back the mark it set.  When the id was
    not marked before the write-back, the marks are again what they were;
    in any case they are the same marks, each as often as before. *)
Theorem failed_put_takes_back_its_mark now doc data err :
  let issued := (putAsReplicatorChange now doc data).1.2 in
  let caught :=
    putAsReplicatorChange_catch (putAsReplicatorChange now doc data).1.1 err
      (changedByReplicator issued) in
    caught.2 = Thrown err
  ∧ caught.1 ≡ₚ changedByReplicator data
  ∧ (_id doc ∉ changedByReplicator data →
     caught.1 = changedByReplicator data).
Proof.
  cbv zeta. unfold putAsReplicatorChange, putAsReplicatorChange_catch.
  cbn [fst snd changedByReplicator set_changedByReplicator].
  assert (_id (if truthy (field "replication_state" doc)
               then set_field "replication_state_time" (VNum now) doc
               else doc) = _id doc) as ->
    by (by destruct (truthy _)).
  split; [done|].
  set (marks := changedByReplicator data).
  destruct (decide (_id doc ∈ marks)) as [Hin|Hnot].
  - apply list_elem_of_split_l in Hin as (before & after & Hmarks & Hfirst).
    rewrite Hmarks, <- app_assoc. cbn [app].
    rewrite splice_indexOf by done. split.
    + f_equiv. symmetry. apply Permutation_cons_append.
    + intros Hnot. destruct Hnot.
      apply elem_of_app. right. apply list_elem_of_here.
  - replace (marks ++ [_id doc]) with (marks ++ _id doc :: []) by done.
    rewrite splice_indexOf by done. by rewrite app_nil_r.
Qed.

(** X6: when a put fails while the mark of its document is not (or no
    longer) among the pending self-writes, the catch callback takes out
    the last mark, whichever document it belongs to, and rethrows. *)
Theorem failed_put_without_mark_drops_last doc err marks :
  _id doc ∉ marks →
  putAsReplicatorChange_catch doc err marks
  = (take (length marks - 1) marks, Thrown err).
Proof.
  intros Hnot%indexOf_not_elem. unfold putAsReplicatorChange_catch.
  by rewrite Hnot, splice_last.
Qed.

(** ** Starting *)

Lemma array_set_lookup {A} i (x : A) l : array_set i x l !! i = Some (Some x).
Proof.
  unfold array_set. case_decide; [by apply list_lookup_insert_eq|].
  rewrite lookup_app_r by lia.
  rewrite lookup_app_r by (rewrite length_replicate; lia).
  rewrite length_replicate. by rewrite Nat.sub_diag.
Qed.

Lemma array_set_lookup_ne {A} i j (x : A) l :
  i ≠ j → mjoin (array_set i x l !! j) = mjoin (l !! j).
Proof.
  intros Hne. unfold array_set. case_decide.
  { by rewrite list_lookup_insert_ne. }
  destruct (decide (j < length l)%nat) as [Hj|Hj].
  { by rewrite lookup_app_l. }
  rewrite (lookup_ge_None_2 l j) by lia. rewrite lookup_app_r by lia.
  destruct (decide (j < i)%nat).
  - rewrite lookup_app_l by (rewrite length_replicate; lia).
    by rewrite lookup_replicate_2 by lia.
  - rewrite lookup_ge_None_2; [done|].
    rewrite length_app, length_replicate. simpl. lia.
Qed.

Lemma indexOf_upper `{EqDecision A} (x : A) l :
  indexOf x l < Z.of_nat (length l) ∨ l = [].
Proof.
  induction l as [|y l IH]; [by right|]. left. cbn [indexOf length].
  destruct (decide (x = y)); [lia|].
  destruct (Z.ltb_spec (indexOf x l) 0); [lia|].
  destruct IH as [?| ->]; [lia|]. simpl in *. lia.
Qed.

Lemma indexOf_app `{EqDecision A} (x : A) l l' :
  indexOf x (l ++ l')
  = if decide (x ∈ l) then indexOf x l
    else if indexOf x l' <? 0 then -1
         else Z.of_nat (length l) + indexOf x l'.
Proof.
  induction l as [|y l IH].
  { simpl. pose proof (indexOf_lower x l').
    destruct (Z.ltb_spec (indexOf x l') 0); lia. }
  cbn [app indexOf length]. destruct (decide (x = y)) as [->|Hne].
  { by rewrite decide_True by apply list_elem_of_here. }
  rewrite IH. destruct (decide (x ∈ l)) as [Hin|Hnot].
  - by rewrite decide_True by (by right).
  - rewrite decide_False by (intros [?|?]%elem_of_cons; done).
    destruct (Z.ltb_spec (indexOf x l') 0); [done|].
    destruct (Z.ltb_spec (Z.of_nat (length l) + indexOf x l') 0); lia.
Qed.

(** X7: [startReplicator] on a database whose validation is not
    installed and that has no registry entry installs the validation,
    puts the design document and gives the database the next index, with
    no replication, no signature and no pending self-write (and, for its
    subscription, whatever the array of subscriptions holds at that
    index); the registry entries of the other databases stay as they
    are. *)
Theorem startReplicator_registers_empty_entry db w :
  db ∉ validating w →
  db ∉ dbs (dbData w) →
  let i := length (dbs (dbData w)) in
  let w' := (startReplicator db w).1 in
    (startReplicator db w).2 = None
  ∧ db ∈ validating w'
  ∧ calls w' = calls w ++ [InstallValidationMethods db; PutDesignDoc db]
  ∧ dataFor db (dbData w')
    = Some (i, mkData (mjoin (changesByDbIdx (dbData w) !! i)) ∅ ∅ [])
  ∧ ∀ db', db' ≠ db → dataFor db' (dbData w') = dataFor db' (dbData w).
Proof.
  intros Hval Hdbs. cbv zeta. unfold startReplicator.
  rewrite bool_decide_eq_false_2 by done.
  cbn [fst snd validating calls dbData log set_dbData set_validating
       set_objects dbs].
  split; [done|]. split; [by apply elem_of_union_l, elem_of_singleton|].
  split; [by rewrite <- app_assoc|]. split.
  - unfold dataFor. cbn [dbs changesByDbIdx activeReplicationsByDbIdxAndId
      activeReplicationSignaturesByDbIdxAndRepId changedByReplicatorByDbIdx].
    rewrite indexOf_app_first by done.
    destruct (Z.eqb_spec (Z.of_nat (length (dbs (dbData w)))) (-1)); [lia|].
    rewrite Nat2Z.id, !array_set_lookup. done.
  - intros db' Hne. unfold dataFor.
    cbn [dbs changesByDbIdx activeReplicationsByDbIdxAndId
      activeReplicationSignaturesByDbIdxAndRepId changedByReplicatorByDbIdx].
    rewrite indexOf_app. destruct (decide (db' ∈ dbs (dbData w))) as [Hin|Hnot].
    + pose proof (indexOf_lower db' (dbs (dbData w))) as Hlow.
      apply indexOf_elem in Hin as Hidx.
      destruct (indexOf_upper db' (dbs (dbData w))) as [Hup|Hnil];
        [|rewrite Hnil in Hin; by apply elem_of_nil in Hin].
      destruct (Z.eqb_spec (indexOf db' (dbs (dbData w))) (-1)); [done|].
      by rewrite !array_set_lookup_ne by lia.
    + apply indexOf_not_elem in Hnot as ->. simpl.
      rewrite decide_False by done. done.
Qed.

(** The subscription, for a database that is still at the index
    [startReplicator] computed. *)
Lemma startReplicator_subscribe_entry db i data w :
  dataFor db (dbData w) = Some (i, data) →
  let feed := objects w in
  let w' := startReplicator_subscribe db i w in
    dataFor db (dbData w')
    = Some (i, mkData (Some feed) (activeReplicationsById data)
                 (activeReplicationSignaturesByRepId data)
                 (changedByReplicator data))
  ∧ listeners w' = listeners w ++ [(feed, change, OnChange db)]
  ∧ calls w'
    = calls w ++ [Changes db feed; Did db (On feed change (OnChange db))]
  ∧ objects w' = S feed.
Proof.
  intros (Hi & _ & Hc & H1 & H2 & array & H3)%dataFor_Some. cbv zeta.
  unfold startReplicator_subscribe.
  cbn [dbData listeners calls objects set_dbData exec1 log set_listeners
       set_objects].
  repeat split; [|by rewrite <- app_assoc].
  unfold dataFor.
  cbn [dbs changesByDbIdx activeReplicationsByDbIdxAndId
    activeReplicationSignaturesByDbIdxAndRepId changedByReplicatorByDbIdx].
  rewrite Hi. destruct (Z.eqb_spec (Z.of_nat i) (-1)); [lia|].
  rewrite Nat2Z.id, H1, H2, H3, array_set_lookup. done.
Qed.

(** X8: the last callback of [startReplicator] subscribes to the change
    feed of the database, registers its one listener for changes, and
    files the subscription at the index the call computed.  A database
    that is still at this index finds it in its registry entry, the rest
    of the entry being as it was; for a database that has moved to
    another index meanwhile (a database registered before it was
    stopped), the entry stays as it was, without the subscription. *)
Theorem startReplicator_subscribe_files_feed db i j data w :
  dataFor db (dbData w) = Some (j, data) →
  let feed := objects w in
  let w' := startReplicator_subscribe db i w in
    listeners w' = listeners w ++ [(feed, change, OnChange db)]
  ∧ calls w'
    = calls w ++ [Changes db feed; Did db (On feed change (OnChange db))]
  ∧ objects w' = S feed
  ∧ dataFor db (dbData w')
    = Some (j, if decide (j = i)
               then mkData (Some feed) (activeReplicationsById data)
                      (activeReplicationSignaturesByRepId data)
                      (changedByReplicator data)
               else data).
Proof.
  intros Hdata. cbv zeta. destruct (decide (j = i)) as [->|Hne].
  { by destruct (startReplicator_subscribe_entry db i data w Hdata)
      as (-> & -> & -> & ->). }
  split; [done|].
  split; [unfold startReplicator_subscribe; simpl; by rewrite <- app_assoc|].
  split; [done|].
  rewrite <- Hdata. unfold startReplicator_subscribe, dataFor.
  cbn [dbData set_dbData exec1 log set_listeners set_objects dbs
    changesByDbIdx activeReplicationsByDbIdxAndId
    activeReplicationSignaturesByDbIdxAndRepId changedByReplicatorByDbIdx].
  apply dataFor_Some in Hdata as (Hj & _). rewrite Hj.
  destruct (Z.eqb_spec (Z.of_nat j) (-1)); [lia|].
  by rewrite Nat2Z.id, array_set_lookup_ne by done.
Qed.

(** ** Stopping: the registry *)

Lemma lookup_splice {A} (i : nat) (l : list A) j :
  splice (Finite (Z.of_nat i)) 1 l !! j
  = l !! (if decide (j < i)%nat then j else S j).
Proof.
  unfold splice. destruct (Z.ltb_spec (Z.of_nat i) 0); [lia|].
  change (Z.max 1 0) with 1.
  destruct (decide (i < length l)%nat) as [Hi|Hi].
  - rewrite Z.min_l by lia. rewrite Z.min_l by lia. rewrite Nat2Z.id.
    replace (Z.to_nat (Z.of_nat i + 1)) with (S i) by lia.
    destruct (decide (j < i)%nat).
    + rewrite lookup_app_l by (rewrite length_take; lia).
      by rewrite lookup_take_lt.
    + rewrite lookup_app_r by (rewrite length_take; lia).
      rewrite length_take, lookup_drop. f_equal. lia.
  - rewrite Z.min_r by lia. rewrite Z.sub_diag. rewrite Z.min_r by lia.
    rewrite Z.add_0_r, Nat2Z.id, take_drop.
    destruct (decide (j < i)%nat); [done|].
    by rewrite !lookup_ge_None_2 by lia.
Qed.

Lemma indexOf_splice `{EqDecision A} (x y : A) l (i : nat) :
  indexOf y l = Z.of_nat i →
  x ≠ y →
  indexOf x (splice (Finite (indexOf y l)) 1 l)
  = if indexOf x l <? Z.of_nat i then indexOf x l else indexOf x l - 1.
Proof.
  intros Hi Hne.
  assert (y ∈ l) as (before & after & -> & Hnot)%list_elem_of_split_l
    by (apply indexOf_elem; lia).
  rewrite splice_indexOf by done.
  rewrite indexOf_app_first in Hi by done. apply Nat2Z.inj in Hi as <-.
  rewrite !indexOf_app. destruct (decide (x ∈ before)) as [Hin|Hout].
  - destruct (indexOf_upper x before) as [Hup| ->];
      [|by apply elem_of_nil in Hin].
    destruct (Z.ltb_spec (indexOf x before) (Z.of_nat (length before)));
      [done|lia].
  - cbn [indexOf]. rewrite decide_False by done.
    pose proof (indexOf_lower x after).
    destruct (Z.ltb_spec (indexOf x after) 0) as [Hlt|Hge].
    + change (-1 <? 0) with true. cbv iota.
      destruct (Z.ltb_spec (-1) (Z.of_nat (length before))); [done|lia].
    + destruct (Z.ltb_spec (indexOf x after + 1) 0); [lia|].
      destruct (Z.ltb_spec (Z.of_nat (length before) + (indexOf x after + 1))
                  (Z.of_nat (length before))); lia.
Qed.

Lemma indexOf_lookup `{EqDecision A} (x : A) l (i : nat) :
  indexOf x l = Z.of_nat i → l !! i = Some x.
Proof.
  revert i. induction l as [|y l IH]; intros i; cbn [indexOf]; [lia|].
  destruct (decide (x = y)) as [->|Hne].
  { intros Hi. by replace i with 0%nat by lia. }
  destruct (Z.ltb_spec (indexOf x l) 0); [lia|]. intros Hi.
  destruct i as [|i]; [lia|]. simpl. apply IH. lia.
Qed.

Lemma dbData_foldl_cancel k (hs : list (string * Handle)) w :
  let w' := foldl (λ w entry, cancel k entry.2 w) w hs in
  dbData w' = dbData w ∧ validating w' = validating w.
Proof.
  revert w. induction hs as [|e hs IH]; intros w; [done|].
  simpl. by destruct (IH (cancel k e.2 w)) as [-> ->].
Qed.

(** The registry [stopReplicator] leaves, when it finds the database. *)
Lemma stopReplicator_dbData db w i data :
  dataFor db (dbData w) = Some (i, data) →
  let index := Finite (indexOf db (dbs (dbData w))) in
    dbData (stopReplicator db w).1
    = mkDbData (splice index 1 (dbs (dbData w)))
        (splice index 1 (changesByDbIdx (dbData w)))
        (splice index 1 (activeReplicationsByDbIdxAndId (dbData w)))
        (splice index 1
           (activeReplicationSignaturesByDbIdxAndRepId (dbData w)))
        (splice index 1 (changedByReplicatorByDbIdx (dbData w)))
  ∧ validating (stopReplicator db w).1 = validating w.
Proof.
  intros Hdata. cbv zeta. unfold stopReplicator. rewrite Hdata.
  destruct (changes data) as [feed|]; [|done]. cbn [fst].
  match goal with
  | |- context [foldl (λ w entry, cancel ?k entry.2 w) ?w0 ?l] =>
      destruct (dbData_foldl_cancel k l w0) as [-> ->]
  end.
  done.
Qed.

(** X9: [stopReplicator] takes the database out of the registry at once:
    a second call, made before or after the first has finished
    cancelling, is rejected with already_inactive and changes nothing. *)
Theorem stopReplicator_twice_is_rejected db w i data :
  NoDup (dbs (dbData w)) →
  dataFor db (dbData w) = Some (i, data) →
  let w' := (stopReplicator db w).1 in
    (stopReplicator db w).2 = None
  ∧ (db ∉ dbs (dbData w'))
  ∧ stopReplicator db w' = (w', Some already_inactive).
Proof.
  intros Hnd Hdata. cbv zeta.
  destruct (stopReplicator_dbData db w i data Hdata) as [HD _].
  apply dataFor_Some in Hdata as Hsome. destruct Hsome as (_ & Hin & _).
  assert (db ∉ dbs (dbData (stopReplicator db w).1)) as Hout.
  { rewrite HD. cbn [dbs].
    destruct (splice_indexOf_elem db _ Hnd Hin) as [_ Hsplice].
    rewrite Hsplice. by intros [_ ?]. }
  split; [|split; [done|]].
  - unfold stopReplicator. rewrite Hdata. by destruct (changes data).
  - unfold stopReplicator at 1. by rewrite dataFor_None.
Qed.

(** X10: [stopReplicator] on one database leaves the registry entries of
    the other databases as they are; those registered after it move down
    by one index. *)
Theorem stopReplicator_keeps_other_entries db db' w i data :
  dataFor db (dbData w) = Some (i, data) →
  db' ≠ db →
  dataFor db' (dbData (stopReplicator db w).1)
  = (λ entry : nat * Data,
       (if decide (entry.1 < i)%nat then entry.1 else (entry.1 - 1)%nat,
        entry.2))
    <$> dataFor db' (dbData w).
Proof.
  intros Hdata Hne.
  destruct (stopReplicator_dbData db w i data Hdata) as [-> _].
  apply dataFor_Some in Hdata as (Hi & _).
  unfold dataFor.
  cbn [dbs changesByDbIdx activeReplicationsByDbIdxAndId
    activeReplicationSignaturesByDbIdxAndRepId changedByReplicatorByDbIdx].
  rewrite (indexOf_splice db' db _ i Hi Hne), Hi, !lookup_splice.
  pose proof (indexOf_lower db' (dbs (dbData w))) as Hlow.
  set (j := indexOf db' (dbs (dbData w))) in *.
  destruct (Z.eqb_spec j (-1)) as [->|Hj].
  { destruct (Z.ltb_spec (-1) (Z.of_nat i)); [done|lia]. }
  assert (j ≠ Z.of_nat i) as Hji.
  { intros Hji. apply Hne.
    assert (dbs (dbData w) !! i = Some db') as H1
      by (apply indexOf_lookup; by rewrite <- Hji).
    assert (dbs (dbData w) !! i = Some db) as H2 by by apply indexOf_lookup.
    congruence. }
  destruct (Z.ltb_spec j (Z.of_nat i)) as [Hlt|Hge].
  - destruct (Z.eqb_spec j (-1)); [done|].
    rewrite !decide_True by lia.
    destruct (mjoin (activeReplicationsByDbIdxAndId _ !! _)); [|done].
    destruct (mjoin (activeReplicationSignaturesByDbIdxAndRepId _ !! _));
      [|done].
    destruct (mjoin (changedByReplicatorByDbIdx _ !! _)) as [[? ?]|];
      [|done].
    simpl. by rewrite decide_True by lia.
  - destruct (Z.eqb_spec (j - 1) (-1)); [lia|].
    rewrite !decide_False by lia.
    replace (S (Z.to_nat (j - 1))) with (Z.to_nat j) by lia.
    destruct (mjoin (activeReplicationsByDbIdxAndId _ !! _)); [|done].
    destruct (mjoin (activeReplicationSignaturesByDbIdxAndRepId _ !! _));
      [|done].
    destruct (mjoin (changedByReplicatorByDbIdx _ !! _)) as [[? ?]|];
      [|done].
    simpl. rewrite decide_False by lia. do 2 f_equal. lia.
Qed.

(** X11: [stopReplicator] called before [startReplicator] has subscribed
    to the change feed fails inside its executor: the promise is
    rejected, nothing is cancelled and the validation stays installed,
    but the database has left the registry.  From then on
    [startReplicator] is rejected with already_active and
    [stopReplicator] with already_inactive. *)
Theorem stopReplicator_before_subscription db w i data :
  NoDup (dbs (dbData w)) →
  db ∈ validating w →
  dataFor db (dbData w) = Some (i, data) →
  changes data = None →
  let w' := (stopReplicator db w).1 in
    (stopReplicator db w).2 = None
  ∧ stops w' = stops w ++ [mkStop db 0 Failed]
  ∧ calls w' = calls w
  ∧ listeners w' = listeners w
  ∧ startReplicator db w' = (w', Some already_active)
  ∧ stopReplicator db w' = (w', Some already_inactive).
Proof.
  intros Hnd Hval Hdata Hfeed. cbv zeta.
  destruct (stopReplicator_dbData db w i data Hdata) as [HD HV].
  apply dataFor_Some in Hdata as Hsome. destruct Hsome as (_ & Hin & _).
  assert (db ∉ dbs (dbData (stopReplicator db w).1)) as Hout.
  { rewrite HD. cbn [dbs].
    destruct (splice_indexOf_elem db _ Hnd Hin) as [_ Hsplice].
    rewrite Hsplice. by intros [_ ?]. }
  repeat split.
  - unfold stopReplicator. by rewrite Hdata, Hfeed.
  - unfold stopReplicator. by rewrite Hdata, Hfeed.
  - unfold stopReplicator. by rewrite Hdata, Hfeed.
  - unfold stopReplicator. by rewrite Hdata, Hfeed.
  - unfold startReplicator. rewrite HV. by rewrite bool_decide_eq_true_2.
  - unfold stopReplicator at 1. by rewrite dataFor_None.
Qed.

(** ** Stopping: cancellations and the promise *)

Lemma foldl_cancel_exact k (hs : list (string * Handle)) w ss s :
  stops w = ss ++ [s] →
  k = length ss →
  let w' := foldl (λ w entry, cancel k entry.2 w) w hs in
    stops w'
    = ss ++ [mkStop (stop_db s)
               (stillCancellingCount s + Z.of_nat (length hs)) (promise s)]
  ∧ calls w' = calls w ++ (NextTickCancel <$> hs.*2)
  ∧ listeners w'
    = listeners w
      ++ (hs.*2 ≫= λ h, [(h, complete, DoneCancelling k h);
                          (h, error, DoneCancelling k h)]).
Proof.
  intros Hs ->. revert w s Hs. induction hs as [|e hs IH]; intros w s Hs.
  { simpl. rewrite Z.add_0_r, !app_nil_r. by destruct s. }
  cbn [foldl].
  destruct (IH (cancel (length ss) e.2 w)
              (mkStop (stop_db s) (stillCancellingCount s + 1) (promise s)))
    as (-> & -> & ->).
  { simpl. rewrite Hs. by rewrite alter_app_r_alt, Nat.sub_diag by lia. }
  cbn [stop_db stillCancellingCount promise cancel calls listeners log
       set_listeners set_stops fmap list_fmap length].
  rewrite bind_cons, <- !app_assoc. repeat split. do 3 f_equal. lia.
Qed.

(** What [stopReplicator] leaves on a database with a subscription. *)
Lemma stopReplicator_effect db w i data feed :
  dataFor db (dbData w) = Some (i, data) →
  changes data = Some feed →
  let hs := (map_to_list (activeReplicationsById data)).*2 in
  let listening (h : Handle) :=
    [(h, complete, DoneCancelling (length (stops w)) h);
     (h, error, DoneCancelling (length (stops w)) h)] in
  let w' := (stopReplicator db w).1 in
    stops w'
    = stops w
      ++ [mkStop db (1 + Z.of_nat (size (activeReplicationsById data)))
            Cancelling]
  ∧ calls w'
    = calls w
      ++ NextTickCancel feed :: RemoveAllListeners feed (Some change)
         :: (NextTickCancel <$> hs)
  ∧ listeners w'
    = filter (λ r, r.1 ≠ (feed, change)) (listeners w)
      ++ listening feed ++ (hs ≫= listening).
Proof.
  intros Hdata Hfeed. cbv zeta.
  unfold stopReplicator; rewrite Hdata, Hfeed; cbn [fst].
  match goal with
  | |- context [foldl (λ w entry, cancel ?k entry.2 w) ?w0 ?l] =>
      destruct (foldl_cancel_exact k l w0 (stops w)
                  (mkStop db 1 Cancelling))
        as (Hstops & Hcalls & Hlisteners)
  end.
  { simpl. by rewrite alter_app_r_alt, Nat.sub_diag by lia. }
  { done. }
  split; [|split].
  - rewrite Hstops. cbn [stop_db stillCancellingCount promise].
    by rewrite length_map_to_list.
  - rewrite Hcalls. simpl. by rewrite <- !app_assoc.
  - rewrite Hlisteners. simpl. rewrite filter_app, <- !app_assoc. f_equal.
    rewrite !filter_cons_True by (simpl; congruence).
    by rewrite filter_nil.
Qed.

(** X16: [stopReplicator] on a database with a subscription cancels the
    change feed and every registered replication, and nothing else: on
    each of them it registers a completion and an error listener of the
    call and schedules the cancellation for the next tick; it takes the
    change listeners off the feed, leaves the other listeners alone, and
    sets the counter to the number of emitters it waits for.  The
    promise is pending and the validation stays installed. *)
Theorem stopReplicator_cancels_feed_and_replications db w i data feed :
  dataFor db (dbData w) = Some (i, data) →
  changes data = Some feed →
  let stop := length (stops w) in
  let cancelled (h : Handle) :=
    h = feed ∨ ∃ id, activeReplicationsById data !! id = Some h in
  let w' := (stopReplicator db w).1 in
    (stopReplicator db w).2 = None
  ∧ stops w'
    = stops w
      ++ [mkStop db (1 + Z.of_nat (size (activeReplicationsById data)))
            Cancelling]
  ∧ validating w' = validating w
  ∧ RemoveAllListeners feed (Some change) ∈ calls w'
  ∧ (∀ h, cancelled h →
         NextTickCancel h ∈ calls w'
       ∧ (h, complete, DoneCancelling stop h) ∈ listeners w'
       ∧ (h, error, DoneCancelling stop h) ∈ listeners w')
  ∧ (∀ c, c ∈ calls w' →
         c ∈ calls w
       ∨ c = RemoveAllListeners feed (Some change)
       ∨ ∃ h, cancelled h ∧ c = NextTickCancel h)
  ∧ (∀ r, r ∈ listeners w' →
         (r ∈ listeners w ∧ r.1 ≠ (feed, change))
       ∨ ∃ h ev, cancelled h ∧ ev ≠ change
                 ∧ r = (h, ev, DoneCancelling stop h)).
Proof.
  intros Hdata Hfeed. cbv zeta.
  destruct (stopReplicator_dbData db w i data Hdata) as [_ HV].
  destruct (stopReplicator_effect db w i data feed Hdata Hfeed)
    as (Hstops & Hcalls & Hlisteners).
  assert (∀ h, h ∈ (map_to_list (activeReplicationsById data)).*2
               ↔ ∃ id, activeReplicationsById data !! id = Some h) as Hjobs.
  { intros h. rewrite list_elem_of_fmap. split.
    - intros ([id h'] & -> & Hin%elem_of_map_to_list). by exists id.
    - intros (id & Hid). exists (id, h). split; [done|].
      by apply elem_of_map_to_list. }
  split. { unfold stopReplicator. by rewrite Hdata, Hfeed. }
  split; [done|]. split; [done|].
  rewrite Hcalls, Hlisteners. split; [|split; [|split]].
  - rewrite elem_of_app, !elem_of_cons. auto.
  - intros h Hh. rewrite !elem_of_app, !elem_of_cons, !list_elem_of_fmap.
    rewrite !list_elem_of_bind. destruct Hh as [->|Hid%Hjobs].
    + repeat split; auto.
    + repeat split.
      * right. right. right. by exists h.
      * right. right. exists h. split; [|done]. apply list_elem_of_here.
      * right. right. exists h. split; [|done].
        apply list_elem_of_further, list_elem_of_here.
  - intros c. rewrite elem_of_app, !elem_of_cons, list_elem_of_fmap.
    intros [?|[->|[->|(h & -> & Hh%Hjobs)]]]; eauto 6.
  - intros r. rewrite !elem_of_app, list_elem_of_filter, !elem_of_cons.
    rewrite elem_of_nil, list_elem_of_bind.
    intros [[? ?]|[[->|[->|[]]]|(h & Hr & Hh%Hjobs)]]; [by left|..].
    + right. exists feed, complete. auto.
    + right. exists feed, error. auto.
    + right. rewrite !elem_of_cons, elem_of_nil in Hr.
      destruct Hr as [->|[->|[]]]; [exists h, complete|exists h, error];
        auto.
Qed.

(** X12: in every world the event loop reaches, a database is
    registered at most once and only while its validation is installed;
    a call of [stopReplicator] whose promise is pending keeps its
    database out of the registry and the validation of it installed, and
    no two pending calls concern the same database. *)
Theorem reachable_registry_and_stops es :
  let w := run es initial in
    NoDup (dbs (dbData w))
  ∧ (∀ db, db ∈ dbs (dbData w) → db ∈ validating w)
  ∧ (∀ k s, stops w !! k = Some s → in_flight s →
       (stop_db s ∉ dbs (dbData w)) ∧ stop_db s ∈ validating w)
  ∧ (∀ k k' s s',
       stops w !! k = Some s → stops w !! k' = Some s' →
       in_flight s → in_flight s' → stop_db s = stop_db s' → k = k').
Proof.
  cbv zeta.
  destruct (run_consistent es initial initial_consistent)
    as [H1 H2 H3 H4 _ _].
  done.
Qed.

(** X13: in every world the event loop reaches, the [then] callback of a
    call of [stopReplicator] whose [resolve] has been called does not
    fail: it uninstalls the validation of the database and the promise is
    fulfilled; the database can then be started again. *)
Theorem resolved_stop_uninstalls_validation es k s :
  let w := run es initial in
  stops w !! k = Some s →
  promise s = Cancelled →
  let w' := step (StopThen k) w in
    stops w' !! k
    = Some (mkStop (stop_db s) (stillCancellingCount s) Stopped)
  ∧ validating w' = validating w ∖ {[stop_db s]}
  ∧ calls w' = calls w ++ [UninstallValidationMethods (stop_db s)]
  ∧ (startReplicator (stop_db s) w').2 = None.
Proof.
  cbv zeta. intros Hs Hp.
  pose proof (run_consistent es initial initial_consistent) as Hw.
  destruct (stops_apart _ Hw k s Hs) as [_ Hval]; [by right|].
  cbn [step]. set (w := run es initial) in *.
  assert (stopReplicator_then k w
          = set_stops
              (<[k := mkStop (stop_db s) (stillCancellingCount s) Stopped]>)
              (log (UninstallValidationMethods (stop_db s))
                 (set_validating (λ v, v ∖ {[stop_db s]}) w))) as ->.
  { unfold stopReplicator_then. rewrite Hs.
    by rewrite !bool_decide_eq_true_2 by done. }
  assert (k < length (stops w))%nat by (by eapply lookup_lt_Some).
  cbn [stops validating calls set_stops log set_validating].
  split; [by rewrite list_lookup_insert_eq|].
  split; [done|]. split; [done|].
  unfold startReplicator. cbn [validating set_stops log set_validating].
  rewrite bool_decide_eq_false_2; [done|].
  rewrite elem_of_difference, elem_of_singleton. by intros [_ []].
Qed.

(** ** The completion handler *)


(** ** What a reconciliation leaves alone *)

Lemma assign_replication_id_id env doc data currentSignature :
  _id (assign_replication_id env doc data currentSignature).1 = _id doc.
Proof.
  unfold assign_replication_id. destruct (negb _); [|done].
  destruct (getMatchingSignatureId _ _) as [repId|]; [|done].
  by destruct (truthy _).
Qed.

Lemma assign_replication_id_key env doc data currentSignature :
  let doc' := (assign_replication_id env doc data currentSignature).1 in
  ∀ f, f ≠ "replication_id" → f ≠ "replication_state" →
       field f doc' = field f doc.
Proof.
  cbv zeta. intros f ? ?. unfold assign_replication_id.
  destruct (negb _); [|done].
  destruct (getMatchingSignatureId _ _) as [repId|];
    [destruct (truthy _)|]; simpl; by rewrite !field_set_field_ne.
Qed.

(** X15: whatever the document and the registry, [onChanged] leaves the
    subscription and the replications registered under other document
    ids as they are, it leaves the signatures filed under other
    replication ids than the one the document came with and the one it
    leaves with as they are, and every call it makes concerns the
    document: only the replication registered under its id is cancelled,
    and what is started, listened to or put carries its id. *)
Theorem onChanged_leaves_other_documents_alone env db doc data :
  let r := onChanged env db doc data in
    _id r.1.1 = _id doc
  ∧ changes r.1.2 = changes data
  ∧ (∀ id, id ≠ _id doc →
       activeReplicationsById r.1.2 !! id
       = activeReplicationsById data !! id)
  ∧ (∀ repId,
       repId ≠ ToString (field "replication_id" doc) →
       repId ≠ ToString (field "replication_id" r.1.1) →
       activeReplicationSignaturesByRepId r.1.2 !! repId
       = activeReplicationSignaturesByRepId data !! repId)
  ∧ Forall (concerns env db doc data) r.2.
Proof.
  cbv zeta. unfold onChanged.
  destruct (bool_decide _); [by repeat split|]. cbn [orb].
  destruct (String.prefix _ _); [by repeat split|].
  unfold reconcile.
  destruct (cancel_oldReplication doc data) as [cancelled|] eqn:Hcancel;
    [|by repeat split].
  assert (Forall (concerns env db doc data) cancelled) as Hcancelled.
  { revert Hcancel. unfold cancel_oldReplication.
    destruct (activeReplicationsById data !! _id doc) eqn:E;
      [intros [= <-]; by repeat constructor|].
    case_bool_decide; [done|]. intros [= <-]. constructor. }
  destruct (currentSignature_throws doc); [by repeat split|].
  set (cs := if truthy (field "replication_id" doc) then _ else None).
  clearbody cs. set (cleaned := cleanupReplicationData doc data).
  pose proof (assign_replication_id_id env doc cleaned cs) as Hid.
  pose proof (assign_replication_id_key env doc cleaned cs) as Hkey.
  destruct (assign_replication_id env doc cleaned cs) as [doc1 cs1].
  cbn [fst] in Hid, Hkey.
  pose proof (put_if_changed_fields env doc doc1) as Hfields.
  pose proof (put_if_changed_registry env doc doc1) as Hreg.
  assert (∀ data1,
    let r := put_if_changed env doc doc1 data1 in
    changes r.1.2 = changes data1
    ∧ Forall (concerns env db doc data) r.2) as Hput.
  { intros data1. unfold put_if_changed, putAsReplicatorChange.
    destruct (equals_Doc _ _); [by split|]. split; [done|].
    repeat constructor. destruct (truthy _); simpl; congruence. }
  unfold start_if_triggered. case_bool_decide as Hstate.
  - match goal with |- context [put_if_changed env doc doc1 ?d] =>
      specialize (Hfields d); specialize (Hreg d); specialize (Hput d);
      destruct (put_if_changed env doc doc1 d) as [[doc2 data2] written]
    end.
    cbv zeta in Hfields, Hreg, Hput. cbn [fst snd] in *.
    destruct Hfields as (Hid2 & Hrid & _), Hreg as [Hjobs Hsigs],
      Hput as [Hchanges Hwritten].
    split; [congruence|]. split; [by rewrite Hchanges|]. split; [|split].
    + intros id Hne. rewrite Hjobs. simpl.
      rewrite lookup_insert_ne by congruence. by rewrite lookup_delete_ne.
    + intros repId Hne1 Hne2. rewrite Hsigs. simpl.
      rewrite file_signature_lookup.
      rewrite bool_decide_eq_false_2 by (intros [? _]; congruence).
      by rewrite lookup_delete_ne.
    + apply Forall_app. split; [done|].
      apply Forall_app. split; [|done].
      rewrite Hid, !Hkey by done.
      repeat apply Forall_cons_2; [| | |by constructor]; simpl.
      * done.
      * split; [done|]. by left.
      * split; [done|]. by right.
  - match goal with |- context [put_if_changed env doc doc1 ?d] =>
      specialize (Hfields d); specialize (Hreg d); specialize (Hput d);
      destruct (put_if_changed env doc doc1 d) as [[doc2 data2] written]
    end.
    cbv zeta in Hfields, Hreg, Hput. cbn [fst snd] in *.
    destruct Hfields as (Hid2 & Hrid & _), Hreg as [Hjobs Hsigs],
      Hput as [Hchanges Hwritten].
    split; [congruence|]. split; [by rewrite Hchanges|]. split; [|split].
    + intros id Hne. rewrite Hjobs. simpl. by rewrite lookup_delete_ne.
    + intros repId Hne1 Hne2. rewrite Hsigs. simpl.
      by rewrite lookup_delete_ne.
    + apply Forall_app. by split.
Qed.

(** ** Starting: the existing documents and the subscription *)

(** While the database is registered, a run of [onChanged] that does not
    throw leaves the database at its index, with its subscription. *)
Lemma run_onChanged_registered db doc uuid now w i data :
  dataFor db (dbData w) = Some (i, data) →
  onChanged_throws doc data = false →
  ∃ w' data',
      run_onChanged db doc uuid now w = Some w'
    ∧ dataFor db (dbData w') = Some (i, data')
    ∧ changes data' = changes data.
Proof.
  intros Hdata Hruns. unfold run_onChanged. rewrite Hdata, Hruns.
  destruct (onChanged _ _ _ _) as [[doc' data'] cmds].
  eexists _, _. split; [done|].
  destruct (exec_frame db cmds (set_dbData (store i data') w)) as (-> & _).
  cbn [dbData set_dbData]. by rewrite (dataFor_store _ _ _ _ _ Hdata).
Qed.

Lemma forEach_onChanged_registered db rows w i data :
  dataFor db (dbData w) = Some (i, data) →
  Forall (λ row : Doc * string * Z, reconcilable row.1.1) rows →
  ∃ w' data',
      forEach_onChanged db rows w = (w', true)
    ∧ dataFor db (dbData w') = Some (i, data')
    ∧ changes data' = changes data.
Proof.
  intros Hdata Hrows. revert w data Hdata.
  induction Hrows as [|[[doc uuid] now] rows [Hplain Hprints] _ IH];
    intros w data Hdata; [by eauto|].
  cbn [forEach_onChanged].
  destruct (run_onChanged_registered db doc uuid now w i data Hdata
              (onChanged_throws_plain doc data Hplain Hprints))
    as (w1 & data1 & -> & Hdata1 & Hc1).
  destruct (IH w1 data1 Hdata1) as (w2 & data2 & -> & Hdata2 & Hc2).
  eexists _, _. split; [done|]. split; [done|]. congruence.
Qed.

(** X17: when the documents of a registered database have been fetched
    and none of them has for its id the name of a property plain objects
    inherit or carries a replication id that makes no property key, the
    reconciliation of the rows does not throw and the callback that
    follows subscribes: the registry entry of the
    database, still at its index, holds the subscription to the change
    feed, on which the change listener of the database is registered. *)
Theorem startup_reconciles_then_subscribes db i data rows w :
  dataFor db (dbData w) = Some (i, data) →
  Forall (λ row : Doc * string * Z, reconcilable row.1.1) rows →
  let w' := step (AllDocsFetched db i rows) w in
  ∃ feed data',
      (forEach_onChanged db rows w).2 = true
    ∧ dataFor db (dbData w') = Some (i, data')
    ∧ changes data' = Some feed
    ∧ (feed, change, OnChange db) ∈ listeners w'
    ∧ Changes db feed ∈ calls w'.
Proof.
  intros Hdata Hrows. cbv zeta. cbn [step].
  destruct (forEach_onChanged_registered db rows w i data Hdata Hrows)
    as (w1 & data1 & -> & Hdata1 & _).
  destruct (startReplicator_subscribe_entry db i data1 w1 Hdata1)
    as (Hfiled & Hl & Hcalls & _).
  eexists _, _. split; [done|]. split; [exact Hfiled|]. split; [done|].
  rewrite Hl, Hcalls. split.
  - apply elem_of_app. right. apply list_elem_of_here.
  - apply elem_of_app. right. apply list_elem_of_here.
Qed.

Lemma forEach_onChanged_app db before after w :
  forEach_onChanged db (before ++ after) w
  = let '(w1, done) := forEach_onChanged db before w in
    if done : bool then forEach_onChanged db after w1 else (w1, false).
Proof.
  revert w. induction before as [|[[doc uuid] now] before IH]; intros w;
    [done|].
  cbn [app forEach_onChanged].
  destruct (run_onChanged db doc uuid now w) as [w1|]; [apply IH | done].
Qed.


(** X26: a change for a document whose id is the name of a property
    plain objects inherit from Object.prototype (constructor, toString,
    __proto__ and the like), that is not marked as a pending self-write
    and owns no replication, makes [onChanged] throw: what it reads under
    the id is an inherited function, which has no cancel.  Nothing has
    been changed or called by then.  A change notification for such a
    document leaves the world as it is, and at startup the loop over the
    fetched rows ends at such a row: the rows before it have been
    reconciled, those after it are not, and the database is not
    subscribed to its change feed. *)
Theorem onChanged_throws_on_inherited_id env db doc data :
  _id doc ∈ Object_prototype →
  _id doc ∉ changedByReplicator data →
  activeReplicationsById data !! _id doc = None →
    onChanged_throws doc data = true
  ∧ onChanged env db doc data = (doc, data, [])
  ∧ ∀ w i uuid now,
      dataFor db (dbData w) = Some (i, data) →
        run_onChanged db doc uuid now w = None
      ∧ (∀ feed,
           listeners_of feed change w = [OnChange db] →
           step (Emit feed change (Change doc uuid now)) w = w)
      ∧ ∀ w0 before after,
          forEach_onChanged db before w0 = (w, true) →
          step (AllDocsFetched db i (before ++ (doc, uuid, now) :: after)) w0
          = w.
Proof.
  intros Hin Hmark Hnone.
  assert (String.prefix "_design" (_id doc) = false) as Hdesign.
  { revert Hin. unfold Object_prototype. rewrite !elem_of_cons, elem_of_nil.
    intros H. repeat (destruct H as [->|H]; [done|]). done. }
  assert (cancel_oldReplication doc data = None) as Hcancel.
  { unfold cancel_oldReplication. by rewrite Hnone, bool_decide_eq_true_2. }
  assert (onChanged_throws doc data = true) as Hthrows.
  { unfold onChanged_throws. rewrite Hdesign, Hcancel.
    apply indexOf_not_elem in Hmark.
    rewrite bool_decide_eq_false_2 by (rewrite Hmark; by intros []).
    by rewrite bool_decide_eq_true_2. }
  assert (∀ env, onChanged env db doc data = (doc, data, [])) as Hnothing.
  { intros env'. rewrite onChanged_unmarked by done.
    by apply reconcile_throws. }
  split; [done|]. split; [done|].
  intros w i uuid now Hdata.
  assert (run_onChanged db doc uuid now w = None) as Hrun.
  { unfold run_onChanged. by rewrite Hdata, Hthrows. }
  assert (thrown_onChanged db doc uuid now w = w) as Hthrown.
  { unfold thrown_onChanged. by rewrite Hdata, Hnothing. }
  split; [done|]. split.
  - intros feed Hfeed. cbn [step]. unfold emit. rewrite Hfeed.
    cbn [run_listeners run_listener thrown]. by rewrite Hrun.
  - intros w0 before after Hbefore. cbn [step].
    rewrite forEach_onChanged_app, Hbefore. cbn [forEach_onChanged].
    by rewrite Hrun, Hthrown.
Qed.

(** X27: a change for a document that carries a replication id which
    makes no property key (an object with a property of its own named
    toString, or an array that holds one), that is not dismissed and for
    which the cancel of the old replication does not throw, makes
    [onChanged] throw where it looks the current signature up.  The
    replication registered under the id of the document, if there is
    one, has been cancelled by then, and nothing else has been done: the
    registry is as it was, the cancelled replication still registered,
    and nothing is started or written back.  A change notification for
    such a document leaves the world with that cancel and no more, and
    at startup the loop over the fetched rows ends at such a row: the
    database is not subscribed to its change feed. *)
Theorem onChanged_throws_on_unprintable_replication_id
    env db doc data cancelled :
  _id doc ∉ changedByReplicator data →
  String.prefix "_design" (_id doc) = false →
  cancel_oldReplication doc data = Some cancelled →
  printable (field "replication_id" doc) = false →
    onChanged_throws doc data = true
  ∧ onChanged env db doc data = (doc, data, cancelled)
  ∧ cancelled = match activeReplicationsById data !! _id doc with
                | Some h => [Cancel h]
                | None => []
                end
  ∧ ∀ w i uuid now,
      dataFor db (dbData w) = Some (i, data) →
        run_onChanged db doc uuid now w = None
      ∧ (∀ feed,
           listeners_of feed change w = [OnChange db] →
           step (Emit feed change (Change doc uuid now)) w
           = exec db cancelled w)
      ∧ ∀ w0 before after,
          forEach_onChanged db before w0 = (w, true) →
          step (AllDocsFetched db i (before ++ (doc, uuid, now) :: after)) w0
          = exec db cancelled w.
Proof.
  intros Hmark Hdesign Hcancel Hprints.
  pose proof (currentSignature_throws_unprintable doc Hprints) as Hreads.
  assert (onChanged_throws doc data = true) as Hthrows.
  { unfold onChanged_throws. rewrite Hdesign, Hcancel, Hreads.
    apply indexOf_not_elem in Hmark.
    rewrite bool_decide_eq_false_2 by (rewrite Hmark; by intros []).
    by rewrite orb_true_r. }
  assert (∀ env, onChanged env db doc data = (doc, data, cancelled))
    as Hcancelled.
  { intros env'. rewrite onChanged_unmarked by done.
    by apply reconcile_thrown. }
  split; [done|]. split; [done|]. split.
  { revert Hcancel. unfold cancel_oldReplication.
    destruct (_ !! _); [by intros [= <-]|].
    case_bool_decide; [done|]. by intros [= <-]. }
  intros w i uuid now Hdata.
  assert (run_onChanged db doc uuid now w = None) as Hrun.
  { unfold run_onChanged. by rewrite Hdata, Hthrows. }
  assert (thrown_onChanged db doc uuid now w = exec db cancelled w)
    as Hthrown.
  { unfold thrown_onChanged. by rewrite Hdata, Hcancelled. }
  split; [done|]. split.
  - intros feed Hfeed. cbn [step]. unfold emit. rewrite Hfeed.
    cbn [run_listeners run_listener thrown]. by rewrite Hrun.
  - intros w0 before after Hbefore. cbn [step].
    rewrite forEach_onChanged_app, Hbefore. cbn [forEach_onChanged].
    by rewrite Hrun, Hthrown.
Qed.

(** ** A database stopped before it was subscribed *)

Lemma calm_refl w : calm w w.
Proof. repeat split. eauto. Qed.

Lemma calm_trans w1 w2 w3 : calm w1 w2 → calm w2 w3 → calm w1 w3.
Proof.
  intros (Hd1 & Hv1 & Hs1) (Hd2 & Hv2 & Hs2).
  split; [congruence|]. split; [congruence|]. intros k s3 Hk.
  destruct (Hs2 k s3 Hk) as (s2 & Hk2 & E2 & F2).
  destruct (Hs1 k s2 Hk2) as (s1 & Hk1 & E1 & F1).
  exists s1. split; [done|]. split; [congruence|auto].
Qed.

Lemma calm_quiet w w' :
  dbs (dbData w') = dbs (dbData w) →
  validating w' = validating w →
  stops w' = stops w →
  calm w w'.
Proof. intros ? ? Hs. repeat split; [done..|]. rewrite Hs. eauto. Qed.

Lemma calm_exec db cmds w : calm w (exec db cmds w).
Proof.
  destruct (exec_frame db cmds w) as (HD & HV & HS & _).
  apply calm_quiet; congruence.
Qed.

Lemma calm_run_onChanged db doc uuid now w w' :
  run_onChanged db doc uuid now w = Some w' → calm w w'.
Proof.
  unfold run_onChanged. destruct (dataFor db (dbData w)) as [[i data]|];
    [|done].
  destruct (onChanged_throws doc data); [done|].
  destruct (onChanged _ _ _ _) as [[doc' data'] cmds]. intros [= <-].
  eapply calm_trans; [|apply calm_exec]. by apply calm_quiet.
Qed.

Lemma calm_forEach_onChanged db rows w :
  calm w (forEach_onChanged db rows w).1.
Proof.
  revert w. induction rows as [|[[doc uuid] now] rows IH]; intros w;
    [apply calm_refl|].
  simpl. destruct (run_onChanged db doc uuid now w) as [w1|] eqn:E.
  2:{ destruct (thrown_onChanged_quiet db doc uuid now w E)
        as (HD & HV & HS & _).
      apply calm_quiet; simpl; congruence. }
  eapply calm_trans; [by eapply calm_run_onChanged | apply IH].
Qed.

Lemma calm_doneCancelling k h w : calm w (doneCancelling k h w).
Proof.
  repeat split. intros k' s'. cbn [doneCancelling stops set_stops log
    set_listeners].
  destruct (decide (k = k')) as [->|Hne].
  - rewrite list_lookup_alter_eq.
    destruct (stops w !! k') as [s|]; [|done]. intros [= <-].
    exists s. repeat split. simpl.
    destruct (_ && _) eqn:E; [|done]. intros _.
    apply andb_true_iff in E as [_ E]. apply bool_decide_eq_true in E.
    by left.
  - rewrite list_lookup_alter_ne by done. eauto.
Qed.

Lemma calm_run_listener l p w w' : run_listener l p w = Some w' → calm w w'.
Proof.
  destruct l as [db|db docId|db docId|k h], p; cbn [run_listener];
    try done.
  - apply calm_run_onChanged.
  - intros [= <-]. exact (calm_exec db (onReplicationComplete docId info) w).
  - intros [= <-]. exact (calm_exec db (onReplicationError docId info) w).
  - intros [= <-]. apply calm_doneCancelling.
  - intros [= <-]. apply calm_doneCancelling.
Qed.

Lemma calm_run_listeners ls p w : calm w (run_listeners ls p w).
Proof.
  revert w. induction ls as [|l ls IH]; intros w; [apply calm_refl|].
  simpl. destruct (run_listener l p w) as [w1|] eqn:E.
  2:{ destruct (thrown_quiet l p w E) as (HD & HV & HS & _).
      apply calm_quiet; congruence. }
  eapply calm_trans; [by eapply calm_run_listener | apply IH].
Qed.

Lemma wedged_calm db w w' : wedged db w → calm w w' → wedged db w'.
Proof.
  intros (Hv & Hd & Hs) (HD & HV & HS). split; [by rewrite HV|].
  split; [by rewrite HD|]. intros k s' Hk Hdb Hf.
  destruct (HS k s' Hk) as (s & Hk0 & E & F).
  apply (Hs k s Hk0); [congruence|auto].
Qed.

Lemma elem_of_splice {A} (x : A) start n l : x ∈ splice start n l → x ∈ l.
Proof.
  unfold splice. intros [Hin|Hin]%elem_of_app.
  - by eapply subseteq_take.
  - by eapply subseteq_drop.
Qed.

(** What [stopReplicator] does to the calls made so far: it adds one. *)
Lemma stopReplicator_stops db w i data :
  dataFor db (dbData w) = Some (i, data) →
  ∃ count p, stops (stopReplicator db w).1 = stops w ++ [mkStop db count p].
Proof.
  intros Hdata. unfold stopReplicator. rewrite Hdata.
  destruct (changes data) as [feed|]; [|by eauto]. cbn [fst].
  match goal with
  | |- context [foldl (λ w entry, cancel ?k entry.2 w) ?w0 ?l] =>
      destruct (foldl_cancel_exact k l w0 (stops w)
                  (mkStop db 1 Cancelling)) as (-> & _)
  end.
  - simpl. by rewrite alter_app_r_alt, Nat.sub_diag by lia.
  - done.
  - eauto.
Qed.

Lemma step_wedged db e w : wedged db w → wedged db (step e w).
Proof.
  intros Hw. destruct e; cbn [step].
  - unfold startReplicator. case_bool_decide as Hval; [done|].
    destruct Hw as (Hv & Hd & Hs). split; [|split]; simpl.
    + by apply elem_of_union_r.
    + intros [?| ->%list_elem_of_singleton]%elem_of_app; done.
    + done.
  - by apply (wedged_calm db w), calm_quiet.
  - pose proof (calm_forEach_onChanged db0 rows w) as Hcalm.
    destruct (forEach_onChanged db0 rows w) as [w1 []]; simpl in Hcalm.
    + apply (wedged_calm db w); [done|].
      eapply calm_trans; [done|]. by apply calm_quiet.
    + by apply (wedged_calm db w).
  - destruct (dataFor db0 (dbData w)) as [[i data]|] eqn:Hdata.
    2:{ unfold stopReplicator. by rewrite Hdata. }
    destruct (stopReplicator_dbData db0 w i data Hdata) as [HD HV].
    destruct (stopReplicator_stops db0 w i data Hdata)
      as (count & p & HS).
    apply dataFor_Some in Hdata as (_ & Hin & _).
    destruct Hw as (Hv & Hd & Hs). split; [by rewrite HV|]. split.
    + rewrite HD. cbn [dbs]. by intros ?%elem_of_splice.
    + intros k s. rewrite HS.
      intros [Hk|[_ [_ <-]%list_lookup_singleton_Some]]%lookup_app_Some.
      * exact (Hs k s Hk).
      * simpl. by intros ->.
  - unfold stopReplicator_then.
    destruct (stops w !! stop) as [s|] eqn:Hstop; [|done].
    case_bool_decide as Hp; [|done].
    destruct Hw as (Hv & Hd & Hs).
    assert (stop_db s ≠ db) as Hne.
    { intros E. apply (Hs stop s Hstop E). by right. }
    assert (∀ p, p ≠ Cancelling → p ≠ Cancelled → ∀ k s',
      <[stop := mkStop (stop_db s) (stillCancellingCount s) p]> (stops w)
        !! k = Some s' →
      stop_db s' = db → ¬ in_flight s') as Hrest.
    { intros p Hp1 Hp2 k s' Hk. destruct (decide (stop = k)) as [->|Hk'].
      - rewrite list_lookup_insert_eq in Hk by (by eapply lookup_lt_Some).
        injection Hk as <-. simpl. by intros _ [?|?].
      - rewrite list_lookup_insert_ne in Hk by done. exact (Hs k s' Hk). }
    case_bool_decide; (split; [|split]); simpl; try done.
    + apply elem_of_difference. split; [done|].
      by intros ?%elem_of_singleton.
    + by apply Hrest.
    + by apply Hrest.
  - apply (wedged_calm db w); [done|]. apply calm_run_listeners.
  - unfold run_updateExistingDoc_then.
    destruct (dataFor db0 (dbData w)) as [[i data]|]; [|done].
    destruct (updateExistingDoc_then _ _ _ _ _) as [[doc' data'] cmds].
    apply (wedged_calm db w); [done|].
    eapply calm_trans; [|apply calm_exec]. by apply calm_quiet.
  - unfold run_put_failed. apply (wedged_calm db w); [done|].
    destruct retry as [[docId func]|].
    + eapply calm_trans; [|apply calm_exec]. by apply calm_quiet.
    + by apply calm_quiet.
Qed.

Lemma run_wedged db es w : wedged db w → wedged db (run es w).
Proof.
  revert w. induction es as [|e es IH]; intros w Hw; [done|].
  simpl. by apply IH, step_wedged.
Qed.

(** X18: a database on which [stopReplicator] was called before
    [startReplicator] had subscribed to the change feed stays out of
    reach: whatever happens afterwards, its validation stays installed,
    [startReplicator] on it is rejected with already_active and
    [stopReplicator] with already_inactive. *)
Theorem stop_before_subscription_wedges db w i data es :
  consistent w →
  dataFor db (dbData w) = Some (i, data) →
  changes data = None →
  let w' := run es (stopReplicator db w).1 in
    db ∈ validating w'
  ∧ startReplicator db w' = (w', Some already_active)
  ∧ stopReplicator db w' = (w', Some already_inactive).
Proof.
  intros Hw Hdata Hfeed. cbv zeta.
  assert (wedged db (stopReplicator db w).1) as Hwedged.
  { destruct (stopReplicator_dbData db w i data Hdata) as [HD HV].
    apply dataFor_Some in Hdata as Hsome. destruct Hsome as (_ & Hin & _).
    split; [|split].
    - rewrite HV. by apply (dbs_validating w Hw).
    - rewrite HD. cbn [dbs].
      destruct (splice_indexOf_elem db _ (dbs_once w Hw) Hin)
        as [_ Hsplice].
      rewrite Hsplice. by intros [_ ?].
    - unfold stopReplicator. rewrite Hdata, Hfeed. simpl. intros k s.
      intros [Hk|[_ [_ <-]%list_lookup_singleton_Some]]%lookup_app_Some.
      + intros Hdb Hf. destruct (stops_apart w Hw k s Hk Hf) as [Hout _].
        apply Hout. by rewrite Hdb.
      + by intros _ [?|?]. }
  destruct (run_wedged db es _ Hwedged) as (Hv & Hd & _).
  split; [done|]. split.
  - unfold startReplicator. by rewrite bool_decide_eq_true_2.
  - unfold stopReplicator. by rewrite dataFor_None.
Qed.

(** ** The listeners of changes *)

Lemma typed_app l extra :
  typed l → (∀ r, r ∈ extra → (∀ db, r.2 ≠ OnChange db) ∨ r.1.2 = change) →
  typed (l ++ extra).
Proof.
  intros Hl Hextra h ev db [Hin|Hin]%elem_of_app; [by eapply Hl|].
  destruct (Hextra _ Hin) as [Hne|?]; [|done]. by destruct (Hne db).
Qed.

Lemma typed_sub l l' : typed l → (∀ r, r ∈ l' → r ∈ l) → typed l'.
Proof. intros Hl Hsub h ev db Hin. eapply Hl. by apply Hsub. Qed.

(** The listeners [onChanged] registers are the completion and error
    handlers. *)
Lemma onChanged_handlers env db doc data r :
  r ∈ registrations (onChanged env db doc data).2 →
  ∀ db', r.2 ≠ OnChange db'.
Proof.
  unfold onChanged. destruct (bool_decide _); [by intros ?%elem_of_nil|].
  simpl orb. destruct (String.prefix _ _); [by intros ?%elem_of_nil|].
  unfold reconcile, cancel_oldReplication.
  destruct (activeReplicationsById data !! _id doc);
    [|case_bool_decide; [by intros ?%elem_of_nil|]];
    (destruct (currentSignature_throws doc); [by intros ?%elem_of_nil|]);
    destruct (assign_replication_id _ _ _ _) as [doc1 cs];
    unfold start_if_triggered;
    pose proof (put_if_changed_commands env doc doc1) as Hput;
    case_bool_decide;
    match goal with |- context [put_if_changed ?e ?c ?d ?r] =>
      specialize (Hput r); destruct (put_if_changed e c d r) as [[? ?] ?]
    end; cbn [snd]; cbn [snd] in Hput;
    rewrite ?registrations_app, ?Hput; simpl;
    rewrite ?elem_of_cons, ?elem_of_nil; intros Hr db';
    repeat destruct Hr as [->|Hr]; done.
Qed.

Lemma run_onChanged_typed db doc uuid now w w' :
  run_onChanged db doc uuid now w = Some w' →
  typed (listeners w) → typed (listeners w').
Proof.
  unfold run_onChanged. destruct (dataFor db (dbData w)) as [[i data]|];
    [|done].
  destruct (onChanged_throws doc data); [done|].
  pose proof (onChanged_handlers (mkEnv uuid now (objects w)) db doc data)
    as Hreg.
  destruct (onChanged _ _ _ _) as [[doc' data'] cmds]. intros [= <-] Hw.
  destruct (exec_frame db cmds (set_dbData (store i data') w))
    as (_ & _ & _ & _ & ->).
  apply typed_app; [done|]. intros r Hr. left. by apply Hreg.
Qed.

Lemma forEach_onChanged_typed db rows w :
  typed (listeners w) → typed (listeners (forEach_onChanged db rows w).1).
Proof.
  revert w. induction rows as [|[[doc uuid] now] rows IH]; intros w Hw;
    [done|].
  cbn [forEach_onChanged].
  destruct (run_onChanged db doc uuid now w) as [w'|] eqn:E.
  2:{ cbn [fst]. by destruct (thrown_onChanged_quiet db doc uuid now w E)
        as (_ & _ & _ & -> & _). }
  apply IH. by eapply run_onChanged_typed.
Qed.

Lemma run_listener_typed l p w w' :
  run_listener l p w = Some w' →
  typed (listeners w) → typed (listeners w').
Proof.
  destruct l as [db|db docId|db docId|k h], p; cbn [run_listener];
    try done.
  - apply run_onChanged_typed.
  - by intros [= <-].
  - by intros [= <-].
  - intros [= <-] Hw. apply (typed_sub (listeners w)); [done|].
    intros r. simpl. by intros [_ ?]%list_elem_of_filter.
  - intros [= <-] Hw. apply (typed_sub (listeners w)); [done|].
    intros r. simpl. by intros [_ ?]%list_elem_of_filter.
Qed.

Lemma run_listeners_typed ls p w :
  typed (listeners w) → typed (listeners (run_listeners ls p w)).
Proof.
  revert w. induction ls as [|l ls IH]; intros w Hw; [done|].
  cbn [run_listeners].
  destruct (run_listener l p w) as [w'|] eqn:E.
  2:{ by destruct (thrown_quiet l p w E) as (_ & _ & _ & -> & _). }
  apply IH. by eapply run_listener_typed.
Qed.

(** The listeners [stopReplicator] leaves: those there were, the change
    listeners of the feed apart, and its own. *)
Lemma stopReplicator_listeners db w r :
  r ∈ listeners (stopReplicator db w).1 →
  r ∈ listeners w ∨ ∃ h ev, r = (h, ev, DoneCancelling (length (stops w)) h).
Proof.
  unfold stopReplicator. destruct (dataFor db (dbData w)) as [[i data]|];
    [|by left].
  destruct (changes data) as [feed|]; [|by left]. cbn [fst].
  match goal with
  | |- context [foldl (λ w entry, cancel ?k entry.2 w) ?w0 ?l] =>
      destruct (foldl_cancel_exact k l w0 (stops w)
                  (mkStop db 1 Cancelling)) as (_ & _ & ->)
  end.
  - simpl. by rewrite alter_app_r_alt, Nat.sub_diag by lia.
  - done.
  - simpl. rewrite elem_of_app, list_elem_of_filter, elem_of_app.
    rewrite !elem_of_cons, elem_of_nil, list_elem_of_bind.
    intros [[_ [?|[->|[->|[]]]]]|(h & Hr & _)]; eauto.
    rewrite !elem_of_cons, elem_of_nil in Hr.
    destruct Hr as [->|[->|[]]]; eauto.
Qed.

Lemma step_typed e w : typed (listeners w) → typed (listeners (step e w)).
Proof.
  intros Hw. destruct e; cbn [step].
  - unfold startReplicator. by case_bool_decide.
  - done.
  - pose proof (forEach_onChanged_typed db rows w Hw) as H1.
    destruct (forEach_onChanged db rows w) as [w1 []]; [|done]. simpl in *.
    apply typed_app; [done|]. intros r ->%list_elem_of_singleton. by right.
  - intros h ev db' Hin.
    destruct (stopReplicator_listeners _ _ _ Hin) as [?|(? & ? & [=])].
    by eapply Hw.
  - unfold stopReplicator_then. destruct (stops w !! stop); [|done].
    by repeat case_bool_decide.
  - by apply run_listeners_typed.
  - unfold run_updateExistingDoc_then.
    destruct (dataFor db (dbData w)) as [[i data]|]; [|done].
    destruct (updateExistingDoc_then _ _ _ _ _) as [[doc' data'] cmds] eqn:E.
    destruct (exec_frame db cmds (set_dbData (store i data') w))
      as (_ & _ & _ & _ & ->).
    unfold updateExistingDoc_then, putAsReplicatorChange in E.
    injection E as _ _ <-. simpl. by rewrite app_nil_r.
  - unfold run_put_failed. destruct retry as [[docId func]|]; [|done].
    match goal with |- context [exec ?d ?cmds ?w0] =>
      destruct (exec_frame d cmds w0) as (_ & _ & _ & _ & ->)
    end.
    unfold updateExistingDoc_catch. destruct (_ =? _); simpl;
      by rewrite app_nil_r.
Qed.

Lemma run_typed es w : typed (listeners w) → typed (listeners (run es w)).
Proof.
  revert w. induction es as [|e es IH]; intros w Hw; [done|].
  simpl. by apply IH, step_typed.
Qed.

Lemma initial_typed : typed (listeners initial).
Proof. by intros h ev db ?%elem_of_nil. Qed.

(** ** The promise of a stop is resolved *)

Lemma elem_of_listeners_of l h ev w :
  l ∈ listeners_of h ev w ↔ (h, ev, l) ∈ listeners w.
Proof.
  unfold listeners_of. rewrite list_elem_of_fmap. split.
  - intros ([[h' ev'] l'] & -> & [Heq Hin]%list_elem_of_filter).
    simpl in *. by injection Heq as -> ->.
  - intros Hin. exists (h, ev, l). split; [done|].
    by apply list_elem_of_filter.
Qed.

Lemma reported_snoc h es e :
  reported h (es ++ [e]) →
  reported h es ∨ ∃ ev info, ev ≠ change ∧ e = Emit h ev (Info info).
Proof.
  intros (ev & info & Hev & [Hin| <-%list_elem_of_singleton]%elem_of_app).
  - left. by exists ev, info.
  - right. by exists ev, info.
Qed.

(** A callback that leaves the stop and its listeners alone, and is no
    report, keeps the account of the stop. *)
Lemma stop_counting_frame stop hs es e w w' :
  (∀ s, stops w !! stop = Some s → promise s ≠ Failed →
     ∃ s', stops w' !! stop = Some s' ∧ promise s' ≠ Failed
           ∧ (promise s' = Cancelling →
              promise s = Cancelling
              ∧ stillCancellingCount s' = stillCancellingCount s)) →
  still_listening stop w' = still_listening stop w →
  (∀ h ev hb, (h, ev, DoneCancelling stop hb) ∈ listeners w' →
              (h, ev, DoneCancelling stop hb) ∈ listeners w) →
  (∀ h ev info, ev ≠ change → e ≠ Emit h ev (Info info)) →
  stop_counting stop hs es w →
  stop_counting stop hs (es ++ [e]) w'.
Proof.
  intros Hstops Hsl Hsub He [(s & Hs & Hf & Hcount) Hhs].
  destruct (Hstops s Hs Hf) as (s' & Hs' & Hf' & Hp'). split.
  - exists s'. split; [done|]. split; [done|]. intros Hp.
    destruct (Hp' Hp) as [Hp0 ->]. rewrite Hsl. by apply Hcount.
  - intros h ev hb Hin. destruct (Hhs h ev hb (Hsub _ _ _ Hin)) as [? Hnot].
    split; [done|].
    intros [?|(ev' & info & Hev & ->)]%reported_snoc; [done|].
    by destruct (He h ev' info Hev).
Qed.

Lemma stop_counting_plain stop hs es e w w' :
  stops w' = stops w →
  (∃ extra, listeners w' = listeners w ++ extra ∧ Forall plain extra) →
  (∀ h ev info, ev ≠ change → e ≠ Emit h ev (Info info)) →
  stop_counting stop hs es w →
  stop_counting stop hs (es ++ [e]) w'.
Proof.
  intros Hstops (extra & Hls & Hextra). apply stop_counting_frame.
  - intros s Hs Hf. exists s. by rewrite Hstops.
  - unfold still_listening.
    rewrite Hls, still_listening_app, (still_listening_plain _ extra) by done.
    lia.
  - intros h ev hb. rewrite Hls. apply elem_of_plain_app; [done|].
    intros Hp. exact Hp.
Qed.

Lemma run_listeners_plain ls p w :
  (∀ k hb, DoneCancelling k hb ∉ ls) →
  let w' := run_listeners ls p w in
    stops w' = stops w
  ∧ ∃ extra, listeners w' = listeners w ++ extra ∧ Forall plain extra.
Proof.
  revert w. induction ls as [|l ls IH]; intros w Hls.
  { split; [done|]. exists []. by rewrite app_nil_r. }
  simpl. destruct (run_listener l p w) as [w1|] eqn:E.
  2:{ destruct (thrown_quiet l p w E) as (_ & _ & HS & HL & _).
      split; [done|]. exists []. by rewrite app_nil_r. }
  destruct (run_listener_frame l p w w1) as (Hs1 & x1 & Hl1 & Hx1);
    [|done|].
  { intros k hb ->. apply (Hls k hb), list_elem_of_here. }
  destruct (IH w1) as (Hs2 & x2 & Hl2 & Hx2).
  { intros k hb Hin. apply (Hls k hb). by right. }
  cbv zeta in *. split; [congruence|]. exists (x1 ++ x2).
  rewrite Hl2, Hl1, <- app_assoc. split; [done|]. by apply Forall_app.
Qed.

Section Reporting.
Variables (stop : nat) (h : Handle) (info : gmap string value).

(** The listeners of the call [stop] that are still to run in the
    emission of a report of [h], and those still registered on [h]. *)
Let to_run (ls : list Listener) : nat :=
  length (filter (λ l, l = DoneCancelling stop h) ls).

Let carried (w : World) : nat :=
  occurrences (h, complete, DoneCancelling stop h) (listeners w).

(** While the listeners [ls] of the emission are still to run: the
    counter stands for the listeners registered and for those to run that
    have lost their registration. *)
Let counting (ls : list Listener) (w : World) : Prop :=
  (∃ s,
      stops w !! stop = Some s
    ∧ promise s ≠ Failed
    ∧ (promise s = Cancelling →
         stillCancellingCount s
         = Z.of_nat (still_listening stop w) + Z.of_nat (to_run ls)
           - Z.of_nat (carried w)
       ∧ 1 ≤ stillCancellingCount s))
  ∧ (carried w = to_run ls ∨ carried w = 0%nat).

Lemma run_listeners_counting ls w :
  consistent w →
  (∀ l db, l ∈ ls → l ≠ OnChange db) →
  (∀ k hb, DoneCancelling k hb ∈ ls → hb = h) →
  counting ls w →
  let w' := run_listeners ls (Info info) w in
    counting [] w'
  ∧ (∀ r, r ∈ listeners w' → r ∈ listeners w)
  ∧ ((∃ k, DoneCancelling k h ∈ ls) → ∀ r, r ∈ listeners w' → r.1.1 ≠ h).
Proof.
  revert w. induction ls as [|l ls IH]; intros w Hw Htyped Hown Hcount.
  { split; [done|]. split; [done|]. by intros [k ?%elem_of_nil]. }
  assert (∀ l db, l ∈ ls → l ≠ OnChange db) as Htyped'.
  { intros l' db Hin. apply Htyped. by right. }
  assert (∀ k hb, DoneCancelling k hb ∈ ls → hb = h) as Hown'.
  { intros k hb Hin. apply (Hown k hb). by right. }
  assert (∀ w1,
    run_listener l (Info info) w = Some w1 →
    stops w1 = stops w → listeners w1 = listeners w →
    (∀ k hb, l ≠ DoneCancelling k hb) →
    let w' := run_listeners (l :: ls) (Info info) w in
      counting [] w'
    ∧ (∀ r, r ∈ listeners w' → r ∈ listeners w)
    ∧ ((∃ k, DoneCancelling k h ∈ l :: ls) →
       ∀ r, r ∈ listeners w' → r.1.1 ≠ h)) as Hplain.
  { intros w1 Hrun Hs Hl Hne. cbn [run_listeners]. rewrite Hrun.
    destruct (IH w1) as (Hdone & Hsub & Hgone); try done.
    - by eapply run_listener_consistent.
    - destruct Hcount as [(s & Hcs & Hf & Hc) Hphase].
      unfold counting, carried, still_listening. rewrite Hs, Hl.
      assert (to_run (l :: ls) = to_run ls) as Hrun'.
      { unfold to_run. rewrite filter_cons_False; [done|]. apply Hne. }
      rewrite Hrun' in Hc, Hphase. split; [|done]. by exists s.
    - rewrite Hl in Hsub. split; [done|]. split; [done|].
      intros [k [E|Hin]%elem_of_cons]; [by destruct (Hne k h)|].
      apply Hgone. by exists k. }
  destruct l as [db|db docId|db docId|k hb].
  - by destruct (Htyped (OnChange db) db (list_elem_of_here _ _)).
  - destruct (exec_frame db (onReplicationComplete docId info) w)
      as (_ & _ & Hs & _ & Hl).
    apply (Hplain (exec db (onReplicationComplete docId info) w));
      [done|done| |done].
    rewrite Hl. apply app_nil_r.
  - destruct (exec_frame db (onReplicationError docId info) w)
      as (_ & _ & Hs & _ & Hl).
    apply (Hplain (exec db (onReplicationError docId info) w));
      [done|done| |done].
    rewrite Hl. apply app_nil_r.
  - assert (hb = h) as -> by (apply (Hown k); apply list_elem_of_here).
    cbn [run_listeners run_listener].
    set (w1 := doneCancelling k h w).
    pose proof (doneCancelling_consistent k h w Hw) as Hw1. fold w1 in Hw1.
    assert (still_listening stop w1 + carried w
            = still_listening stop w)%nat as Hsl.
    { apply still_listening_removeAllListeners.
      intros h0 ev k0 hb' Hin. by destruct (listeners_own w Hw _ _ _ _ Hin). }
    assert (carried w1 = 0%nat) as Hc1.
    { unfold carried, w1. simpl.
      rewrite occurrences_removeAllListeners. simpl. by rewrite decide_True. }
    assert (∀ r, r ∈ listeners w1 → r ∈ listeners w ∧ r.1.1 ≠ h) as Hsub1.
    { intros r. unfold w1. simpl. by intros [? ?]%list_elem_of_filter. }
    destruct (IH w1) as (Hdone & Hsub & _); try done.
    2:{ split; [done|]. split.
        - intros r Hr. by apply Hsub1, Hsub.
        - intros _ r Hr. by apply Hsub1, Hsub. }
    destruct Hcount as [(s & Hs & Hf & Hc) Hphase].
    unfold counting. rewrite Hc1. split; [|by right].
    unfold w1 at 1. cbn [doneCancelling stops set_stops log set_listeners].
    destruct (decide (k = stop)) as [->|Hne].
    + rewrite list_lookup_alter_eq, Hs. cbn [fmap option_fmap option_map].
      eexists. split; [done|]. cbn [promise stillCancellingCount].
      assert (to_run (DoneCancelling stop h :: ls) = S (to_run ls)) as Hrun
        by (unfold to_run; by rewrite filter_cons_True).
      rewrite Hrun in Hc.
      destruct (decide (promise s = Cancelling)) as [Hp|Hp].
      * destruct (Hc Hp) as [Hcount Hpos]. rewrite Hp.
        rewrite (bool_decide_eq_true_2 _ eq_refl), andb_true_r.
        destruct (Z.eqb_spec (stillCancellingCount s - 1) 0) as [E|E];
          [done|].
        split; [done|]. intros _. lia.
      * rewrite (bool_decide_eq_false_2 _ Hp), andb_false_r. done.
    + rewrite list_lookup_alter_ne by done. exists s.
      assert (to_run (DoneCancelling k h :: ls) = to_run ls) as Hrun.
      { unfold to_run. rewrite filter_cons_False; [done|]. congruence. }
      rewrite Hrun in Hc. split; [done|]. split; [done|].
      intros Hp. destruct (Hc Hp). lia.
Qed.
End Reporting.

Lemma emit_counting stop hs es h ev p w :
  consistent w →
  typed (listeners w) →
  well_formed (Emit h ev p) →
  stop_counting stop hs es w →
  stop_counting stop hs (es ++ [Emit h ev p]) (emit h ev p w).
Proof.
  intros Hw Htyped Hwf Hcounting. unfold emit.
  assert (∀ k hb, DoneCancelling k hb ∈ listeners_of h ev w →
            hb = h ∧ ev ≠ change) as Hown.
  { intros k hb Hin%elem_of_listeners_of.
    by destruct (listeners_own w Hw _ _ _ _ Hin) as (? & ? & _). }
  destruct (decide (ev = change)) as [->|Hev].
  { (* a change: no listener of a stop runs *)
    destruct (run_listeners_plain (listeners_of h change w) p w)
      as [Hs Hl].
    { intros k hb Hin. by destruct (Hown k hb Hin). }
    revert Hcounting. apply stop_counting_plain; [done..|].
    intros h' ev' info' Hev' [=]. congruence. }
  destruct p as [doc uuid now|info]; [done|].
  assert (occurrences (h, ev, DoneCancelling stop h) (listeners w)
          = occurrences (h, complete, DoneCancelling stop h) (listeners w))
    as Hpaired.
  { destruct ev; [done|done|]. symmetry. apply (listeners_paired w Hw). }
  destruct Hcounting as [(s & Hs & Hf & Hcount) Hhs].
  destruct (run_listeners_counting stop h info (listeners_of h ev w) w Hw)
    as ([(s' & Hs' & Hf' & Hcount') Hphase] & Hsub & Hgone).
  { intros l db Hin%elem_of_listeners_of ->.
    by destruct (Hev (Htyped _ _ _ Hin)). }
  { intros k hb Hin. by destruct (Hown k hb Hin). }
  { rewrite to_run_snapshot, Hpaired. split; [|by left].
    exists s. split; [done|]. split; [done|]. intros Hp.
    destruct (Hcount Hp). split; [lia|done]. }
  split.
  - exists s'. split; [done|]. split; [done|]. intros Hp.
    destruct (Hcount' Hp) as [Hc' ?]. split; [|done].
    cbn [filter list_filter length] in Hc', Hphase.
    destruct Hphase as [E|E]; rewrite E in Hc'; lia.
  - intros h' ev' hb Hin. destruct (Hhs h' ev' hb (Hsub _ Hin)) as [? Hnot].
    split; [done|].
    intros [?|(ev0 & info0 & Hev0 & [= <- <- <-])]%reported_snoc; [done|].
    destruct (listeners_own w Hw _ _ _ _ (Hsub _ Hin)) as (-> & Hev' & _).
    assert ((h, ev, DoneCancelling stop h) ∈ listeners w) as Hreg.
    { apply occurrences_elem. rewrite Hpaired.
      assert ((h, ev', DoneCancelling stop h) ∈ listeners w) as Hin'
        by by apply Hsub.
      apply occurrences_elem in Hin'. destruct ev'; [done|done|].
      by rewrite (listeners_paired w Hw). }
    apply (Hgone (ex_intro _ stop (proj2 (elem_of_listeners_of _ _ _ _)
                                      Hreg)) _ Hin).
    done.
Qed.

Lemma stopReplicator_counting_other stop hs es db w :
  stop_counting stop hs es w →
  stop_counting stop hs (es ++ [StopCalled db]) (stopReplicator db w).1.
Proof.
  intros Hcounting.
  assert (stop < length (stops w))%nat as Hlt.
  { destruct Hcounting as [(s & Hs & _) _]. by eapply lookup_lt_Some. }
  revert Hcounting. unfold stopReplicator.
  destruct (dataFor db (dbData w)) as [[i data]|].
  2:{ apply stop_counting_plain; [done| |done].
      exists []. by rewrite app_nil_r. }
  destruct (changes data) as [feed|].
  2:{ apply stop_counting_frame; try done.
      intros s Hs Hf. exists s. simpl. by rewrite lookup_app_l. }
  cbn [fst stops set_dbData].
  match goal with |- context [foldl ?f ?w0 ?l] =>
    destruct (foldl_cancel_other stop (length (stops w)) l w0)
      as (Hs & Hsl & _); [lia|];
    destruct (foldl_cancel_exact (length (stops w)) l w0 (stops w)
                (mkStop db 1 Cancelling)) as (_ & _ & Hl)
  end.
  { simpl. by rewrite alter_app_r_alt, Nat.sub_diag by lia. }
  { done. }
  apply stop_counting_frame; [| | |done].
  - intros s Hs0 Hf. exists s. rewrite Hs. simpl.
    rewrite list_lookup_alter_ne by lia. by rewrite lookup_app_l.
  - rewrite Hsl. unfold still_listening at 1.
    cbn [listeners log set_listeners].
    rewrite still_listening_removeChange.
    match goal with |- length (filter _ (listeners ?wc)) = _ =>
      change (still_listening stop wc = still_listening stop w)
    end.
    rewrite still_listening_cancel, decide_False by lia.
    unfold still_listening. simpl. lia.
  - intros h ev hb. rewrite Hl. simpl.
    rewrite elem_of_app, list_elem_of_filter, elem_of_app.
    rewrite !elem_of_cons, elem_of_nil, list_elem_of_bind.
    intros [[_ [?|[E|[E|[]]]]]|(h' & Hr & _)]; [done| | |].
    + injection E as _ _ E. lia.
    + injection E as _ _ E. lia.
    + rewrite !elem_of_cons, elem_of_nil in Hr.
      destruct Hr as [E|[E|[]]]; injection E as _ _ E; lia.
Qed.

Lemma stopReplicator_then_counting stop hs es k w :
  consistent w →
  stop_counting stop hs es w →
  stop_counting stop hs (es ++ [StopThen k]) (stopReplicator_then k w).
Proof.
  intros Hw. unfold stopReplicator_then.
  destruct (stops w !! k) as [s|] eqn:Hs.
  2:{ apply stop_counting_plain; [done| |done].
      exists []. by rewrite app_nil_r. }
  case_bool_decide as Hp.
  2:{ apply stop_counting_plain; [done| |done].
      exists []. by rewrite app_nil_r. }
  destruct (stops_apart w Hw k s Hs) as [_ Hval]; [by right|].
  rewrite bool_decide_eq_true_2 by done.
  apply stop_counting_frame; try done.
  intros s0 Hs0 Hf. simpl. destruct (decide (k = stop)) as [->|Hk].
  - rewrite list_lookup_insert_eq by (by eapply lookup_lt_Some).
    eexists. split; [done|]. simpl. done.
  - rewrite list_lookup_insert_ne by done. eauto.
Qed.

Lemma step_counting stop hs es e w :
  consistent w →
  typed (listeners w) →
  well_formed e →
  stop_counting stop hs es w →
  stop_counting stop hs (es ++ [e]) (step e w).
Proof.
  intros Hw Htyped Hwf. destruct e; cbn [step].
  - unfold startReplicator. case_bool_decide;
      (apply stop_counting_plain; [done| |done]; exists [];
       by rewrite app_nil_r).
  - apply stop_counting_plain; [done| |done]. exists [].
    by rewrite app_nil_r.
  - destruct (forEach_onChanged_frame db rows w) as (Hs & extra & Hl & Hx).
    cbv zeta in *.
    destruct (forEach_onChanged db rows w) as [w' []]; simpl in *.
    + apply stop_counting_plain; [done| |done].
      exists (extra ++ [(objects w', change, OnChange db)]).
      simpl. rewrite Hl, <- app_assoc. split; [done|].
      apply Forall_app. split; [done|]. by repeat constructor.
    + apply stop_counting_plain; eauto.
  - apply stopReplicator_counting_other.
  - by apply stopReplicator_then_counting.
  - by apply emit_counting.
  - unfold run_updateExistingDoc_then.
    destruct (dataFor db (dbData w)) as [[i data]|].
    2:{ apply stop_counting_plain; [done| |done]. exists [].
        by rewrite app_nil_r. }
    unfold updateExistingDoc_then, putAsReplicatorChange.
    apply stop_counting_plain; [done| |done]. exists [].
    by rewrite app_nil_r.
  - unfold run_put_failed. destruct retry as [[docId func]|].
    2:{ apply stop_counting_plain; [done| |done]. exists [].
        by rewrite app_nil_r. }
    match goal with |- context [exec ?d ?cmds ?w0] =>
      destruct (exec_frame d cmds w0) as (_ & _ & Hs & _ & Hl)
    end.
    apply stop_counting_plain; [done| |done].
    exists []. rewrite Hl. unfold updateExistingDoc_catch.
    by destruct (status err =? 409).
Qed.

Lemma run_counting stop hs es0 es w :
  consistent w →
  typed (listeners w) →
  Forall well_formed es →
  stop_counting stop hs es0 w →
  stop_counting stop hs (es0 ++ es) (run es w).
Proof.
  revert es0 w. induction es as [|e es IH]; intros es0 w Hw Ht Hwf Hc.
  { by rewrite app_nil_r. }
  apply Forall_cons in Hwf as [He Hes].
  simpl. replace (es0 ++ e :: es) with ((es0 ++ [e]) ++ es)
    by (by rewrite <- app_assoc).
  apply IH; [by apply step_consistent | by apply step_typed | done
            | by apply step_counting].
Qed.

Lemma still_listening_listening stop (hs : list Handle) :
  length (filter (λ r, is_doneCancelling stop complete r = true)
            (hs ≫= λ h, [(h, complete, DoneCancelling stop h);
                          (h, error, DoneCancelling stop h)]))
  = length hs.
Proof.
  induction hs as [|h hs IH]; [done|]. rewrite bind_cons. cbn [app].
  rewrite filter_cons_True
    by (unfold is_doneCancelling; by rewrite bool_decide_eq_true).
  rewrite filter_cons_False; [simpl; by rewrite IH|].
  unfold is_doneCancelling. rewrite bool_decide_eq_true. by intros [? _].
Qed.

(** Right after [stopReplicator], the counter is the number of emitters
    cancelled, each of which carries the listeners of the call. *)
Lemma stopReplicator_counting db w i data feed :
  consistent w →
  dataFor db (dbData w) = Some (i, data) →
  changes data = Some feed →
  stop_counting (length (stops w))
    (feed :: (map_to_list (activeReplicationsById data)).*2) []
    (stopReplicator db w).1.
Proof.
  intros Hw Hdata Hfeed. unfold stopReplicator. rewrite Hdata, Hfeed.
  cbn [fst stops set_dbData].
  assert (∀ h ev hb,
            (h, ev, DoneCancelling (length (stops w)) hb) ∉ listeners w)
    as Hnone.
  { intros h ev hb Hin.
    destruct (listeners_own w Hw _ _ _ _ Hin) as (_ & _ & Hlt). lia. }
  match goal with
  | |- context [foldl (λ w entry, cancel ?k entry.2 w) ?w0 ?l] =>
      destruct (foldl_cancel_exact k l w0 (stops w)
                  (mkStop db 1 Cancelling)) as (Hstops & _ & Hl)
  end.
  { simpl. by rewrite alter_app_r_alt, Nat.sub_diag by lia. }
  { done. }
  cbn [stop_db stillCancellingCount promise] in Hstops.
  cbn [listeners log set_listeners cancel set_stops set_dbData] in Hl.
  split.
  - rewrite Hstops, lookup_app_r by lia. rewrite Nat.sub_diag.
    eexists. split; [done|].
    cbn [promise stillCancellingCount]. split; [done|]. intros _.
    split; [|lia]. unfold still_listening. rewrite Hl.
    rewrite still_listening_app, still_listening_removeChange,
      still_listening_app, still_listening_listening.
    assert (length (filter
                      (λ r, is_doneCancelling (length (stops w)) complete r
                            = true)
                      (listeners w)) = 0%nat) as ->.
    { destruct (filter _ (listeners w)) as [|[[h ev] l] rest] eqn:E; [done|].
      assert ((h, ev, l) ∈ filter
                (λ r, is_doneCancelling (length (stops w)) complete r = true)
                (listeners w))
        as [Hd Hin]%list_elem_of_filter
        by (rewrite E; apply list_elem_of_here).
      destruct l as [| | |k hb]; try done. unfold is_doneCancelling in Hd.
      apply bool_decide_eq_true in Hd as [_ ->].
      by destruct (Hnone h ev hb). }
    rewrite filter_cons_True
      by (unfold is_doneCancelling; by rewrite bool_decide_eq_true).
    rewrite filter_cons_False.
    2:{ unfold is_doneCancelling. rewrite bool_decide_eq_true.
        by intros [? _]. }
    rewrite length_fmap. simpl. lia.
  - intros h ev hb. rewrite Hl.
    rewrite elem_of_app, list_elem_of_filter, elem_of_app.
    rewrite !elem_of_cons, elem_of_nil, list_elem_of_bind.
    intros Hin. split.
    + destruct Hin as [[_ [Hin|[E|[E|[]]]]]|(h' & Hr & Hh')].
      * by destruct (Hnone h ev hb).
      * injection E as -> _ _. by left.
      * injection E as -> _ _. by left.
      * right. rewrite !elem_of_cons, elem_of_nil in Hr.
        destruct Hr as [E|[E|[]]]; by injection E as -> _ _.
    + by intros (ev' & info & _ & ?%elem_of_nil).
Qed.

(** X19: the promise of [stopReplicator] is resolved once every emitter
    it cancelled has reported.  In a world the event loop has reached,
    [stopReplicator] on a database with a subscription being followed by
    any events in which the change feed and every replication that was
    registered each report a completion or an error (a notification
    carrying its info), [resolve] has been called: the promise is
    resolved or already fulfilled, it is not rejected, and when its
    [then] callback has run it is fulfilled. *)
Theorem stopReplicator_resolves_when_all_reported
    es0 db i data feed es :
  let w := run es0 initial in
  dataFor db (dbData w) = Some (i, data) →
  changes data = Some feed →
  Forall well_formed es →
  (∀ h, h ∈ feed :: (map_to_list (activeReplicationsById data)).*2 →
        reported h es) →
  let stop := length (stops w) in
  let w' := run es (stopReplicator db w).1 in
  ∃ s,
      stops w' !! stop = Some s
    ∧ (promise s = Cancelled ∨ promise s = Stopped)
    ∧ promise <$> stops (step (StopThen stop) w') !! stop = Some Stopped.
Proof.
  intros w Hdata Hfeed Hwf Hall stop w'.
  pose proof (run_consistent es0 initial initial_consistent) as Hw.
  pose proof (run_typed es0 initial initial_typed) as Htyped.
  fold w in Hw, Htyped.
  pose proof (stopReplicator_consistent db w Hw) as Hw1.
  pose proof (step_typed (StopCalled db) w Htyped) as Ht1.
  pose proof (run_consistent es _ Hw1) as Hw'. fold w' in Hw'.
  pose proof (run_counting _ _ [] es _ Hw1 Ht1 Hwf
                (stopReplicator_counting db w i data feed Hw Hdata Hfeed))
    as [(s & Hs & Hf & Hcount) Hhs].
  fold stop w' in Hs, Hcount, Hhs.
  assert (promise s ≠ Cancelling) as Hp.
  { intros Hp. destruct (Hcount Hp) as [Hc Hpos].
    unfold still_listening in Hc.
    destruct (filter _ (listeners w')) as [|[[h ev] l] rest] eqn:E;
      [simpl in Hc; lia|].
    assert ((h, ev, l) ∈ filter
              (λ r, is_doneCancelling stop complete r = true) (listeners w'))
      as [Hd Hin]%list_elem_of_filter
      by (rewrite E; apply list_elem_of_here).
    destruct l as [| | |k hb]; try done. unfold is_doneCancelling in Hd.
    apply bool_decide_eq_true in Hd as [_ ->].
    destruct (Hhs h ev hb Hin) as [Hh Hnot]. by apply Hnot, Hall. }
  exists s. split; [done|].
  assert (promise s = Cancelled ∨ promise s = Stopped) as Hor
    by (destruct (promise s); auto; done).
  split; [done|]. cbn [step]. unfold stopReplicator_then. rewrite Hs.
  assert (stop < length (stops w'))%nat by (by eapply lookup_lt_Some).
  destruct Hor as [Hc|Hst].
  - destruct (stops_apart w' Hw' _ s Hs) as [_ Hval]; [by right|].
    rewrite !bool_decide_eq_true_2 by done. simpl.
    by rewrite list_lookup_insert_eq.
  - rewrite bool_decide_eq_false_2 by (rewrite Hst; done).
    rewrite Hs. simpl. by rewrite Hst.
Qed.

(** ** After [stopReplicator] *)

(** The listeners [stopReplicator] leaves on a database with a
    subscription. *)
Lemma stopReplicator_registered db w i data feed :
  dataFor db (dbData w) = Some (i, data) →
  changes data = Some feed →
  let listening (h : Handle) :=
    [(h, complete, DoneCancelling (length (stops w)) h);
     (h, error, DoneCancelling (length (stops w)) h)] in
  listeners (stopReplicator db w).1
  = filter (λ r, r.1 ≠ (feed, change)) (listeners w)
    ++ listening feed
    ++ ((map_to_list (activeReplicationsById data)).*2 ≫= listening).
Proof.
  intros Hdata Hfeed.
  by destruct (stopReplicator_effect db w i data feed Hdata Hfeed)
    as (_ & _ & ?).
Qed.

Lemma listeners_of_listening h ev k (hs : list Handle) :
  Forall (λ l, ∃ k' hb, l = DoneCancelling k' hb)
    (snd <$> filter (λ r, r.1 = (h, ev))
       (hs ≫= λ h, [(h, complete, DoneCancelling k h);
                     (h, error, DoneCancelling k h)]))
  ∧ (ev = change →
     filter (λ r, r.1 = (h, ev))
       (hs ≫= λ h, [(h, complete, DoneCancelling k h);
                     (h, error, DoneCancelling k h)]) = []).
Proof.
  induction hs as [|h' hs [IH1 IH2]]; [by split|].
  rewrite bind_cons. cbn [app]. split.
  - destruct (decide ((h', complete) = (h, ev)));
      [rewrite filter_cons_True by done | rewrite filter_cons_False by done];
      (destruct (decide ((h', error) = (h, ev)));
       [rewrite filter_cons_True by done | rewrite filter_cons_False by done]);
      rewrite ?fmap_cons; repeat apply Forall_cons_2; eauto.
  - intros ->. rewrite !filter_cons_False by (simpl; congruence). auto.
Qed.

(** X20: after [stopReplicator] the changes of the database are no
    longer reconciled: a change its feed still emits runs no listener
    and leaves everything as it is. *)
Theorem stopped_database_ignores_changes db w i data feed p :
  dataFor db (dbData w) = Some (i, data) →
  changes data = Some feed →
  let w' := (stopReplicator db w).1 in
    listeners_of feed change w' = []
  ∧ step (Emit feed change p) w' = w'.
Proof.
  intros Hdata Hfeed. cbv zeta.
  assert (listeners_of feed change (stopReplicator db w).1 = []) as Hnone.
  { unfold listeners_of.
    rewrite (stopReplicator_registered db w i data feed Hdata Hfeed).
    rewrite !filter_app, list_filter_filter.
    destruct (listeners_of_listening feed change (length (stops w))
                ((map_to_list (activeReplicationsById data)).*2))
      as [_ ->]; [|done].
    rewrite !filter_cons_False by (simpl; congruence).
    rewrite filter_nil, !app_nil_r.
    induction (listeners w) as [|r l IH]; [done|].
    rewrite filter_cons_False; [done|]. by intros [? ?]. }
  split; [done|]. cbn [step]. unfold emit. by rewrite Hnone.
Qed.

Lemma run_listeners_doneCancelling ls p w :
  Forall (λ l, ∃ k hb, l = DoneCancelling k hb) ls →
  let w' := run_listeners ls p w in
    dbData w' = dbData w
  ∧ ∀ c, c ∈ calls w → c ∈ calls w'.
Proof.
  revert w. induction ls as [|l ls IH]; intros w Hls; [done|].
  apply Forall_cons in Hls as [(k & hb & ->) Hls].
  cbn [run_listeners run_listener].
  destruct (IH (doneCancelling k hb w) Hls) as [-> Hcalls].
  split; [done|]. intros c Hc. apply Hcalls. simpl.
  apply elem_of_app. by left.
Qed.

(** Only [startReplicator] enters a database into the registry. *)
Lemma step_absent db e w :
  e ≠ Start db → db ∉ dbs (dbData w) → db ∉ dbs (dbData (step e w)).
Proof.
  intros He Hout. destruct e; cbn [step].
  - unfold startReplicator. case_bool_decide as Hval; [done|]. simpl.
    intros [?| ->%list_elem_of_singleton]%elem_of_app; done.
  - done.
  - pose proof (calm_forEach_onChanged db0 rows w) as (HD & _).
    destruct (forEach_onChanged db0 rows w) as [w1 []]; simpl in HD;
      [simpl|]; by rewrite HD.
  - destruct (dataFor db0 (dbData w)) as [[i data]|] eqn:Hdata.
    2:{ unfold stopReplicator. by rewrite Hdata. }
    destruct (stopReplicator_dbData db0 w i data Hdata) as [-> _].
    cbn [dbs]. by intros ?%elem_of_splice.
  - unfold stopReplicator_then.
    destruct (stops w !! stop) as [s|]; [|done].
    repeat case_bool_decide; done.
  - destruct (calm_run_listeners (listeners_of h ev w) p w) as (HD & _).
    unfold emit. by rewrite HD.
  - unfold run_updateExistingDoc_then.
    destruct (dataFor db0 (dbData w)) as [[i data]|]; [|done].
    destruct (updateExistingDoc_then _ _ _ _ _) as [[doc' data'] cmds].
    by destruct (exec_frame db0 cmds (set_dbData (store i data') w))
      as (-> & _).
  - unfold run_put_failed. destruct retry as [[docId func]|]; [|done].
    match goal with |- context [exec ?d ?cmds ?w0] =>
      by destruct (exec_frame d cmds w0) as (-> & _)
    end.
Qed.

Lemma run_absent db es w :
  Forall (λ e, e ≠ Start db) es →
  db ∉ dbs (dbData w) → db ∉ dbs (dbData (run es w)).
Proof.
  intros Hes. revert w. induction Hes as [|e es He _ IH]; intros w Hout;
    [done|].
  cbn [run foldl]. apply IH. by apply step_absent.
Qed.

(** X21: a replication cancelled by [stopReplicator] is not recorded as
    completed as long as the replicator is not started on the database
    again.  Its completion still runs the completion handler, which
    fetches the document; whatever happens before the document has come,
    short of a start on that database, the database is out of the
    registry when it comes: [cleanupReplicationData] throws and nothing
    is written. *)
Theorem stopped_replication_is_not_recorded
    db w i data feed h docId info doc now es :
  NoDup (dbs (dbData w)) →
  dataFor db (dbData w) = Some (i, data) →
  changes data = Some feed →
  listeners_of h complete w = [OnReplicationComplete db docId] →
  Forall (λ e, e ≠ Start db) es →
  let stats := delete "ok" (delete "status" info) in
  let w1 := (stopReplicator db w).1 in
  let w2 := step (Emit h complete (Info info)) w1 in
  let w3 := run es w2 in
    Did db (Get docId (SetCompleted stats)) ∈ calls w2
  ∧ dataFor db (dbData w3) = None
  ∧ step (Fetched db docId (SetCompleted stats) doc now) w3 = w3.
Proof.
  intros Hnd Hdata Hfeed Hls Hes. cbv zeta.
  destruct (stopReplicator_dbData db w i data Hdata) as [HD _].
  apply dataFor_Some in Hdata as Hsome. destruct Hsome as (_ & Hin & _).
  assert (db ∉ dbs (dbData (stopReplicator db w).1)) as Hout.
  { rewrite HD. cbn [dbs].
    destruct (splice_indexOf_elem db _ Hnd Hin) as [_ Hsplice].
    rewrite Hsplice. by intros [_ ?]. }
  set (w1 := (stopReplicator db w).1) in *.
  assert (∃ dcs,
    listeners_of h complete w1 = OnReplicationComplete db docId :: dcs
    ∧ Forall (λ l, ∃ k hb, l = DoneCancelling k hb) dcs)
    as (dcs & Hsnapshot & Hdcs).
  { unfold listeners_of, w1.
    rewrite (stopReplicator_registered db w i data feed Hdata Hfeed).
    rewrite !filter_app, !fmap_app, list_filter_filter.
    assert (filter (λ r, r.1 = (h, complete) ∧ r.1 ≠ (feed, change))
              (listeners w)
            = filter (λ r, r.1 = (h, complete)) (listeners w)) as ->.
    { apply list_filter_iff. intros r. split; [by intros [? _]|].
      intros Hr. split; [done|]. rewrite Hr. congruence. }
    fold (listeners_of h complete w). rewrite Hls. eexists. split; [done|].
    apply Forall_app. split.
    - destruct (decide ((feed, complete) = (h, complete)));
        [rewrite filter_cons_True by done
        |rewrite filter_cons_False by done];
        rewrite filter_cons_False by (simpl; congruence);
        rewrite filter_nil; repeat constructor; eauto.
    - apply listeners_of_listening. }
  cbn [step]. unfold emit. rewrite Hsnapshot.
  cbn [run_listeners run_listener].
  set (stats := delete "ok" (delete "status" info)).
  change (onReplicationComplete docId info)
    with [Get docId (SetCompleted stats)].
  destruct (exec_frame db [Get docId (SetCompleted stats)] w1)
    as (HD1 & _ & _ & Hcalls1 & _).
  destruct (run_listeners_doneCancelling dcs (Info info)
              (exec db [Get docId (SetCompleted stats)] w1) Hdcs)
    as [HD2 Hcalls2].
  set (w2 := run_listeners dcs (Info info)
               (exec db [Get docId (SetCompleted stats)] w1)) in *.
  assert (dataFor db (dbData (run es w2)) = None) as Hgone.
  { apply dataFor_None, run_absent; [done|]. by rewrite HD2, HD1. }
  split; [|split; [done|]].
  - apply Hcalls2. rewrite Hcalls1. apply elem_of_app. right.
    apply list_elem_of_here.
  - unfold run_updateExistingDoc_then. by rewrite Hgone.
Qed.

(** ** Live documents are written back *)

(** X22: a document that is neither deleted nor dismissed, whose id is
    not the name of a property plain objects inherit, whose replication
    id, if it carries one, makes a property key and is not the id uuid()
    is about to return, leaves [onChanged]
    with a non-empty replication id and is written back: the last call
    is the put of the document, and the id of the document has been
    added to the pending self-writes.  Under its replication id is filed
    a signature that equals its own (the document as it came, without
    _id and _rev) as the equals package compares them; it is its own
    when the document leaves with the state triggered. *)
Theorem onChanged_writes_back_live_documents env db doc data :
  _id doc ∉ changedByReplicator data →
  String.prefix "_design" (_id doc) = false →
  _id doc ∉ Object_prototype →
  printable (field "replication_id" doc) = true →
  truthy (field "_deleted" doc) = false →
  field "replication_id" doc ≠ VStr (uuid env) →
  uuid env ≠ "" →
  let r := onChanged env db doc data in
    onChanged_throws doc data = false
  ∧ (∃ calls, r.2 = calls ++ [Put r.1.1 ["_replicator"; "_admin"]])
  ∧ changedByReplicator r.1.2 = changedByReplicator data ++ [_id doc]
  ∧ truthy (field "replication_id" r.1.1) = true
  ∧ ∃ signature,
        activeReplicationSignaturesByRepId r.1.2
          !! ToString (field "replication_id" r.1.1)
        = Some (Some signature)
      ∧ equals (VObj signature) (VObj (delete "_rev" (fields doc))) = true
      ∧ (field "replication_state" r.1.1 = VStr "triggered" →
         signature = delete "_rev" (fields doc)).
Proof.
  intros Hmark Hdesign Hplain Hprints Hdel Hfresh Huuid. cbv zeta.
  split; [by apply onChanged_throws_plain|].
  rewrite onChanged_unmarked by done.
  rewrite (reconcile_runs _ _ _ _ _ (cancel_oldReplication_plain _ _ Hplain)
             (currentSignature_throws_printable _ Hprints)).
  cbv zeta.
  set (cs := if truthy (field "replication_id" doc) then _ else None).
  clearbody cs. set (cleaned := cleanupReplicationData doc data).
  assert (∃ doc1 repId,
    assign_replication_id env doc cleaned cs
    = (doc1, Some (delete "_rev" (fields doc)))
    ∧ equals_Doc doc1 doc = false ∧ _id doc1 = _id doc
    ∧ field "replication_id" doc1 = VStr repId ∧ repId ≠ ""
    ∧ (field "replication_state" doc1 = VStr "triggered"
       ∨ ∃ signature,
           activeReplicationSignaturesByRepId cleaned !! repId
           = Some (Some signature)
         ∧ equals (VObj signature) (VObj (delete "_rev" (fields doc)))
           = true))
    as (doc1 & repId & -> & Hne & Hid & Hrid & Hkey & Hfiled).
  { destruct (assign_replication_id_live env doc cleaned cs Hdel)
      as [(repId & joined & Hl & Heq & Hk & ->)|[_ ->]].
    - eexists _, repId. split; [done|]. rewrite field_set_field.
      repeat split; try done; [|right; by exists joined].
      apply (equals_Doc_changed _ _ "replication_id" repId); [done| |].
      + apply lookup_insert_eq.
      + intros E.
        assert (field "replication_id" doc = VStr repId) as Hold
          by (unfold field, get; by rewrite E).
        unfold cleaned in Hl. rewrite cleanupReplicationData_signatures in Hl.
        rewrite Hold in Hl. simpl in Hl. by rewrite lookup_delete_eq in Hl.
    - destruct (triggered_fields env doc) as (Hst & Hrid & _ & _ & Hid).
      eexists _, (uuid env). split; [done|].
      repeat split; try done; [|by left].
      apply (equals_Doc_changed _ _ "replication_id" (uuid env)); [done| |].
      + simpl. rewrite lookup_insert_ne by done. apply lookup_insert_eq.
      + intros E. apply Hfresh. unfold field, get. by rewrite E. }
  assert (changedByReplicator cleaned = changedByReplicator data) as Hmarks
    by done.
  clearbody cleaned. unfold start_if_triggered, put_if_changed.
  rewrite Hrid. cbn [ToString].
  assert (∀ d : Doc,
    field "replication_id"
      (if truthy (field "replication_state" d)
       then set_field "replication_state_time" (VNum (now env)) d else d)
    = field "replication_id" d
    ∧ field "replication_state"
        (if truthy (field "replication_state" d)
         then set_field "replication_state_time" (VNum (now env)) d else d)
      = field "replication_state" d) as Hstamp.
  { intros d. destruct (truthy (field "replication_state" d)); [|done].
    by rewrite !field_set_field_ne. }
  destruct (Hstamp doc1) as [Hstamp1 Hstamp2].
  case_bool_decide as Hstate.
  - rewrite Hne. cbn [negb].
    unfold putAsReplicatorChange. cbn [fst snd].
    rewrite Hstamp1, Hrid. cbn [ToString]. split; [|split; [|split]].
    + eexists. by rewrite !app_assoc.
    + simpl. rewrite Hmarks. f_equal. f_equal.
      by destruct (truthy (field "replication_state" doc1)).
    + by apply truthy_VStr.
    + eexists. split; [simpl; apply lookup_insert_eq|].
      split; [apply equals_refl | done].
  - rewrite Hne. cbn [negb].
    unfold putAsReplicatorChange. cbn [fst snd].
    rewrite Hstamp1, Hstamp2, Hrid. cbn [ToString].
    split; [|split; [|split]].
    + eexists. by rewrite !app_assoc.
    + simpl. rewrite Hmarks. f_equal. f_equal.
      by destruct (truthy (field "replication_state" doc1)).
    + by apply truthy_VStr.
    + destruct Hfiled as [?|(signature & Hl & Heq)]; [done|].
      exists signature. split; [exact Hl|]. by split.
Qed.

(** ** The registry entries of the registered databases *)

Lemma aligned_dataFor db D : aligned D → db ∈ dbs D → is_Some (dataFor db D).
Proof.
  intros HD Hin. unfold dataFor.
  pose proof (indexOf_lower db (dbs D)) as Hlow.
  apply indexOf_elem in Hin as Hidx.
  destruct (indexOf_upper db (dbs D)) as [Hup|Hnil];
    [|rewrite Hnil in Hin; by apply elem_of_nil in Hin].
  destruct (Z.eqb_spec (indexOf db (dbs D)) (-1)); [done|].
  destruct (HD (Z.to_nat (indexOf db (dbs D)))) as ([? ->] & [? ->] & [[] ->]);
    [lia|]. eauto.
Qed.

Lemma aligned_store i data D : aligned D → aligned (store i data D).
Proof.
  intros HD j Hj. destruct (HD j Hj) as (H1 & H2 & H3). unfold store.
  cbn [activeReplicationsByDbIdxAndId
    activeReplicationSignaturesByDbIdxAndRepId changedByReplicatorByDbIdx].
  destruct (decide (i = j)) as [->|Hne].
  - repeat split.
    + destruct (activeReplicationsByDbIdxAndId D !! j) eqn:E;
        [|by destruct H1].
      rewrite list_lookup_insert_eq by (by eapply lookup_lt_Some). eauto.
    + destruct (activeReplicationSignaturesByDbIdxAndRepId D !! j) eqn:E;
        [|by destruct H2].
      rewrite list_lookup_insert_eq by (by eapply lookup_lt_Some). eauto.
    + rewrite list_lookup_alter_eq.
      destruct (changedByReplicatorByDbIdx D !! j) as [[[]|]|];
        simpl in *; eauto.
  - rewrite !list_lookup_insert_ne by done.
    by rewrite list_lookup_alter_ne by done.
Qed.

Lemma length_splice_indexOf `{EqDecision A} (x : A) l :
  x ∈ l → length l = S (length (splice (Finite (indexOf x l)) 1 l)).
Proof.
  intros (before & after & -> & Hnot)%list_elem_of_split_l.
  rewrite splice_indexOf by done. rewrite !length_app. simpl. lia.
Qed.

Lemma aligned_stopReplicator db w :
  aligned (dbData w) → aligned (dbData (stopReplicator db w).1).
Proof.
  intros HD. destruct (dataFor db (dbData w)) as [[i data]|] eqn:Hdata.
  2:{ unfold stopReplicator. by rewrite Hdata. }
  destruct (stopReplicator_dbData db w i data Hdata) as [-> _].
  apply dataFor_Some in Hdata as (Hi & Hin & _).
  intros j. cbn [dbs activeReplicationsByDbIdxAndId
    activeReplicationSignaturesByDbIdxAndRepId changedByReplicatorByDbIdx].
  pose proof (length_splice_indexOf db _ Hin) as Hlen.
  rewrite Hi, !lookup_splice. rewrite Hi in Hlen. intros Hj.
  apply HD. destruct (decide (j < i)%nat); lia.
Qed.

Lemma aligned_startReplicator db w :
  aligned (dbData w) → aligned (dbData (startReplicator db w).1).
Proof.
  intros HD. unfold startReplicator. case_bool_decide; [done|].
  intros j. cbn [fst dbData log set_dbData set_validating set_objects dbs
    activeReplicationsByDbIdxAndId
    activeReplicationSignaturesByDbIdxAndRepId changedByReplicatorByDbIdx].
  rewrite length_app. simpl. intros Hj.
  destruct (decide (j = length (dbs (dbData w)))) as [->|Hne].
  - rewrite !array_set_lookup. simpl. eauto.
  - rewrite !array_set_lookup_ne by done. apply HD. lia.
Qed.

Lemma aligned_run_onChanged db doc uuid now w w' :
  run_onChanged db doc uuid now w = Some w' →
  aligned (dbData w) → aligned (dbData w').
Proof.
  unfold run_onChanged. destruct (dataFor db (dbData w)) as [[i data]|];
    [|done].
  destruct (onChanged_throws doc data); [done|].
  destruct (onChanged _ _ _ _) as [[doc' data'] cmds]. intros [= <-] HD.
  destruct (exec_frame db cmds (set_dbData (store i data') w)) as (-> & _).
  by apply aligned_store.
Qed.

Lemma aligned_forEach_onChanged db rows w :
  aligned (dbData w) → aligned (dbData (forEach_onChanged db rows w).1).
Proof.
  revert w. induction rows as [|[[doc uuid] now] rows IH]; intros w HD;
    [done|].
  cbn [forEach_onChanged].
  destruct (run_onChanged db doc uuid now w) as [w1|] eqn:E.
  2:{ cbn [fst].
      by destruct (thrown_onChanged_quiet db doc uuid now w E) as (-> & _). }
  apply IH. by eapply aligned_run_onChanged.
Qed.

Lemma aligned_run_listeners ls p w :
  aligned (dbData w) → aligned (dbData (run_listeners ls p w)).
Proof.
  revert w. induction ls as [|l ls IH]; intros w HD; [done|].
  cbn [run_listeners].
  destruct (run_listener l p w) as [w1|] eqn:E.
  2:{ by destruct (thrown_quiet l p w E) as (-> & _). }
  apply IH.
  destruct l as [db|db docId|db docId|k h], p; cbn [run_listener] in E;
    try done.
  - by eapply aligned_run_onChanged.
  - injection E as <-. exact HD.
  - injection E as <-. exact HD.
  - by injection E as <-.
  - by injection E as <-.
Qed.

Lemma step_aligned e w : aligned (dbData w) → aligned (dbData (step e w)).
Proof.
  intros HD. destruct e; cbn [step].
  - by apply aligned_startReplicator.
  - done.
  - pose proof (aligned_forEach_onChanged db rows w HD) as H1.
    by destruct (forEach_onChanged db rows w) as [w1 []].
  - by apply aligned_stopReplicator.
  - unfold stopReplicator_then. destruct (stops w !! stop); [|done].
    by repeat case_bool_decide.
  - by apply aligned_run_listeners.
  - unfold run_updateExistingDoc_then.
    destruct (dataFor db (dbData w)) as [[i data]|]; [|done].
    destruct (updateExistingDoc_then _ _ _ _ _) as [[doc' data'] cmds].
    destruct (exec_frame db cmds (set_dbData (store i data') w)) as (-> & _).
    by apply aligned_store.
  - unfold run_put_failed.
    assert (aligned
      (mkDbData (dbs (dbData w)) (changesByDbIdx (dbData w))
         (activeReplicationsByDbIdxAndId (dbData w))
         (activeReplicationSignaturesByDbIdxAndRepId (dbData w))
         ((λ a : option (nat * list string),
             match a with
             | Some (r, marks) =>
                 if decide (r = array)
                 then Some (r, (putAsReplicatorChange_catch doc err marks).1)
                 else a
             | None => None
             end) <$> changedByReplicatorByDbIdx (dbData w)))) as HD'.
    { intros j Hj. destruct (HD j Hj) as (H1 & H2 & H3).
      split; [done|]. split; [done|]. simpl. rewrite list_lookup_fmap.
      destruct (changedByReplicatorByDbIdx (dbData w) !! j) as [[[r m]|]|];
        simpl in *; [|done..].
      destruct (decide (r = array)); eauto. }
    destruct retry as [[docId func]|]; [|done].
    match goal with |- context [exec ?d ?cmds ?w0] =>
      by destruct (exec_frame d cmds w0) as (-> & _)
    end.
Qed.

(** X23: in every world the event loop reaches, the databases that are
    registered are exactly those [dataFor] finds an entry for.  For a
    registered database [dataFor] therefore does not throw:
    [stopReplicator] is not answered with already_inactive but files its
    promise, which waits for the subscription to the feed and every
    replication of the database to report, or is rejected when the
    database is not subscribed to its feed yet; and [onChanged] throws
    for a document only where it cancels what it read under the id of
    the document. *)
Theorem registered_databases_have_entries es db :
  let w := run es initial in
    (db ∈ dbs (dbData w) ↔ is_Some (dataFor db (dbData w)))
  ∧ (db ∈ dbs (dbData w) →
     ∃ i data,
         dataFor db (dbData w) = Some (i, data)
       ∧ (stopReplicator db w).2 = None
       ∧ stops (stopReplicator db w).1
         = stops w
           ++ [match changes data with
               | Some _ =>
                   mkStop db
                     (1 + Z.of_nat (size (activeReplicationsById data)))
                     Cancelling
               | None => mkStop db 0 Failed
               end]
       ∧ ∀ doc uuid now,
           run_onChanged db doc uuid now w = None
           ↔ onChanged_throws doc data = true).
Proof.
  cbv zeta.
  assert (aligned (dbData (run es initial))) as HD.
  { assert (aligned (dbData initial)) as H0 by (intros i; simpl; lia).
    revert H0. generalize initial.
    induction es as [|e es IH]; intros w Hw; [done|].
    simpl. by apply IH, step_aligned. }
  assert (db ∈ dbs (dbData (run es initial)) →
          is_Some (dataFor db (dbData (run es initial)))) as Hentry
    by apply aligned_dataFor, HD.
  split; [split; [done|]|].
  - intros [[i data] Hdata]. by apply dataFor_Some in Hdata as (_ & ? & _).
  - intros [[i data] Hdata]%Hentry. exists i, data. split; [done|].
    split; [|split].
    + unfold stopReplicator. rewrite Hdata. by destruct (changes data).
    + destruct (changes data) as [feed|] eqn:Hfeed.
      * by destruct (stopReplicator_effect db _ i data feed Hdata Hfeed)
          as (? & _).
      * unfold stopReplicator. by rewrite Hdata, Hfeed.
    + intros doc uuid now. unfold run_onChanged. rewrite Hdata.
      destruct (onChanged_throws doc data); [done|].
      by destruct (onChanged _ _ _ _) as [[? ?] ?].
Qed.
(** ** The claims on concrete runs *)

Section Runs.
Import Scenario.

Local Ltac run := vm_compute; reflexivity.
Local Ltac decided := apply (bool_decide_unpack _); vm_compute; exact I.

(** The conversions where the doubles show: a decimal that rounds to
    the next integer, a no-break space (bytes 194 and 160) that is
    trimmed, a literal that overflows; numbers printed in full up to 21
    digits and in exponent notation beyond; integers that stand for the
    same double. *)
Lemma conversions_follow_doubles :
    ToIntegerOrInfinity "0.99999999999999999999" = Finite 1
  ∧ ToIntegerOrInfinity "0.9999999999999999" = Finite 0
  ∧ ToIntegerOrInfinity (String "194" (String "160" "1")) = Finite 1
  ∧ ToIntegerOrInfinity "rep3" = Finite 0
  ∧ ToIntegerOrInfinity "1e400" = PosInfinity
  ∧ ToString (VNum (10 ^ 21)) = "1e+21"
  ∧ ToString (VNum (10 ^ 21 - 1)) = "1e+21"
  ∧ ToString (VNum 123456789012345680000) = "123456789012345680000"
  ∧ ToString (VNum (2 ^ 70)) = "1.1805916207174113e+21"
  ∧ ToString (VArr [VNum 1; VNull; VArr [VStr "a"; VBool true]]) = "1,,a,true"
  ∧ equals (VNum (2 ^ 53 + 1)) (VNum (2 ^ 53)) = true
  ∧ printable (VObj {[ "toString" := VNum 1 ]}) = false.
Proof. repeat split; run. Qed.

(** C1: the code on the documents [old1] and [old2], which have the same
    fields and carry a state a former run of the replicator left.  The
    registry holds, under "u1", the signature of [old1], equal to that of
    [old2], and [old2] receives that id; but with the state triggered a
    replication is started for it all the same, and with the state
    completed the write-back changes a second field,
    replication_state_time. *)
Lemma equal_signature_restarts_or_stamps :
  (* the state triggered *)
    truthy (field "_deleted" (old2 "triggered")) = false
  ∧ activeReplicationSignaturesByRepId (registry (old1_run "triggered"))
      !! "u1"
    = Some (Some (delete "_rev" (fields (old2 "triggered"))))
  ∧ onChanged_throws (old2 "triggered") (registry (old1_run "triggered"))
    = false
  ∧ field "replication_id" (document (old2_run "triggered")) = VStr "u1"
  ∧ Replicate 8%nat (VStr "x") (VStr "y")
      (set_field "replication_id" (VStr "u1") (old2 "triggered"))
    ∈ commands (old2_run "triggered")
  ∧ activeReplicationsById (registry (old2_run "triggered")) !! "old2"
    = Some 8%nat
  (* the state completed *)
  ∧ truthy (field "_deleted" (old2 "completed")) = false
  ∧ activeReplicationSignaturesByRepId (registry (old1_run "completed"))
      !! "u1"
    = Some (Some (delete "_rev" (fields (old2 "completed"))))
  ∧ onChanged_throws (old2 "completed") (registry (old1_run "completed"))
    = false
  ∧ field "replication_id" (document (old2_run "completed")) = VStr "u1"
  ∧ field "replication_state_time" (old2 "completed") = VUndef
  ∧ field "replication_state_time" (document (old2_run "completed"))
    = VNum 20.
Proof. repeat split; first [run | decided]. Qed.

Lemma onChanged_joins_equal_signature_witness :
    signatures_keyed (registry rep1_echo)
  ∧ (_id rep2 ∉ changedByReplicator (registry rep1_echo))
  ∧ String.prefix "_design" (_id rep2) = false
  ∧ (_id rep2 ∉ Object_prototype)
  ∧ printable (field "replication_id" rep2) = true
  ∧ truthy (field "_deleted" rep2) = false
  ∧ (∃ repId signature,
        repId ≠ ToString (field "replication_id" rep2)
      ∧ activeReplicationSignaturesByRepId (registry rep1_echo) !! repId
        = Some (Some signature)
      ∧ equals (VObj signature) (VObj (delete "_rev" (fields rep2))) = true)
  ∧ ∃ repId,
      document (onChanged (mkEnv "u3" 12 9%nat) db rep2 (registry rep1_echo))
      = set_field "replication_id" (VStr repId) rep2.
Proof.
  assert (signatures_keyed (registry rep1_echo)) as H1
    by (intros signature; vm_compute; discriminate).
  assert (_id rep2 ∉ changedByReplicator (registry rep1_echo)) as H2
    by decided.
  assert (String.prefix "_design" (_id rep2) = false) as H3 by run.
  assert (_id rep2 ∉ Object_prototype) as H4 by decided.
  assert (printable (field "replication_id" rep2) = true) as Hp by run.
  assert (truthy (field "_deleted" rep2) = false) as H5 by run.
  assert (∃ repId signature,
        repId ≠ ToString (field "replication_id" rep2)
      ∧ activeReplicationSignaturesByRepId (registry rep1_echo) !! repId
        = Some (Some signature)
      ∧ equals (VObj signature) (VObj (delete "_rev" (fields rep2))) = true)
    as H6
    by (exists "u1", (delete "_rev" (fields rep1));
        split; [decided | split; run]).
  do 7 (split; [assumption|]).
  pose proof (onChanged_joins_equal_signature (mkEnv "u3" 12 9%nat) db
                rep2 (registry rep1_echo) H1 H2 H3 H4 Hp H5 H6) as H.
  destruct (onChanged _ _ _ _) as [[doc' data'] cmds].
  destruct H as (repId & signature & _ & _ & _ & _ & -> & _).
  by exists repId.
Defined.

(** C3 as stated fails.  The registry holds one signature, that of
    "rep1" under "u1".  The signature of [rep4] has a property more,
    named constructor, so no entry of the registry holds it; but the
    equals package leaves that property out of the comparison, and
    [rep4] receives the id "u1": no id is generated, the state is not
    set and no replication is started or registered.  And for a document
    whose id is constructor, [onChanged] throws where it would cancel
    what it read under that id, and for one that comes with an object
    for its replication id that has a property toString, where it looks
    up the signature filed under that id: nothing is assigned, started
    or registered. *)
Lemma constructor_property_or_id_is_not_triggered :
    truthy (field "_deleted" rep4) = false
  ∧ (_id rep4 ∉ changedByReplicator (registry rep1_echo))
  ∧ map_to_list (activeReplicationSignaturesByRepId (registry rep1_echo))
    = [("u1", Some (delete "_rev" (fields rep1)))]
  ∧ delete "_rev" (fields rep1) ≠ delete "_rev" (fields rep4)
  ∧ onChanged_throws rep4 (registry rep1_echo) = false
  ∧ field "replication_id" (document rep4_run) = VStr "u1"
  ∧ field "replication_state" (document rep4_run) = VUndef
  ∧ commands rep4_run
    = [Put (set_field "replication_id" (VStr "u1") rep4)
         ["_replicator"; "_admin"]]
  ∧ activeReplicationsById (registry rep4_run) !! "rep4" = None
  ∧ activeReplicationSignaturesByRepId (registry rep4_run) !! "u4" = None
  (* the id constructor *)
  ∧ truthy (field "_deleted" inherited) = false
  ∧ equals (VObj (delete "_rev" (fields rep1)))
      (VObj (delete "_rev" (fields inherited))) = false
  ∧ onChanged_throws inherited (registry rep1_echo) = true
  ∧ inherited_run = (inherited, registry rep1_echo, [])
  (* a replication id that makes no property key *)
  ∧ truthy (field "_deleted" rep5) = false
  ∧ equals (VObj (delete "_rev" (fields rep1)))
      (VObj (delete "_rev" (fields rep5))) = false
  ∧ onChanged_throws rep5 (registry rep1_echo) = true
  ∧ rep5_run = (rep5, registry rep1_echo, []).
Proof. repeat split; first [run | decided]. Qed.

Lemma onChanged_triggers_fresh_replication_witness :
    (_id rep1 ∉ changedByReplicator empty)
  ∧ String.prefix "_design" (_id rep1) = false
  ∧ (_id rep1 ∉ Object_prototype)
  ∧ printable (field "replication_id" rep1) = true
  ∧ truthy (field "_deleted" rep1) = false
  ∧ (∀ repId signature,
       activeReplicationSignaturesByRepId empty !! repId
       = Some (Some signature) →
       equals (VObj signature) (VObj (delete "_rev" (fields rep1))) = false)
  ∧ field "replication_id" (document rep1_run) = VStr "u1"
  ∧ field "replication_state" (document rep1_run) = VStr "triggered"
  ∧ activeReplicationsById (registry rep1_run) !! "rep1" = Some 7%nat
  ∧ activeReplicationSignaturesByRepId (registry rep1_run) !! "u1"
    = Some (Some (delete "_rev" (fields rep1))).
Proof.
  assert (_id rep1 ∉ changedByReplicator empty) as H1 by decided.
  assert (String.prefix "_design" (_id rep1) = false) as H2 by run.
  assert (_id rep1 ∉ Object_prototype) as H3 by decided.
  assert (printable (field "replication_id" rep1) = true) as Hp by run.
  assert (truthy (field "_deleted" rep1) = false) as H4 by run.
  assert (∀ repId signature,
            activeReplicationSignaturesByRepId empty !! repId
            = Some (Some signature) →
            equals (VObj signature) (VObj (delete "_rev" (fields rep1)))
            = false) as H5
    by (intros repId signature Hl; simpl in Hl;
        rewrite lookup_empty in Hl; discriminate Hl).
  do 6 (split; [assumption|]).
  pose proof (onChanged_triggers_fresh_replication (mkEnv "u1" 10 7%nat)
                db rep1 empty H1 H2 H3 Hp H4 H5) as H.
  unfold rep1_run, document, registry.
  destruct (onChanged _ _ _ _) as [[doc' data'] cmds]. cbn [fst snd].
  destruct H as (_ & Hid & Hstate & _ & _ & _ & Hjob & Hsig).
  split; [exact Hid|]. split; [exact Hstate|]. split; [exact Hjob|].
  exact Hsig.
Defined.

(** C8: the code on the tombstone [db.remove] writes for "rep1", whose
    replication runs as number 7 with its signature filed under "u1".
    The tombstone carries no replication id: the replication is
    cancelled and its entry removed, but it is the key "undefined" that
    is deleted among the signatures, and the signature of the cancelled
    replication stays under "u1".  A document of equal signature stored
    afterwards receives the id "u1": for it no replication is started,
    and none runs. *)
Lemma tombstone_leaves_bookkeeping :
    activeReplicationsById (registry rep1_echo) !! "rep1" = Some 7%nat
  ∧ activeReplicationSignaturesByRepId (registry rep1_echo) !! "u1"
    = Some (Some (delete "_rev" (fields rep1)))
  ∧ truthy (field "_deleted" rep1_tombstone) = true
  ∧ ToString (field "replication_id" rep1_tombstone) = "undefined"
  ∧ commands rep1_removed = [Cancel 7%nat]
  ∧ activeReplicationsById (registry rep1_removed) = ∅
  ∧ activeReplicationSignaturesByRepId (registry rep1_removed) !! "u1"
    = Some (Some (delete "_rev" (fields rep1)))
  (* a document of equal signature, afterwards *)
  ∧ truthy (field "_deleted" rep2) = false
  ∧ field "replication_id" (document rep2_late) = VStr "u1"
  ∧ field "replication_state" (document rep2_late) = VUndef
  ∧ commands rep2_late
    = [Put (set_field "replication_id" (VStr "u1") rep2)
         ["_replicator"; "_admin"]]
  ∧ activeReplicationsById (registry rep2_late) = ∅.
Proof. repeat split; first [run | decided]. Qed.

Lemma onChanged_tombstone_cancels_witness :
    (_id rep1_deleted_body ∉ changedByReplicator (registry rep1_echo))
  ∧ String.prefix "_design" (_id rep1_deleted_body) = false
  ∧ truthy (field "_deleted" rep1_deleted_body) = true
  ∧ activeReplicationsById (registry rep1_echo) !! _id rep1_deleted_body
    = Some 7%nat
  ∧ printable (field "replication_id" rep1_deleted_body) = true
  ∧ field "replication_state" rep1_deleted_body = VStr "triggered"
  ∧ document rep1_removed_body = rep1_deleted_body
  ∧ commands rep1_removed_body
    = [Cancel 7%nat;
       Replicate 9%nat (VStr "x") (VStr "y") rep1_deleted_body;
       On 9%nat complete (OnReplicationComplete db "rep1");
       On 9%nat error (OnReplicationError db "rep1")].
Proof.
  assert (_id rep1_deleted_body ∉ changedByReplicator (registry rep1_echo))
    as H1 by decided.
  assert (String.prefix "_design" (_id rep1_deleted_body) = false) as H2
    by run.
  assert (truthy (field "_deleted" rep1_deleted_body) = true) as H3 by run.
  assert (activeReplicationsById (registry rep1_echo)
            !! _id rep1_deleted_body = Some 7%nat) as H4 by run.
  assert (printable (field "replication_id" rep1_deleted_body) = true)
    as Hp by run.
  assert (field "replication_state" rep1_deleted_body = VStr "triggered")
    as H5 by run.
  do 6 (split; [assumption|]).
  pose proof (onChanged_tombstone_cancels (mkEnv "u3" 12 9%nat) db
                rep1_deleted_body (registry rep1_echo) 7%nat H1 H2 H3 H4 Hp)
    as H.
  unfold rep1_removed_body, document, commands.
  destruct (onChanged _ _ _ _) as [[doc' data'] cmds]. cbn [fst snd].
  rewrite (bool_decide_eq_true_2 _ H5) in H.
  destruct H as (_ & Hdoc & _ & _ & _ & Hcmds & _).
  split; [exact Hdoc|]. rewrite Hcmds. reflexivity.
Defined.

(** C2 fails on the code: [onChanged] hands the document id itself to
    [splice], where the index of the mark belongs.  With the marks of
    "rep1" and "rep3" pending, the echo for "rep3" is dismissed but it
    is the mark of "rep1" (index 0, "rep3" reading as NaN) that goes and
    that of "rep3" that stays; the echo for "rep1", when it comes, is
    reconciled like a user's edit: replication 7 is cancelled and
    another one started.  And the mark of a document whose id reads as
    the number 1 is never removed by its echo. *)
Lemma self_write_mark_removed_by_id :
    changedByReplicator (registry rep3_run) = ["rep1"; "rep3"]
  ∧ _id (document rep3_run) = "rep3"
  ∧ commands rep3_echo = []
  ∧ changedByReplicator (registry rep3_echo) = ["rep3"]
  ∧ Cancel 7%nat ∈ commands rep1_late_echo
  ∧ (∃ source target options,
       Replicate 11%nat source target options ∈ commands rep1_late_echo)
  ∧ changedByReplicator (registry numbered_run) = ["1"]
  ∧ commands numbered_echo = []
  ∧ changedByReplicator (registry numbered_echo) = ["1"].
Proof.
  repeat split; try first [run | decided].
  eexists _, _, _. apply list_elem_of_further, list_elem_of_here.
Qed.

Lemma start_twice_and_stop_unstarted_witness :
    db ∈ dbs (dbData (run [Start db] initial))
  ∧ (1%nat ∉ dbs (dbData (run [Start db] initial)))
  ∧ startReplicator db (run [Start db] initial)
    = (run [Start db] initial, Some already_active)
  ∧ stopReplicator 1%nat (run [Start db] initial)
    = (run [Start db] initial, Some already_inactive).
Proof.
  assert (db ∈ dbs (dbData (run [Start db] initial))) as H1 by decided.
  assert (1%nat ∉ dbs (dbData (run [Start db] initial))) as H2 by decided.
  repeat (split; [assumption|]).
  destruct (start_twice_and_stop_unstarted [Start db] initial db)
    as (Hstart & _ & _).
  destruct (start_twice_and_stop_unstarted [Start db] initial 1%nat)
    as (_ & Hstop & _).
  split; [apply Hstart; by left | by apply Hstop].
Defined.




Lemma putAsReplicatorChange_marks_then_puts_witness :
    truthy (field "replication_state" (old1 "completed")) = true
  ∧ field "replication_state_time" (old1 "completed") = VUndef
  ∧ field "replication_state_time"
      (putAsReplicatorChange 20 (old1 "completed") (registry rep1_echo)).1.1
    = VNum 20
  ∧ changedByReplicator
      (putAsReplicatorChange 20 (old1 "completed") (registry rep1_echo)).1.2
    = ["old1"]
  ∧ truthy (field "replication_state" rep2) = false
  ∧ (putAsReplicatorChange 20 rep2 (registry rep1_echo)).1.1 = rep2
  ∧ changedByReplicator
      (putAsReplicatorChange 20 rep2 (registry rep1_echo)).1.2
    = ["rep2"]
  ∧ (putAsReplicatorChange 20 rep2 (registry rep1_echo)).2
    = Put rep2 ["_replicator"; "_admin"].
Proof.
  assert (truthy (field "replication_state" (old1 "completed")) = true)
    as H1 by run.
  assert (field "replication_state_time" (old1 "completed") = VUndef)
    as H2 by run.
  assert (truthy (field "replication_state" rep2) = false) as H3 by run.
  assert (changedByReplicator (registry rep1_echo) = []) as H4 by run.
  split; [exact H1|]. split; [exact H2|].
  pose proof (putAsReplicatorChange_marks_then_puts 20 (old1 "completed")
                (registry rep1_echo)) as Hold.
  pose proof (putAsReplicatorChange_marks_then_puts 20 rep2
                (registry rep1_echo)) as Hnew.
  destruct (putAsReplicatorChange 20 (old1 "completed") (registry rep1_echo))
    as [[doc1 data1] put1].
  destruct (putAsReplicatorChange 20 rep2 (registry rep1_echo))
    as [[doc2 data2] put2].
  cbn [fst snd]. rewrite H1 in Hold. rewrite H3 in Hnew.
  destruct Hold as (_ & [Htime _] & Hmarks1 & _).
  destruct Hnew as (_ & Hsame & Hmarks2 & _ & _ & _ & Hput & _).
  split; [exact Htime|]. split; [by rewrite Hmarks1, H4|].
  split; [exact H3|]. split; [exact Hsame|].
  split; [by rewrite Hmarks2, H4|]. by rewrite Hput, Hsame.
Defined.

Lemma superseded_replication_still_reports_witness :
    dataFor db (dbData echoed) = Some (0%nat, registry_of echoed)
  ∧ listeners_of 2%nat change echoed = [OnChange db]
  ∧ activeReplicationsById (registry_of echoed) !! _id rep1_retargeted
    = Some 1%nat
  ∧ listeners_of 1%nat complete echoed = [OnReplicationComplete db "rep1"]
  ∧ (_id rep1_retargeted ∉ changedByReplicator (registry_of echoed))
  ∧ printable (field "replication_id" rep1_retargeted) = true
  ∧ field "replication_id" rep1_restarted = VStr "u3"
  ∧ Did db (Cancel 1%nat)
    ∈ calls (step (Emit 2%nat change (Change rep1_retargeted "u3" 12))
               echoed)
  ∧ ∃ written,
        Did db (Put written ["_replicator"; "_admin"])
        ∈ calls
            (run [Emit 2%nat change (Change rep1_retargeted "u3" 12);
                  Emit 1%nat complete (Info finished);
                  Fetched db "rep1"
                    (SetCompleted (delete "ok" (delete "status" finished)))
                    rep1_restarted 30]
               echoed)
      ∧ field "replication_state" written = VStr "completed".
Proof.
  assert (dataFor db (dbData echoed) = Some (0%nat, registry_of echoed))
    as H1 by run.
  assert (listeners_of 2%nat change echoed = [OnChange db]) as H2 by run.
  assert (activeReplicationsById (registry_of echoed) !! _id rep1_retargeted
          = Some 1%nat) as H3 by run.
  assert (listeners_of 1%nat complete echoed
          = [OnReplicationComplete db "rep1"]) as H4 by run.
  assert (1%nat ≠ objects echoed) as H5 by decided.
  assert (_id rep1_retargeted ∉ changedByReplicator (registry_of echoed))
    as H6 by decided.
  assert (String.prefix "_design" (_id rep1_retargeted) = false) as H7
    by run.
  assert (truthy (field "_deleted" rep1_retargeted) = false) as H8 by run.
  assert (printable (field "replication_id" rep1_retargeted) = true) as Hp
    by run.
  assert (∀ repId signature,
            activeReplicationSignaturesByRepId (registry_of echoed) !! repId
            = Some (Some signature) →
            equals (VObj signature)
              (VObj (delete "_rev" (fields rep1_retargeted))) = false) as H9.
  { assert (activeReplicationSignaturesByRepId (registry_of echoed)
            = {[ "u1" := Some (delete "_rev" (fields rep1)) ]}) as -> by run.
    intros repId signature [_ [= <-]]%lookup_singleton_Some. run. }
  assert (_id rep1_restarted = _id rep1_retargeted) as H10 by run.
  assert (field "replication_id" rep1_restarted = VStr "u3") as H11 by run.
  repeat (split; [assumption|]).
  destruct (superseded_replication_still_reports echoed db 0%nat
              (registry_of echoed) 2%nat 1%nat rep1_retargeted "u3" 12
              finished rep1_restarted 30 H1 H2 H3 H4 H5 H6 H7 H8 Hp H9 H10
              H11)
    as (Hcancel & _ & _ & _ & _ & written & Hput & Hstate & _).
  split; [exact Hcancel|]. exists written. by split.
Defined.

Lemma stopReplicator_waits_for_terminal_notifications_witness :
    consistent echoed
  ∧ dataFor db (dbData echoed) = Some (0%nat, registry_of echoed)
  ∧ changes (registry_of echoed) = Some 2%nat
  ∧ promise <$> stops stopped !! 0%nat = Some Stopped
  ∧ (db ∉ validating stopped)
  ∧ terminated 2%nat reports
  ∧ terminated 1%nat reports.
Proof.
  assert (consistent echoed) as H1
    by (apply step_consistent, run_consistent, initial_consistent).
  assert (dataFor db (dbData echoed) = Some (0%nat, registry_of echoed))
    as H2 by run.
  assert (changes (registry_of echoed) = Some 2%nat) as H3 by run.
  assert (promise <$> stops stopped !! 0%nat = Some Stopped) as H4 by run.
  assert (db ∉ validating stopped) as H5 by decided.
  repeat (split; [assumption|]).
  destruct (stopReplicator_waits_for_terminal_notifications echoed db
              0%nat (registry_of echoed) 2%nat reports H1 H2 H3)
    as (s & _ & _ & Hwait).
  assert (∀ h, h ∈ 2%nat
                 :: (map_to_list
                       (activeReplicationsById (registry_of echoed))).*2 →
               terminated h reports) as Hall
    by (apply Hwait; right; exact H5).
  split; apply Hall.
  - apply list_elem_of_here.
  - apply list_elem_of_further.
    assert ((map_to_list (activeReplicationsById (registry_of echoed))).*2
            = [1%nat]) as -> by run.
    apply list_elem_of_here.
Defined.

Lemma onChanged_skips_design_documents_witness :
    String.prefix "_design" (_id design) = true
  ∧ onChanged (mkEnv "u9" 50 9%nat) db design (registry rep1_echo)
    = (design, registry rep1_echo, []).
Proof.
  assert (String.prefix "_design" (_id design) = true) as H1 by run.
  split; [assumption|].
  destruct (onChanged_skips_design_documents (mkEnv "u9" 50 9%nat) db
              design (registry rep1_echo) H1)
    as (Hcmds & Hdoc & _ & _ & Hdata).
  destruct (onChanged _ _ _ _) as [[doc' data'] cmds]. cbn [fst snd] in *.
  rewrite Hcmds, Hdoc, Hdata; [reflexivity|]. decided.
Defined.

Lemma onChanged_dismisses_self_writes_witness :
    _id rep1_stored ∈ changedByReplicator (registry rep1_run)
  ∧ commands
      (onChanged (mkEnv "u2" 11 8%nat) db rep1_stored (registry rep1_run))
    = [].
Proof.
  assert (_id rep1_stored ∈ changedByReplicator (registry rep1_run)) as H1
    by decided.
  split; [assumption|].
  destruct (onChanged_dismisses_self_writes (mkEnv "u2" 11 8%nat) db
              rep1_stored (registry rep1_run) H1) as [Hnone _].
  exact Hnone.
Defined.

Lemma echoes_in_order_clear_the_marks_witness :
    Forall (λ doc, ToIntegerOrInfinity (_id doc) = Finite 0)
      [rep1_stored; rep3_stored]
  ∧ changedByReplicator (registry rep3_run)
    = (_id <$> [rep1_stored; rep3_stored]) ++ []
  ∧ foldl (λ acc doc,
             let r := onChanged (mkEnv "u4" 13 10%nat) db doc acc.1 in
             (r.1.2, acc.2 ++ r.2))
      (registry rep3_run, []) [rep1_stored; rep3_stored]
    = (set_changedByReplicator (λ _, []) (registry rep3_run), []).
Proof.
  assert (Forall (λ doc, ToIntegerOrInfinity (_id doc) = Finite 0)
            [rep1_stored; rep3_stored]) as H1
    by (repeat constructor; run).
  assert (changedByReplicator (registry rep3_run)
          = (_id <$> [rep1_stored; rep3_stored]) ++ []) as H2 by run.
  split; [exact H1|]. split; [exact H2|].
  exact (echoes_in_order_clear_the_marks (mkEnv "u4" 13 10%nat) db
           [rep1_stored; rep3_stored] (registry rep3_run) [] H1 H2).
Defined.

Lemma failed_put_without_mark_drops_last_witness :
    (_id rep1_stored ∉ ["rep3"])
  ∧ putAsReplicatorChange_catch rep1_stored conflict ["rep3"]
    = ([], Thrown conflict).
Proof.
  assert (_id rep1_stored ∉ ["rep3"]) as H1 by decided.
  split; [assumption|].
  exact (failed_put_without_mark_drops_last rep1_stored conflict ["rep3"]
           H1).
Defined.

Lemma startReplicator_registers_empty_entry_witness :
    (db ∉ validating initial)
  ∧ (db ∉ dbs (dbData initial))
  ∧ dataFor db (dbData (startReplicator db initial).1)
    = Some (0%nat, mkData None ∅ ∅ []).
Proof.
  assert (db ∉ validating initial) as H1 by decided.
  assert (db ∉ dbs (dbData initial)) as H2 by decided.
  do 2 (split; [assumption|]).
  destruct (startReplicator_registers_empty_entry db initial H1 H2)
    as (_ & _ & _ & Hdata & _).
  exact Hdata.
Defined.

Lemma startReplicator_subscribe_files_feed_witness :
    dataFor db (dbData (run [Start db; DesignDocSettled db] initial))
    = Some (0%nat, empty)
  ∧ changes
      (registry_of
         (startReplicator_subscribe db 0
            (run [Start db; DesignDocSettled db] initial)))
    = Some 1%nat.
Proof.
  assert (dataFor db (dbData (run [Start db; DesignDocSettled db] initial))
          = Some (0%nat, empty)) as H1 by run.
  split; [assumption|].
  destruct (startReplicator_subscribe_files_feed db 0%nat 0%nat empty _ H1)
    as (_ & _ & _ & Hdata).
  unfold registry_of. rewrite Hdata. reflexivity.
Defined.

Lemma stopReplicator_twice_is_rejected_witness :
    NoDup (dbs (dbData echoed))
  ∧ dataFor db (dbData echoed) = Some (0%nat, registry_of echoed)
  ∧ (stopReplicator db (stopReplicator db echoed).1).2
    = Some already_inactive.
Proof.
  assert (NoDup (dbs (dbData echoed))) as H1 by decided.
  assert (dataFor db (dbData echoed) = Some (0%nat, registry_of echoed))
    as H2 by run.
  do 2 (split; [assumption|]).
  destruct (stopReplicator_twice_is_rejected db echoed 0%nat
              (registry_of echoed) H1 H2) as (_ & _ & ->).
  reflexivity.
Defined.

Lemma stopReplicator_keeps_other_entries_witness :
    dataFor 0%nat (dbData two) = Some (0%nat, empty)
  ∧ 1%nat ≠ 0%nat
  ∧ dataFor 1%nat (dbData two) = Some (1%nat, empty)
  ∧ dataFor 1%nat (dbData (stopReplicator 0%nat two).1)
    = Some (0%nat, empty).
Proof.
  assert (dataFor 0%nat (dbData two) = Some (0%nat, empty)) as H1 by run.
  assert (1%nat ≠ 0%nat) as H2 by decided.
  assert (dataFor 1%nat (dbData two) = Some (1%nat, empty)) as H3 by run.
  do 3 (split; [assumption|]).
  rewrite (stopReplicator_keeps_other_entries 0%nat 1%nat two 0%nat empty
             H1 H2), H3.
  reflexivity.
Defined.

Lemma stopReplicator_before_subscription_witness :
    NoDup (dbs (dbData (run [Start db] initial)))
  ∧ db ∈ validating (run [Start db] initial)
  ∧ dataFor db (dbData (run [Start db] initial)) = Some (0%nat, empty)
  ∧ changes empty = None
  ∧ startReplicator db (stopReplicator db (run [Start db] initial)).1
    = ((stopReplicator db (run [Start db] initial)).1, Some already_active).
Proof.
  assert (NoDup (dbs (dbData (run [Start db] initial)))) as H1 by decided.
  assert (db ∈ validating (run [Start db] initial)) as H2 by decided.
  assert (dataFor db (dbData (run [Start db] initial))
          = Some (0%nat, empty)) as H3 by run.
  assert (changes empty = None) as H4 by run.
  do 4 (split; [assumption|]).
  destruct (stopReplicator_before_subscription db _ 0%nat empty H1 H2 H3 H4)
    as (_ & _ & _ & _ & Hstart & _).
  exact Hstart.
Defined.

Lemma resolved_stop_uninstalls_validation_witness :
    stops (run cancelled initial) !! 0%nat = Some (mkStop db 0 Cancelled)
  ∧ promise (mkStop db 0 Cancelled) = Cancelled
  ∧ stops (step (StopThen 0) (run cancelled initial)) !! 0%nat
    = Some (mkStop db 0 Stopped)
  ∧ (startReplicator db (step (StopThen 0) (run cancelled initial))).2
    = None.
Proof.
  assert (stops (run cancelled initial) !! 0%nat
          = Some (mkStop db 0 Cancelled)) as H1 by run.
  assert (promise (mkStop db 0 Cancelled) = Cancelled) as H2 by run.
  do 2 (split; [assumption|]).
  destruct (resolved_stop_uninstalls_validation cancelled 0%nat
              (mkStop db 0 Cancelled) H1 H2)
    as (Hstop & _ & _ & Hstart).
  split; [exact Hstop | exact Hstart].
Defined.


Lemma stopReplicator_cancels_feed_and_replications_witness :
    dataFor db (dbData echoed) = Some (0%nat, registry_of echoed)
  ∧ changes (registry_of echoed) = Some 2%nat
  ∧ stops (stopReplicator db echoed).1 = [mkStop db 2 Cancelling]
  ∧ db ∈ validating (stopReplicator db echoed).1.
Proof.
  assert (dataFor db (dbData echoed) = Some (0%nat, registry_of echoed))
    as H1 by run.
  assert (changes (registry_of echoed) = Some 2%nat) as H2 by run.
  do 2 (split; [assumption|]).
  destruct (stopReplicator_cancels_feed_and_replications db echoed 0%nat
              (registry_of echoed) 2%nat H1 H2)
    as (_ & Hstops & Hval & _).
  split.
  - rewrite Hstops. run.
  - rewrite Hval. decided.
Defined.

Lemma startup_reconciles_then_subscribes_witness :
    dataFor db (dbData (run [Start db; DesignDocSettled db] initial))
    = Some (0%nat, empty)
  ∧ Forall (λ row : Doc * string * Z, reconcilable row.1.1)
      [(rep1, "u1", 10)]
  ∧ ∃ feed, changes (registry_of started) = Some feed.
Proof.
  assert (dataFor db (dbData (run [Start db; DesignDocSettled db] initial))
          = Some (0%nat, empty)) as H1 by run.
  assert (Forall (λ row : Doc * string * Z, reconcilable row.1.1)
            [(rep1, "u1", 10)]) as H2
    by (constructor; [split; [decided | run] | constructor]).
  do 2 (split; [assumption|]).
  destruct (startup_reconciles_then_subscribes db 0%nat empty
              [(rep1, "u1", 10)] _ H1 H2)
    as (feed & data' & _ & Hdata & Hfeed & _).
  exists feed. unfold registry_of.
  change started
    with (step (AllDocsFetched db 0 [(rep1, "u1", 10)])
            (run [Start db; DesignDocSettled db] initial)).
  rewrite Hdata. exact Hfeed.
Defined.

Lemma onChanged_throws_on_inherited_id_witness :
    _id inherited ∈ Object_prototype
  ∧ (_id inherited ∉ changedByReplicator (registry_of echoed))
  ∧ activeReplicationsById (registry_of echoed) !! _id inherited = None
  ∧ dataFor db (dbData echoed) = Some (0%nat, registry_of echoed)
  ∧ listeners_of 2%nat change echoed = [OnChange db]
  ∧ step (Emit 2%nat change (Change inherited "u5" 14)) echoed = echoed.
Proof.
  assert (_id inherited ∈ Object_prototype) as H1 by decided.
  assert (_id inherited ∉ changedByReplicator (registry_of echoed)) as H2
    by decided.
  assert (activeReplicationsById (registry_of echoed) !! _id inherited
          = None) as H3 by run.
  assert (dataFor db (dbData echoed) = Some (0%nat, registry_of echoed))
    as H4 by run.
  assert (listeners_of 2%nat change echoed = [OnChange db]) as H5 by run.
  do 5 (split; [assumption|]).
  destruct (onChanged_throws_on_inherited_id (mkEnv "u5" 14 3%nat) db
              inherited (registry_of echoed) H1 H2 H3) as (_ & _ & Hworld).
  destruct (Hworld echoed 0%nat "u5" 14 H4) as (_ & Hemit & _).
  exact (Hemit 2%nat H5).
Defined.

Lemma onChanged_throws_on_unprintable_replication_id_witness :
    (_id rep1_unprintable ∉ changedByReplicator (registry_of echoed))
  ∧ String.prefix "_design" (_id rep1_unprintable) = false
  ∧ cancel_oldReplication rep1_unprintable (registry_of echoed)
    = Some [Cancel 1%nat]
  ∧ printable (field "replication_id" rep1_unprintable) = false
  ∧ dataFor db (dbData echoed) = Some (0%nat, registry_of echoed)
  ∧ listeners_of 2%nat change echoed = [OnChange db]
  ∧ calls (step (Emit 2%nat change (Change rep1_unprintable "u3" 12)) echoed)
    = calls echoed ++ [Did db (Cancel 1%nat)]
  ∧ dbData (step (Emit 2%nat change (Change rep1_unprintable "u3" 12)) echoed)
    = dbData echoed.
Proof.
  assert (_id rep1_unprintable ∉ changedByReplicator (registry_of echoed))
    as H1 by decided.
  assert (String.prefix "_design" (_id rep1_unprintable) = false) as H2
    by run.
  assert (cancel_oldReplication rep1_unprintable (registry_of echoed)
          = Some [Cancel 1%nat]) as H3 by run.
  assert (printable (field "replication_id" rep1_unprintable) = false)
    as H4 by run.
  assert (dataFor db (dbData echoed) = Some (0%nat, registry_of echoed))
    as H5 by run.
  assert (listeners_of 2%nat change echoed = [OnChange db]) as H6 by run.
  do 6 (split; [assumption|]).
  destruct (onChanged_throws_on_unprintable_replication_id
              (mkEnv "u3" 12 3%nat) db rep1_unprintable (registry_of echoed)
              [Cancel 1%nat] H1 H2 H3 H4) as (_ & _ & _ & Hworld).
  destruct (Hworld echoed 0%nat "u3" 12 H5) as (_ & Hemit & _).
  rewrite (Hemit 2%nat H6). split; reflexivity.
Defined.

Lemma stop_before_subscription_wedges_witness :
    consistent (run [Start db] initial)
  ∧ dataFor db (dbData (run [Start db] initial)) = Some (0%nat, empty)
  ∧ changes empty = None
  ∧ (startReplicator db
       (run [DesignDocSettled db; AllDocsFetched db 0 []; Start db]
          (stopReplicator db (run [Start db] initial)).1)).2
    = Some already_active.
Proof.
  assert (consistent (run [Start db] initial)) as H1
    by apply run_consistent, initial_consistent.
  assert (dataFor db (dbData (run [Start db] initial))
          = Some (0%nat, empty)) as H2 by run.
  assert (changes empty = None) as H3 by run.
  do 3 (split; [assumption|]).
  destruct (stop_before_subscription_wedges db _ 0%nat empty
              [DesignDocSettled db; AllDocsFetched db 0 []; Start db]
              H1 H2 H3) as (_ & -> & _).
  reflexivity.
Defined.

Lemma stopReplicator_resolves_when_all_reported_witness :
    dataFor db (dbData (run subscribed initial))
    = Some (0%nat, registry_of echoed)
  ∧ changes (registry_of echoed) = Some 2%nat
  ∧ Forall well_formed replies
  ∧ reported 2%nat replies
  ∧ reported 1%nat replies
  ∧ promise
      <$> stops
            (step (StopThen 0)
               (run replies (stopReplicator db (run subscribed initial)).1))
          !! 0%nat
    = Some Stopped.
Proof.
  assert (dataFor db (dbData (run subscribed initial))
          = Some (0%nat, registry_of echoed)) as H1 by run.
  assert (changes (registry_of echoed) = Some 2%nat) as H2 by run.
  assert (Forall well_formed replies) as H3 by (by repeat constructor).
  assert (reported 2%nat replies) as H4.
  { exists complete, ∅. split; [done|]. apply list_elem_of_here. }
  assert (reported 1%nat replies) as H5.
  { exists complete, finished. split; [done|].
    apply list_elem_of_further, list_elem_of_here. }
  do 5 (split; [assumption|]).
  assert (∀ h, h ∈ 2%nat
                 :: (map_to_list
                       (activeReplicationsById (registry_of echoed))).*2 →
               reported h replies) as H6.
  { assert ((map_to_list (activeReplicationsById (registry_of echoed))).*2
            = [1%nat]) as -> by run.
    intros h [->|[->|[]%elem_of_nil]%elem_of_cons]%elem_of_cons;
      assumption. }
  destruct (stopReplicator_resolves_when_all_reported subscribed db 0%nat
              (registry_of echoed) 2%nat replies H1 H2 H3 H6)
    as (s & _ & _ & Hthen).
  assert (length (stops (run subscribed initial)) = 0%nat) as Hstop by run.
  rewrite Hstop in Hthen. exact Hthen.
Defined.

Lemma stopped_database_ignores_changes_witness :
    dataFor db (dbData echoed) = Some (0%nat, registry_of echoed)
  ∧ changes (registry_of echoed) = Some 2%nat
  ∧ step (Emit 2%nat change (Change rep1_retargeted "u3" 12))
      (stopReplicator db echoed).1
    = (stopReplicator db echoed).1.
Proof.
  assert (dataFor db (dbData echoed) = Some (0%nat, registry_of echoed))
    as H1 by run.
  assert (changes (registry_of echoed) = Some 2%nat) as H2 by run.
  do 2 (split; [assumption|]).
  destruct (stopped_database_ignores_changes db echoed 0%nat
              (registry_of echoed) 2%nat
              (Change rep1_retargeted "u3" 12) H1 H2) as [_ Hstep].
  exact Hstep.
Defined.

Lemma stopped_replication_is_not_recorded_witness :
    NoDup (dbs (dbData echoed))
  ∧ dataFor db (dbData echoed) = Some (0%nat, registry_of echoed)
  ∧ changes (registry_of echoed) = Some 2%nat
  ∧ listeners_of 1%nat complete echoed = [OnReplicationComplete db "rep1"]
  ∧ Forall (λ e, e ≠ Start db)
      [Emit 2%nat complete (Info ∅); StopThen 0; Start 1%nat]
  ∧ Did db (Get "rep1"
              (SetCompleted (delete "ok" (delete "status" finished))))
    ∈ calls (step (Emit 1%nat complete (Info finished))
               (stopReplicator db echoed).1)
  ∧ dataFor db
      (dbData
         (run [Emit 2%nat complete (Info ∅); StopThen 0; Start 1%nat]
            (step (Emit 1%nat complete (Info finished))
               (stopReplicator db echoed).1)))
    = None.
Proof.
  assert (NoDup (dbs (dbData echoed))) as H1 by decided.
  assert (dataFor db (dbData echoed) = Some (0%nat, registry_of echoed))
    as H2 by run.
  assert (changes (registry_of echoed) = Some 2%nat) as H3 by run.
  assert (listeners_of 1%nat complete echoed
          = [OnReplicationComplete db "rep1"]) as H4 by run.
  assert (Forall (λ e, e ≠ Start db)
            [Emit 2%nat complete (Info ∅); StopThen 0; Start 1%nat]) as H5
    by (repeat constructor; discriminate).
  do 5 (split; [assumption|]).
  destruct (stopped_replication_is_not_recorded db echoed 0%nat
              (registry_of echoed) 2%nat 1%nat "rep1" finished rep1_stored 30
              [Emit 2%nat complete (Info ∅); StopThen 0; Start 1%nat]
              H1 H2 H3 H4 H5) as (Hget & Hgone & _).
  split; [exact Hget | exact Hgone].
Defined.

Lemma onChanged_writes_back_live_documents_witness :
    (_id rep1 ∉ changedByReplicator empty)
  ∧ String.prefix "_design" (_id rep1) = false
  ∧ (_id rep1 ∉ Object_prototype)
  ∧ printable (field "replication_id" rep1) = true
  ∧ truthy (field "_deleted" rep1) = false
  ∧ field "replication_id" rep1 ≠ VStr "u1"
  ∧ "u1" ≠ ""
  ∧ changedByReplicator (registry rep1_run) = ["rep1"].
Proof.
  assert (_id rep1 ∉ changedByReplicator empty) as H1 by decided.
  assert (String.prefix "_design" (_id rep1) = false) as H2 by run.
  assert (_id rep1 ∉ Object_prototype) as H3 by decided.
  assert (printable (field "replication_id" rep1) = true) as Hp by run.
  assert (truthy (field "_deleted" rep1) = false) as H4 by run.
  assert (field "replication_id" rep1 ≠ VStr "u1") as H5 by decided.
  assert ("u1" ≠ "") as H6 by decided.
  do 7 (split; [assumption|]).
  destruct (onChanged_writes_back_live_documents (mkEnv "u1" 10 7%nat) db
              rep1 empty H1 H2 H3 Hp H4 H5 H6) as (_ & _ & Hmarks & _).
  exact Hmarks.
Defined.

End Runs.
